(** * NanoLeaf display usermod: segment layout, rendering and mode logic

    A shallow embedding of [usermods/NanoLeaf_Display/usermod_nanoleaf_display.h]:
    the glyph table [DIGITS], the per-digit blanking loop [setDigit], the
    colour propagation of the two-tone and temperature/humidity modes, the
    rate-limited sensor read and the re-wiring done by [readFromConfig].

    C++ [int] values are modelled as [Z]; every arithmetic expression of the
    usermod stays far away from the 32-bit limits, except the [millis()]
    difference, whose unsigned wrap-around is written out.  Undefined
    behaviour (an array index out of range, a segment pointer that was never
    assigned) is modelled as [None] in the option monad. *)

From Stdlib Require Import ZArith Lia List.
From stdpp Require Import base numbers option list functions.

Open Scope Z_scope.

(** ** Constants of the usermod *)

Definition NUM_OF_SEGMENTS : Z := 28.
Definition ADDR_LEDS_PER_SEG : Z := 3.
Definition SEGS_PER_DIGIT : Z := 7.
Definition NUM_DIGITS : Z := 10.
Definition NUM_FIRST_LEDS : Z := 3.

(** [int midSegmentIndex = NUM_OF_SEGMENTS / 2;] is never assigned again. *)
Definition midSegmentIndex : Z := Z.quot NUM_OF_SEGMENTS 2.

(** [int dht11ReadingDelay = 10000;] is never assigned again. *)
Definition dht11ReadingDelay : Z := 10000.

(** ** C arrays *)

(** [a[i]] for a C array held as a list: an index outside the array is
    undefined behaviour. *)
Definition index {A} (a : list A) (i : Z) : option A :=
  if bool_decide (0 <= i) then a !! Z.to_nat i else None.

(** A row of [const int DIGITS[NUM_DIGITS][NUM_OF_SEGMENTS]]: the braces give
    the first entries, aggregate initialisation fills the rest of the
    28 columns with zero. *)
Definition row (init : list Z) : list Z :=
  init ++ replicate (Z.to_nat NUM_OF_SEGMENTS - length init) 0.

Definition DIGITS : list (list Z) :=
  [ row [3; -1; -1; -1; -1; -1; -1];
    row [1; 2; 3; 5; 6; -1; -1];
    row [0; 6; -1; -1; -1; -1; -1];
    row [2; 6; -1; -1; -1; -1; -1];
    row [1; 2; 5; -1; -1; -1; -1];
    row [2; 4; -1; -1; -1; -1; -1];
    row [4; -1; -1; -1; -1; -1; -1];
    row [1; 2; 3; 6; -1; -1; -1];
    row [-1; -1; -1; -1; -1; -1; -1];
    row [2; -1; -1; -1; -1; -1; -1] ].

(** [DIGITS[value][i]] *)
Definition DIGITS_at (value i : Z) : option Z :=
  index DIGITS value ≫= fun r => index r i.

(** The offsets the loop of [setDigit] visits for [value]: the entries
    [DIGITS[value][i]], [i = 0 .. NUM_DIGITS-1], up to the first [-1].
    [n] counts the iterations that are left. *)
Fixpoint scan_glyph (n : nat) (i value : Z) : option (list Z) :=
  match n with
  | O => Some []
  | S n' =>
      DIGITS_at value i ≫= fun segIndex =>
      if segIndex =? -1 then Some []
      else cons segIndex <$> scan_glyph n' (i + 1) value
  end.

Definition segmentsToBlank (value : Z) : option (list Z) :=
  scan_glyph (Z.to_nat NUM_DIGITS) 0 value.

(** The glyph table as the specification documents it. *)
Definition documented_blank_set (v : Z) : list Z :=
  match v with
  | 0 => [3]
  | 1 => [1; 2; 3; 5; 6]
  | 2 => [0; 6]
  | 3 => [2; 6]
  | 4 => [1; 2; 5]
  | 5 => [2; 4]
  | 6 => [4]
  | 7 => [1; 2; 3; 6]
  | 8 => []
  | 9 => [2]
  | _ => []
  end.

(** ** The host LED engine *)

(** Modelled from the spec: the host's segment object ([WS2812FX::Segment])
    is declared in the firmware's headers, which are not among the sources.
    It carries the LED range, the three colour channels [colors[0..2]], the
    effect id, speed, intensity and palette, and an option bit field. *)
Record Segment := mkSegment {
  start : Z;
  stop : Z;
  colors : Z * Z * Z;
  mode : Z;
  speed : Z;
  intensity : Z;
  palette : Z;
  options : Z
}.

(** Modelled from the spec: the host's strip object holds the table of
    segments (ranges), addressed by range id, and the pixel buffer. *)
Record WS2812FX := mkStrip {
  strip_segments : Z -> Segment;
  strip_pixels : Z -> Z
}.

Definition set_range (a b : Z) (s : Segment) : Segment :=
  mkSegment a b (colors s) (mode s) (speed s) (intensity s) (palette s) (options s).

Definition set_colors (c : Z * Z * Z) (s : Segment) : Segment :=
  mkSegment (start s) (stop s) c (mode s) (speed s) (intensity s) (palette s) (options s).

Definition set_mode (m : Z) (s : Segment) : Segment :=
  mkSegment (start s) (stop s) (colors s) m (speed s) (intensity s) (palette s) (options s).

Definition set_speed (v : Z) (s : Segment) : Segment :=
  mkSegment (start s) (stop s) (colors s) (mode s) v (intensity s) (palette s) (options s).

Definition set_intensity (v : Z) (s : Segment) : Segment :=
  mkSegment (start s) (stop s) (colors s) (mode s) (speed s) v (palette s) (options s).

Definition set_palette (v : Z) (s : Segment) : Segment :=
  mkSegment (start s) (stop s) (colors s) (mode s) (speed s) (intensity s) v (options s).

Definition set_options (v : Z) (s : Segment) : Segment :=
  mkSegment (start s) (stop s) (colors s) (mode s) (speed s) (intensity s) (palette s) v.

(** Modelled from the spec: handle-level [setColor(channel, rgb, ownerIndexHint)]
    writes one colour channel of the segment. *)
Definition Segment_setColor (slot c segn : Z) (s : Segment) : Segment :=
  let '(c0, c1, c2) := colors s in
  match slot with
  | 0 => set_colors (c, c1, c2) s
  | 1 => set_colors (c0, c, c2) s
  | 2 => set_colors (c0, c1, c) s
  | _ => s
  end.

(** [seg.colors[0]] *)
Definition color0 (s : Segment) : Z := fst (fst (colors s)).

(** Modelled from the spec: [setOption(n, val)] sets or clears option bit [n]. *)
Definition Segment_setOption (n : Z) (val : bool) (s : Segment) : Segment :=
  set_options (if val then Z.setbit (options s) n else Z.clearbit (options s) n) s.

(** An update of the segment behind a handle (the slot [id] of the table). *)
Definition update_segment (id : Z) (f : Segment -> Segment) (st : WS2812FX) : WS2812FX :=
  mkStrip (<[id := f (strip_segments st id)]> (strip_segments st)) (strip_pixels st).

(** Modelled from the spec: [defineRange(rangeId, startLED, endLED)], the
    host's [strip.setSegment]. *)
Definition strip_setSegment (n a b : Z) (st : WS2812FX) : WS2812FX :=
  update_segment n (set_range a b) st.

(** Modelled from the spec: [setEffect(rangeId, effectId)], the host's
    [strip.setMode]. *)
Definition strip_setMode (segid m : Z) (st : WS2812FX) : WS2812FX :=
  update_segment segid (set_mode m) st.

(** Modelled from the spec: [setPixelColor(ledIndex, rgb)]. *)
Definition strip_setPixelColor (i c : Z) (st : WS2812FX) : WS2812FX :=
  mkStrip (strip_segments st) (<[i := c]> (strip_pixels st)).

(** Modelled from the spec: [getRangeHandle(rangeId)], the host's
    [strip.getSegment]: the handle of a range is the address of its slot in
    the table, which the range id determines. *)
Definition strip_getSegment (id : Z) : Z := id.

(** ** The state of the usermod *)

(** The members of [class NanoLeafDisplay].  A segment pointer is the id of
    the host range it points to ([None]: never assigned); the array
    [segments] maps an index to its pointer, and is 28 entries long. *)
Record NanoLeafDisplay := mkNanoLeafDisplay {
  segments : Z -> option Z;
  firstSeg : option Z;
  secondSeg : option Z;
  thirdSeg : option Z;
  currentHour : Z;
  currentMin : Z;
  currentSec : Z;
  currentTemp : Z;
  currentHumid : Z;
  inTwoToneMode : bool;
  inSeriesMode : bool;
  inSecsMinsMode : bool;
  inManualMode : bool;
  inTempHumidMode : bool;
  digit0Value : Z;
  digit1Value : Z;
  digit2Value : Z;
  digit3Value : Z;
  lastTwoToneMode : bool;
  lastInSeriesMode : bool;
  lastTempHumidMode : bool;
  lastDHT11TimeRead : Z
}.

(** Assignment to the array [segments]. *)
Definition set_segments (a : Z -> option Z) (u : NanoLeafDisplay) : NanoLeafDisplay :=
  mkNanoLeafDisplay a (firstSeg u) (secondSeg u) (thirdSeg u) (currentHour u)
    (currentMin u) (currentSec u) (currentTemp u) (currentHumid u) (inTwoToneMode u)
    (inSeriesMode u) (inSecsMinsMode u) (inManualMode u) (inTempHumidMode u)
    (digit0Value u) (digit1Value u) (digit2Value u) (digit3Value u) (lastTwoToneMode u)
    (lastInSeriesMode u) (lastTempHumidMode u) (lastDHT11TimeRead u).

(** Assignment to [firstSeg], [secondSeg] and [thirdSeg]. *)
Definition set_colorSources (p1 : option Z) (p2 : option Z) (p3 : option Z) (u : NanoLeafDisplay) : NanoLeafDisplay :=
  mkNanoLeafDisplay (segments u) p1 p2 p3 (currentHour u) (currentMin u) (currentSec u)
    (currentTemp u) (currentHumid u) (inTwoToneMode u) (inSeriesMode u) (inSecsMinsMode u) (inManualMode u) (inTempHumidMode u) (digit0Value u) (digit1Value u) (digit2Value u) (digit3Value u) (lastTwoToneMode u) (lastInSeriesMode u) (lastTempHumidMode u)
    (lastDHT11TimeRead u).

(** Assignment to [currentHour], [currentMin] and [currentSec]. *)
Definition set_time (h : Z) (m : Z) (s : Z) (u : NanoLeafDisplay) : NanoLeafDisplay :=
  mkNanoLeafDisplay (segments u) (firstSeg u) (secondSeg u) (thirdSeg u) h m s
    (currentTemp u) (currentHumid u) (inTwoToneMode u) (inSeriesMode u) (inSecsMinsMode u) (inManualMode u) (inTempHumidMode u) (digit0Value u) (digit1Value u) (digit2Value u) (digit3Value u) (lastTwoToneMode u) (lastInSeriesMode u) (lastTempHumidMode u)
    (lastDHT11TimeRead u).

(** Assignment to [currentTemp] and [currentHumid]. *)
Definition set_reading (t : Z) (h : Z) (u : NanoLeafDisplay) : NanoLeafDisplay :=
  mkNanoLeafDisplay (segments u) (firstSeg u) (secondSeg u) (thirdSeg u) (currentHour u)
    (currentMin u) (currentSec u) t h (inTwoToneMode u) (inSeriesMode u) (inSecsMinsMode u) (inManualMode u) (inTempHumidMode u) (digit0Value u) (digit1Value u) (digit2Value u) (digit3Value u) (lastTwoToneMode u) (lastInSeriesMode u) (lastTempHumidMode u)
    (lastDHT11TimeRead u).

(** Assignment to [lastDHT11TimeRead]. *)
Definition set_lastDHT11TimeRead (t : Z) (u : NanoLeafDisplay) : NanoLeafDisplay :=
  mkNanoLeafDisplay (segments u) (firstSeg u) (secondSeg u) (thirdSeg u) (currentHour u)
    (currentMin u) (currentSec u) (currentTemp u) (currentHumid u) (inTwoToneMode u)
    (inSeriesMode u) (inSecsMinsMode u) (inManualMode u) (inTempHumidMode u)
    (digit0Value u) (digit1Value u) (digit2Value u) (digit3Value u) (lastTwoToneMode u)
    (lastInSeriesMode u) (lastTempHumidMode u) t.

(** Assignment to the nine configured fields. *)
Definition set_config (two : bool) (ser : bool) (sm : bool) (ma : bool) (d0 : Z) (d1 : Z) (d2 : Z) (d3 : Z) (tmp : bool) (u : NanoLeafDisplay) : NanoLeafDisplay :=
  mkNanoLeafDisplay (segments u) (firstSeg u) (secondSeg u) (thirdSeg u) (currentHour u)
    (currentMin u) (currentSec u) (currentTemp u) (currentHumid u) two ser sm ma tmp d0 d1
    d2 d3 (lastTwoToneMode u) (lastInSeriesMode u) (lastTempHumidMode u)
    (lastDHT11TimeRead u).

(** Assignment to [lastTwoToneMode], [lastInSeriesMode] and [lastTempHumidMode]. *)
Definition set_last (two : bool) (ser : bool) (tmp : bool) (u : NanoLeafDisplay) : NanoLeafDisplay :=
  mkNanoLeafDisplay (segments u) (firstSeg u) (secondSeg u) (thirdSeg u) (currentHour u)
    (currentMin u) (currentSec u) (currentTemp u) (currentHumid u) (inTwoToneMode u)
    (inSeriesMode u) (inSecsMinsMode u) (inManualMode u) (inTempHumidMode u)
    (digit0Value u) (digit1Value u) (digit2Value u) (digit3Value u) two ser tmp
    (lastDHT11TimeRead u).

(** The program state: the usermod object, the host's global [strip], and a
    ghost counter of the sensor transactions (one per pair
    [readTemperature]/[readHumidity]). *)
Record World := mkWorld {
  self : NanoLeafDisplay;
  strip : WS2812FX;
  dht11_reads : nat
}.

Definition with_self (f : NanoLeafDisplay -> NanoLeafDisplay) (w : World) : World :=
  mkWorld (f (self w)) (strip w) (dht11_reads w).

Definition with_strip (f : WS2812FX -> WS2812FX) (w : World) : World :=
  mkWorld (self w) (f (strip w)) (dht11_reads w).

(** What one call reads from outside: the two [millis()] values a call of
    [readTempAndHumid] can observe (the one compared and the one stored), the
    local time, and the two sensor values after their conversion to [int]. *)
Record Env := mkEnv {
  millis_check : Z;
  millis_stamp : Z;
  localHour : Z;
  localMinute : Z;
  localSecond : Z;
  dht_temperature : Z;
  dht_humidity : Z
}.

(** ** Loops *)

(** [for(int i = i0; ...; i++) body] with [n] iterations left, where the body
    may run into undefined behaviour. *)
Fixpoint for_loop {S : Type} (n : nat) (i : Z) (body : Z -> S -> option S) (s : S)
  : option S :=
  match n with
  | O => Some s
  | S n' => body i s ≫= for_loop n' (i + 1) body
  end.

(** The same for a body that cannot fail. *)
Fixpoint iter_range {S : Type} (n : nat) (i : Z) (body : Z -> S -> S) (s : S) : S :=
  match n with
  | O => s
  | S n' => iter_range n' (i + 1) body (body i s)
  end.

(** ** Wiring *)

Definition setSegments (addrLedsPerSeg numOfSegments : Z) (st : WS2812FX) : WS2812FX :=
  let st := iter_range (Z.to_nat NUM_FIRST_LEDS) 0
              (fun i st => strip_setSegment i i (i + 1) st) st in
  let segStart := NUM_FIRST_LEDS in
  let segEnd := addrLedsPerSeg + NUM_FIRST_LEDS in
  snd (iter_range (Z.to_nat numOfSegments) 0
         (fun i '((segStart, segEnd), st) =>
            ((segStart + addrLedsPerSeg, segEnd + addrLedsPerSeg),
             strip_setSegment (i + NUM_FIRST_LEDS) segStart segEnd st))
         ((segStart, segEnd), st)).

(** [segments[i] = p]: a store outside the 28 entries is undefined. *)
Definition store_segments (i : Z) (p : Z) (u : NanoLeafDisplay) : option NanoLeafDisplay :=
  if bool_decide (0 <= i < NUM_OF_SEGMENTS)
  then Some (set_segments (<[i := Some p]> (segments u)) u)
  else None.

Definition getSegments (numOfSegments : Z) (u : NanoLeafDisplay) : option NanoLeafDisplay :=
  let u := set_colorSources (Some (strip_getSegment 0)) (Some (strip_getSegment 1))
             (Some (strip_getSegment 2)) u in
  for_loop (Z.to_nat numOfSegments) 0
    (fun i u => store_segments i (strip_getSegment (i + NUM_FIRST_LEDS)) u) u.

(** [*segments[i]]: the index must be inside the array and the pointer must
    have been assigned. *)
Definition deref_segments (w : World) (i : Z) : option Z :=
  if bool_decide (0 <= i < NUM_OF_SEGMENTS) then segments (self w) i else None.

(** ** Segment operations *)

Definition segCopyProps (seg1 seg2 seg1Id : Z) (st : WS2812FX) : WS2812FX :=
  let st := update_segment seg1
              (Segment_setColor 0 (color0 (strip_segments st seg2))
                 (seg1Id + NUM_FIRST_LEDS)) st in
  let st := strip_setMode (seg1Id + NUM_FIRST_LEDS) (mode (strip_segments st seg2)) st in
  let st := update_segment seg1 (set_speed (speed (strip_segments st seg2))) st in
  let st := update_segment seg1 (set_intensity (intensity (strip_segments st seg2))) st in
  update_segment seg1 (set_palette (palette (strip_segments st seg2))) st.

Definition turnOffSeg (seg segId : Z) (st : WS2812FX) : WS2812FX :=
  let st := update_segment seg (Segment_setColor 0 0 (segId + NUM_FIRST_LEDS)) st in
  let st := update_segment seg (Segment_setColor 1 0 (segId + NUM_FIRST_LEDS)) st in
  let st := update_segment seg (Segment_setColor 2 0 (segId + NUM_FIRST_LEDS)) st in
  update_segment seg (Segment_setOption 0 false) st.

Definition turnOffSegPixels (segment : Z) (st : WS2812FX) : WS2812FX :=
  let startIndex := NUM_FIRST_LEDS + segment * ADDR_LEDS_PER_SEG in
  iter_range (Z.to_nat ADDR_LEDS_PER_SEG) 0
    (fun i st => strip_setPixelColor (startIndex + i) 0 st) st.

(** ** Rendering a digit *)

(** The body of the loop of [setDigit] after the sentinel test. *)
Definition setDigit_body (digitIndex segIndex : Z) (w : World) : option World :=
  if inTwoToneMode (self w) || inTempHumidMode (self w) then
    seg ← deref_segments w (digitIndex + segIndex);
    Some (with_strip (turnOffSeg seg (digitIndex + segIndex)) w)
  else if inSeriesMode (self w) then
    Some (with_strip (turnOffSegPixels (digitIndex + segIndex)) w)
  else Some w.

(** The loop of [setDigit], with [n] iterations left; [break] at the sentinel. *)
Fixpoint setDigit_loop (n : nat) (i digitIndex value : Z) (w : World) : option World :=
  match n with
  | O => Some w
  | S n' =>
      segIndex ← DIGITS_at value i;
      if segIndex =? -1 then Some w
      else setDigit_body digitIndex segIndex w ≫= setDigit_loop n' (i + 1) digitIndex value
  end.

Definition digitIndex_of (digit : Z) : Z :=
  NUM_OF_SEGMENTS - (SEGS_PER_DIGIT + digit * SEGS_PER_DIGIT).

Definition setDigit (digit value : Z) (w : World) : option World :=
  let digitIndex := digitIndex_of digit in
  setDigit_loop (Z.to_nat NUM_DIGITS) 0 digitIndex value w.

(** ** Time and sensor *)

(** [updateLocalTime(); currentHour = hour(localTime); ...] *)
Definition updateTime (e : Env) (w : World) : World :=
  with_self (set_time (localHour e) (localMinute e) (localSecond e)) w.

(** A value of type [unsigned long] (32 bits on the boards the firmware
    runs on): [millis()] counts the uptime modulo [2^32]. *)
Definition u32 (z : Z) : Z := z mod 2 ^ 32.

(** The conversion of an [unsigned long] to [long] in an assignment. *)
Definition to_long (z : Z) : Z := (z + 2 ^ 31) mod 2 ^ 32 - 2 ^ 31.

(** One transaction with the sensor: [readTemperature()], [readHumidity()]. *)
Definition dht11_read (e : Env) (w : World) : World :=
  mkWorld (set_reading (dht_temperature e) (dht_humidity e) (self w)) (strip w)
    (S (dht11_reads w)).

(** [dht11.begin()] and the first reading. *)
Definition initDHT11Sensor (e : Env) (w : World) : World := dht11_read e w.

(** [millis() - lastDHT11TimeRead]: the [long] operand is converted to
    [unsigned long], the difference is taken modulo [2^32]. *)
Definition elapsed (e : Env) (w : World) : Z :=
  u32 (u32 (millis_check e) - lastDHT11TimeRead (self w)).

Definition readTempAndHumid (e : Env) (w : World) : World :=
  if dht11ReadingDelay <? elapsed e w then
    let w := with_self (set_lastDHT11TimeRead (to_long (u32 (millis_stamp e)))) w in
    dht11_read e w
  else w.

(** ** Render paths *)

Definition displayTime (e : Env) (w : World) : option World :=
  if inManualMode (self w) then
    w ← setDigit 0 (digit0Value (self w)) w;
    w ← setDigit 1 (digit1Value (self w)) w;
    w ← setDigit 2 (digit2Value (self w)) w;
    setDigit 3 (digit3Value (self w)) w
  else
    let w := updateTime e w in
    if inSecsMinsMode (self w) then
      let minDigit1 := Z.quot (currentMin (self w)) 10 in
      let minDigit2 := Z.rem (currentMin (self w)) 10 in
      w ← setDigit 0 minDigit1 w;
      w ← setDigit 1 minDigit2 w;
      let secDigit1 := Z.quot (currentSec (self w)) 10 in
      let secDigit2 := Z.rem (currentSec (self w)) 10 in
      w ← setDigit 2 secDigit1 w;
      setDigit 3 secDigit2 w
    else
      let hourDigit1 := Z.quot (currentHour (self w)) 10 in
      let hourDigit2 := Z.rem (currentHour (self w)) 10 in
      w ← setDigit 0 hourDigit1 w;
      w ← setDigit 1 hourDigit2 w;
      let minDigit1 := Z.quot (currentMin (self w)) 10 in
      let minDigit2 := Z.rem (currentMin (self w)) 10 in
      w ← setDigit 2 minDigit1 w;
      setDigit 3 minDigit2 w.

(** The body of the loop of [twoTone]. *)
Definition twoTone_body (i : Z) (w : World) : option World :=
  if bool_decide (midSegmentIndex <= i) then
    seg ← deref_segments w i;
    src ← firstSeg (self w);
    Some (with_strip (segCopyProps seg src i) w)
  else
    seg ← deref_segments w i;
    src ← secondSeg (self w);
    Some (with_strip (segCopyProps seg src i) w).

(** The loop of [twoTone]: the state before [displayTime()]. *)
Definition twoTone_colors (w : World) : option World :=
  for_loop (Z.to_nat NUM_OF_SEGMENTS) 0 twoTone_body w.

Definition twoTone (e : Env) (w : World) : option World :=
  twoTone_colors w ≫= displayTime e.

Definition inSeries (e : Env) (w : World) : option World := displayTime e w.

(** The body of the loop of [setTempHumidColors]. *)
Definition setTempHumidColors_body (i : Z) (w : World) : option World :=
  if bool_decide (midSegmentIndex <= i) then
    if 0 <? currentTemp (self w) then
      seg ← deref_segments w i;
      src ← firstSeg (self w);
      Some (with_strip (segCopyProps seg src i) w)
    else
      seg ← deref_segments w i;
      src ← secondSeg (self w);
      Some (with_strip (segCopyProps seg src i) w)
  else
    seg ← deref_segments w i;
    src ← thirdSeg (self w);
    Some (with_strip (segCopyProps seg src i) w).

Definition setTempHumidColors (w : World) : option World :=
  for_loop (Z.to_nat NUM_OF_SEGMENTS) 0 setTempHumidColors_body w.

Definition displayTempAndHumid (e : Env) (w : World) : option World :=
  let w := readTempAndHumid e w in
  w ← setTempHumidColors w;
  let tempDigit1 := Z.quot (currentTemp (self w)) 10 in
  let tempDigit2 := Z.rem (currentTemp (self w)) 10 in
  w ← setDigit 0 tempDigit1 w;
  w ← setDigit 1 tempDigit2 w;
  let humidDigit1 := Z.quot (currentHumid (self w)) 10 in
  let humidDigit2 := Z.rem (currentHumid (self w)) 10 in
  w ← setDigit 2 humidDigit1 w;
  setDigit 3 humidDigit2 w.

(** ** Entry points called by the host *)

(** [setSegments(...); getSegments(...);] *)
Definition wireSegmented (w : World) : option World :=
  let w := with_strip (setSegments ADDR_LEDS_PER_SEG NUM_OF_SEGMENTS) w in
  u ← getSegments NUM_OF_SEGMENTS (self w);
  Some (with_self (fun _ => u) w).

Definition setup (e : Env) (w : World) : option World :=
  w ← (if inTwoToneMode (self w) || inTempHumidMode (self w)
       then wireSegmented w else Some w);
  Some (initDHT11Sensor e w).

Definition connected (e : Env) (w : World) : World :=
  readTempAndHumid e (updateTime e w).

Definition loop (e : Env) (w : World) : option World :=
  if inTwoToneMode (self w) then twoTone e w
  else if inTempHumidMode (self w) then displayTempAndHumid e w
  else Some w.

Definition handleOverlayDraw (e : Env) (w : World) : option World :=
  if inSeriesMode (self w) then inSeries e w else Some w.

(** ** Configuration *)

(** Modelled from the spec: the persisted section ["NanoLeafDisplay"] exposes
    boolean and integer fields by name; a field can be absent. *)
Record JsonConfig := mkJsonConfig {
  cfg_TwoTone : option bool;
  cfg_InSeries : option bool;
  cfg_SecsMins : option bool;
  cfg_Manual : option bool;
  cfg_Digit1 : option Z;
  cfg_Digit2 : option Z;
  cfg_Digit3 : option Z;
  cfg_Digit4 : option Z;
  cfg_TempHumid : option bool
}.

(** [top["key"]]: a null section has no fields. *)
Definition field {T} (top : option JsonConfig) (key : JsonConfig -> option T) : option T :=
  top ≫= key.

(** Modelled from the spec: the host's [getJsonValue] reports whether the
    field is present; an absent field keeps the value in memory. *)
Definition getJsonValue {T} (element : option T) (destination : T) : bool * T :=
  match element with
  | Some v => (true, v)
  | None => (false, destination)
  end.

Section Config.

(** The host's [strip.resetSegments()], which the sources of the usermod
    only call: taken as a parameter. *)
Variable resetSegments : WS2812FX -> WS2812FX.

(** The flat wiring of [readFromConfig]. *)
Definition wireFlat (w : World) : World :=
  let w := with_strip resetSegments w in
  with_strip
    (strip_setSegment 0 NUM_FIRST_LEDS (NUM_FIRST_LEDS + NUM_OF_SEGMENTS * 3)) w.

Definition readFromConfig (top : option JsonConfig) (w : World)
  : option (bool * World) :=
  let u := self w in
  let configComplete := bool_decide (top <> None) in
  let '(c, two) := getJsonValue (field top cfg_TwoTone) (inTwoToneMode u) in
  let configComplete := configComplete && c in
  let '(c, ser) := getJsonValue (field top cfg_InSeries) (inSeriesMode u) in
  let configComplete := configComplete && c in
  let '(c, sm) := getJsonValue (field top cfg_SecsMins) (inSecsMinsMode u) in
  let configComplete := configComplete && c in
  let '(c, ma) := getJsonValue (field top cfg_Manual) (inManualMode u) in
  let configComplete := configComplete && c in
  let '(c, d0) := getJsonValue (field top cfg_Digit1) (digit0Value u) in
  let configComplete := configComplete && c in
  let '(c, d1) := getJsonValue (field top cfg_Digit2) (digit1Value u) in
  let configComplete := configComplete && c in
  let '(c, d2) := getJsonValue (field top cfg_Digit3) (digit2Value u) in
  let configComplete := configComplete && c in
  let '(c, d3) := getJsonValue (field top cfg_Digit4) (digit3Value u) in
  let configComplete := configComplete && c in
  let '(c, tmp) := getJsonValue (field top cfg_TempHumid) (inTempHumidMode u) in
  let configComplete := configComplete && c in
  let w := with_self (set_config two ser sm ma d0 d1 d2 d3 tmp) w in
  w ← (if inSeriesMode (self w)
          && negb (Bool.eqb (lastInSeriesMode (self w)) (inSeriesMode (self w)))
       then Some (wireFlat w)
       else if (inTwoToneMode (self w)
                && negb (Bool.eqb (lastTwoToneMode (self w)) (inTwoToneMode (self w))))
               || (inTempHumidMode (self w)
                   && negb (Bool.eqb (lastTempHumidMode (self w)) (inTempHumidMode (self w))))
       then wireSegmented w
       else Some w);
  Some (configComplete,
        with_self (fun u => set_last (inTwoToneMode u) (inSeriesMode u)
                              (inTempHumidMode u) u) w).

End Config.

(** [addToConfig]: the section ["NanoLeafDisplay"] it creates in the stored
    configuration, with its nine fields. *)
Definition addToConfig (u : NanoLeafDisplay) : JsonConfig :=
  mkJsonConfig (Some (inTwoToneMode u)) (Some (inSeriesMode u))
    (Some (inSecsMinsMode u)) (Some (inManualMode u))
    (Some (digit0Value u)) (Some (digit1Value u)) (Some (digit2Value u))
    (Some (digit3Value u)) (Some (inTempHumidMode u)).

(** The calls the host makes after [setup], and a run of them. *)
Inductive Call :=
| CallLoop (e : Env)
| CallOverlayDraw (e : Env)
| CallConnected (e : Env)
| CallReadFromConfig (top : option JsonConfig).

Definition call (resetSegments : WS2812FX -> WS2812FX) (c : Call) (w : World)
  : option World :=
  match c with
  | CallLoop e => loop e w
  | CallOverlayDraw e => handleOverlayDraw e w
  | CallConnected e => Some (connected e w)
  | CallReadFromConfig top => snd <$> readFromConfig resetSegments top w
  end.

Fixpoint run (resetSegments : WS2812FX -> WS2812FX) (cs : list Call) (w : World)
  : option World :=
  match cs with
  | [] => Some w
  | c :: cs => call resetSegments c w ≫= run resetSegments cs
  end.

(** ** A freshly constructed display *)

Definition blank_segment : Segment := mkSegment 0 0 (0, 0, 0) 0 0 0 0 0.

Definition fresh_strip : WS2812FX := mkStrip (fun _ => blank_segment) (fun _ => 0).

(** The member initialisers of the class; members without initialiser are
    given the value 0 and the pointers are unassigned. *)
Definition fresh_display : NanoLeafDisplay :=
  mkNanoLeafDisplay (fun _ => None) None None None 0 0 0 0 0
    true false false false false 0 0 0 0 true false false 0.

Definition fresh_world : World := mkWorld fresh_display fresh_strip 0.

(** ** Vocabulary of the statements *)

(** The wiring [getSegments] establishes: the colour sources are the ranges
    0, 1 and 2, display segment [i] is the range [i + NUM_FIRST_LEDS]. *)
Definition wired (u : NanoLeafDisplay) : Prop :=
  firstSeg u = Some 0 /\ secondSeg u = Some 1 /\ thirdSeg u = Some 2 /\
  forall i, 0 <= i < NUM_OF_SEGMENTS -> segments u i = Some (i + NUM_FIRST_LEDS).

(** What [turnOffSeg] does to the segment it is given. *)
Definition segment_off (s : Segment) : Segment :=
  Segment_setOption 0 false
    (Segment_setColor 2 0 0 (Segment_setColor 1 0 0 (Segment_setColor 0 0 0 s))).

(** What [segCopyProps] does to its first segment, given its second. *)
Definition copy_props (src tgt : Segment) : Segment :=
  set_palette (palette src)
    (set_intensity (intensity src)
       (set_speed (speed src)
          (set_mode (mode src) (Segment_setColor 0 (color0 src) 0 tgt)))).

(** The body of the loop of [setDigit] run for each offset of a list. *)
Fixpoint turn_off_all (digitIndex : Z) (offs : list Z) (w : World) : option World :=
  match offs with
  | [] => Some w
  | o :: os => setDigit_body digitIndex o w ≫= turn_off_all digitIndex os
  end.

(** The LEDs of display segment [segment] in the flat wiring. *)
Definition segment_pixel (segment p : Z) : Prop :=
  NUM_FIRST_LEDS + segment * ADDR_LEDS_PER_SEG <= p
  < NUM_FIRST_LEDS + segment * ADDR_LEDS_PER_SEG + ADDR_LEDS_PER_SEG.

#[global] Instance segment_pixel_dec (segment p : Z) : Decision (segment_pixel segment p).
Proof. unfold segment_pixel. apply _. Defined.

(** The segment pointers and the host ranges as [setup] leaves them in the
    default two-tone mode (lemma [setup_wires]). *)
Definition wired_display : NanoLeafDisplay :=
  set_segments
    (fun i => if bool_decide (0 <= i < NUM_OF_SEGMENTS) then Some (i + NUM_FIRST_LEDS)
              else None)
    (set_colorSources (Some 0) (Some 1) (Some 2) fresh_display).

Definition wired_world : World :=
  mkWorld wired_display (setSegments ADDR_LEDS_PER_SEG NUM_OF_SEGMENTS fresh_strip) 0.

(** The wired display of the sensor mode at a temperature of -3 degrees. *)
Definition cold_world : World := with_self (set_reading (-3) 40) wired_world.

(** What the sensor path owns: the count of sensor transactions, the cached
    reading and its time stamp. *)
Definition sensor_state (w : World) : nat * Z * Z * Z :=
  (dht11_reads w, currentTemp (self w), currentHumid (self w),
   lastDHT11TimeRead (self w)).

(** The LED range of a host range id. *)
Definition range (st : WS2812FX) (id : Z) : Z * Z :=
  (start (strip_segments st id), stop (strip_segments st id)).

(** The display after the nine [getJsonValue] calls of [readFromConfig]. *)
Definition apply_config (top : option JsonConfig) (u : NanoLeafDisplay) : NanoLeafDisplay :=
  set_config
    (snd (getJsonValue (field top cfg_TwoTone) (inTwoToneMode u)))
    (snd (getJsonValue (field top cfg_InSeries) (inSeriesMode u)))
    (snd (getJsonValue (field top cfg_SecsMins) (inSecsMinsMode u)))
    (snd (getJsonValue (field top cfg_Manual) (inManualMode u)))
    (snd (getJsonValue (field top cfg_Digit1) (digit0Value u)))
    (snd (getJsonValue (field top cfg_Digit2) (digit1Value u)))
    (snd (getJsonValue (field top cfg_Digit3) (digit2Value u)))
    (snd (getJsonValue (field top cfg_Digit4) (digit3Value u)))
    (snd (getJsonValue (field top cfg_TempHumid) (inTempHumidMode u)))
    u.

(** The value [readFromConfig] returns. *)
Definition config_complete (top : option JsonConfig) (u : NanoLeafDisplay) : bool :=
  bool_decide (top <> None)
  && fst (getJsonValue (field top cfg_TwoTone) (inTwoToneMode u))
  && fst (getJsonValue (field top cfg_InSeries) (inSeriesMode u))
  && fst (getJsonValue (field top cfg_SecsMins) (inSecsMinsMode u))
  && fst (getJsonValue (field top cfg_Manual) (inManualMode u))
  && fst (getJsonValue (field top cfg_Digit1) (digit0Value u))
  && fst (getJsonValue (field top cfg_Digit2) (digit1Value u))
  && fst (getJsonValue (field top cfg_Digit3) (digit2Value u))
  && fst (getJsonValue (field top cfg_Digit4) (digit3Value u))
  && fst (getJsonValue (field top cfg_TempHumid) (inTempHumidMode u)).

(** A configuration update switches a mode on: the flag is set after the
    update and differs from the value remembered from the update before. *)
Definition entersSeries (top : option JsonConfig) (u : NanoLeafDisplay) : bool :=
  inSeriesMode (apply_config top u)
  && negb (Bool.eqb (lastInSeriesMode u) (inSeriesMode (apply_config top u))).

Definition entersTwoTone (top : option JsonConfig) (u : NanoLeafDisplay) : bool :=
  inTwoToneMode (apply_config top u)
  && negb (Bool.eqb (lastTwoToneMode u) (inTwoToneMode (apply_config top u))).

Definition entersTempHumid (top : option JsonConfig) (u : NanoLeafDisplay) : bool :=
  inTempHumidMode (apply_config top u)
  && negb (Bool.eqb (lastTempHumidMode u) (inTempHumidMode (apply_config top u))).

(** The assignments to the three [last...] members that end [readFromConfig]. *)
Definition remember_modes (u : NanoLeafDisplay) : NanoLeafDisplay :=
  set_last (inTwoToneMode u) (inSeriesMode u) (inTempHumidMode u) u.

(** One behaviour the host's [resetSegments] can have: every range becomes
    empty.  It instantiates the parameter of [readFromConfig] where a
    concrete run is evaluated; the general statements hold for every
    behaviour. *)
Definition resetSegments_clear (st : WS2812FX) : WS2812FX :=
  mkStrip (fun _ => blank_segment) (strip_pixels st).

(** A call at an uptime of 20 s; the sensor reports 25 degrees and 40 percent. *)
Definition noon : Env := mkEnv 20000 20000 12 34 56 25 40.

(** The first call at an uptime of exactly 10000 ms. *)
Definition boundary_env : Env := mkEnv 10000 10000 12 34 56 25 40.

(** A later call, 10001 ms after [noon]. *)
Definition later_env : Env := mkEnv 30001 30001 12 35 6 26 41.

(** A call at which the sensor reports -3 degrees. *)
Definition frost_env : Env := mkEnv 20000 20000 12 34 56 (-3) 40.

(** Two-tone and temperature/humidity flags both set. *)
Definition both_world : World :=
  with_self (set_config true false false false 0 0 0 0 true) wired_world.

(** All modes switched off by an earlier configuration update. *)
Definition idle_world : World :=
  with_self
    (fun u => set_last false false false
                (set_config false false false false 0 0 0 0 false u))
    wired_world.

(** Temperature/humidity mode, the cached reading at -3 degrees. *)
Definition sensor_world : World :=
  with_self (set_config false false false false 0 0 0 0 true) cold_world.

(** Manual mode with the second digit configured as 12. *)
Definition manual_world : World :=
  with_self (set_config true false false true 1 12 3 4 false) wired_world.

(** A stored configuration that selects Series mode only. *)
Definition series_config : JsonConfig :=
  mkJsonConfig (Some false) (Some true) (Some false) (Some false)
    (Some 0) (Some 0) (Some 0) (Some 0) (Some false).

(** A stored configuration that selects Series and two-tone mode together. *)
Definition series_twoTone_config : JsonConfig :=
  mkJsonConfig (Some true) (Some true) (Some false) (Some false)
    (Some 0) (Some 0) (Some 0) (Some 0) (Some false).

(** A stored configuration that selects two-tone mode only. *)
Definition twoTone_config : JsonConfig :=
  mkJsonConfig (Some true) (Some false) (Some false) (Some false)
    (Some 0) (Some 0) (Some 0) (Some 0) (Some false).

(** *** Vocabulary of the further statements *)

(** The four [setDigit] calls every render path ends with. *)
Definition setDigits (v0 v1 v2 v3 : Z) (w : World) : option World :=
  w ← setDigit 0 v0 w;
  w ← setDigit 1 v1 w;
  w ← setDigit 2 v2 w;
  setDigit 3 v3 w.

(** The value [displayTime] passes to [setDigit] for digit position [d], on
    the display as it is when the digits are computed. *)
Definition time_digit (u : NanoLeafDisplay) (d : Z) : Z :=
  if inManualMode u then
    match d with
    | 0 => digit0Value u | 1 => digit1Value u | 2 => digit2Value u | _ => digit3Value u
    end
  else if inSecsMinsMode u then
    match d with
    | 0 => Z.quot (currentMin u) 10 | 1 => Z.rem (currentMin u) 10
    | 2 => Z.quot (currentSec u) 10 | _ => Z.rem (currentSec u) 10
    end
  else
    match d with
    | 0 => Z.quot (currentHour u) 10 | 1 => Z.rem (currentHour u) 10
    | 2 => Z.quot (currentMin u) 10 | _ => Z.rem (currentMin u) 10
    end.

(** The value [displayTempAndHumid] passes to [setDigit] for position [d]. *)
Definition sensor_digit (u : NanoLeafDisplay) (d : Z) : Z :=
  match d with
  | 0 => Z.quot (currentTemp u) 10 | 1 => Z.rem (currentTemp u) 10
  | 2 => Z.quot (currentHumid u) 10 | _ => Z.rem (currentHumid u) 10
  end.

(** The state in which [displayTime] computes its digits: the clock is read
    unless the manual mode is on. *)
Definition shown (e : Env) (w : World) : World :=
  if inManualMode (self w) then w else updateTime e w.

(** Display segment [i] belongs to digit position [d] and is one of the
    segments the glyph of [v] blanks. *)
Definition blanked_by (d v i : Z) : bool :=
  bool_decide (0 <= i < 28 /\ 3 - i / 7 = d /\ i mod 7 ∈ documented_blank_set v).

(** Display segment [i] is blanked when the four digits show [vd 0 .. vd 3]. *)
Definition blanked (vd : Z -> Z) (i : Z) : bool :=
  bool_decide (0 <= i < 28 /\ i mod 7 ∈ documented_blank_set (vd (3 - i / 7))).

(** A display configured for Series mode only, never wired. *)
Definition series_world : World :=
  with_self (set_config false true false false 0 0 0 0 false) fresh_world.

(** A wired display in temperature/humidity mode with a reading of 21
    degrees and 45 percent. *)
Definition warm_world : World :=
  with_self (fun u => set_reading 21 45
                        (set_config false false false false 0 0 0 0 true u))
    wired_world.

(** What [getJsonValue] does to one member: a present field gives the new
    value, an absent one keeps the old. *)
Definition kept {T} (element : option T) (old new : T) : Prop :=
  match element with
  | Some v => new = v
  | None => new = old
  end.

(** A call 100 ms before the 32-bit [millis()] counter wraps, and one
    10100 ms later, after the wrap. *)
Definition before_rollover : Env :=
  mkEnv (2 ^ 32 - 100) (2 ^ 32 - 100) 12 34 56 25 40.

Definition after_rollover : Env :=
  mkEnv (2 ^ 32 + 10000) (2 ^ 32 + 10000) 12 35 6 26 41.

(** A run through all four kinds of call and through both wirings. *)
Definition sample_run : list Call :=
  [ CallLoop noon; CallReadFromConfig (Some series_config); CallOverlayDraw noon;
    CallConnected noon; CallReadFromConfig (Some twoTone_config); CallLoop later_env ].

(** A wired display with the Series and the two-tone flag both set. *)
Definition series_twoTone_world : World :=
  with_self (set_config true true false false 0 0 0 0 false) wired_world.

(** A stored section in which only the manual flag and the first digit are
    present. *)
Definition partial_config : JsonConfig :=
  mkJsonConfig None None None (Some true) (Some 7) None None None None.

(** A strip whose ranges and LEDs are lit: every colour channel, the effect
    members and option bit 0 are set, every LED is white. *)
Definition lit_segment : Segment := mkSegment 0 0 (16711680, 65280, 255) 1 128 128 3 1.

Definition lit_strip : WS2812FX := mkStrip (fun _ => lit_segment) (fun _ => 16777215).

(** The wired display on the lit strip, laid out by [setSegments]. *)
Definition lit_wired_world : World :=
  mkWorld wired_display (setSegments ADDR_LEDS_PER_SEG NUM_OF_SEGMENTS lit_strip) 0.

(** The Series-only display on the lit strip. *)
Definition lit_series_world : World := mkWorld (self series_world) lit_strip 0.

(** A stored configuration with every mode off. *)
Definition all_off_config : JsonConfig :=
  mkJsonConfig (Some false) (Some false) (Some false) (Some false)
    (Some 0) (Some 0) (Some 0) (Some 0) (Some false).

(** A display that booted with every mode off: the stored configuration was
    loaded, [setup] found neither the two-tone nor the temperature/humidity
    flag and did no wiring, so the segment pointers were never assigned. *)
Definition off_world : World :=
  with_self
    (fun u => set_last false false false
                (set_config false false false false 0 0 0 0 false u))
    fresh_world.

(** Inputs inside their documented ranges. *)
Definition valid_clock (e : Env) : Prop :=
  0 <= localHour e <= 23 /\ 0 <= localMinute e <= 59 /\ 0 <= localSecond e <= 59.

Definition valid_reading (e : Env) : Prop :=
  0 <= dht_temperature e <= 99 /\ 0 <= dht_humidity e <= 99.

Definition valid_manual (u : NanoLeafDisplay) : Prop :=
  0 <= digit0Value u <= 9 /\ 0 <= digit1Value u <= 9 /\
  0 <= digit2Value u <= 9 /\ 0 <= digit3Value u <= 9.

Definition digit_field_ok (o : option Z) : Prop :=
  match o with
  | Some d => 0 <= d <= 9
  | None => True
  end.

Definition valid_config (top : option JsonConfig) : Prop :=
  digit_field_ok (field top cfg_Digit1) /\ digit_field_ok (field top cfg_Digit2) /\
  digit_field_ok (field top cfg_Digit3) /\ digit_field_ok (field top cfg_Digit4).

Definition valid_call (c : Call) : Prop :=
  match c with
  | CallLoop e | CallOverlayDraw e | CallConnected e => valid_clock e /\ valid_reading e
  | CallReadFromConfig top => valid_config top
  end.

(** What a display must satisfy for rendering to stay defined: the segment
    pointers are assigned, the manual digits and the cached reading are
    inside the glyph table's reach. *)
Definition safe (u : NanoLeafDisplay) : Prop :=
  wired u /\ valid_manual u /\
  0 <= currentTemp u <= 99 /\ 0 <= currentHumid u <= 99.

(** A display on which the configuration [top] has already been applied. *)
Definition settled (top : option JsonConfig) (u : NanoLeafDisplay) : Prop :=
  apply_config top u = u /\ remember_modes u = u.

(** ** The glyph table *)

Lemma digit_cases (v : Z) :
  0 <= v <= 9 ->
  v = 0 \/ v = 1 \/ v = 2 \/ v = 3 \/ v = 4 \/ v = 5 \/ v = 6 \/ v = 7 \/ v = 8 \/ v = 9.
Proof. lia. Qed.

Ltac each_digit H :=
  apply digit_cases in H;
  repeat (destruct H as [H | H]); subst.

Lemma index_Some {A} (a : list A) (i : Z) (x : A) :
  index a i = Some x <-> 0 <= i /\ a !! Z.to_nat i = Some x.
Proof.
  unfold index. case_bool_decide as Hi.
  - split; [intros H; split; assumption | intros [_ H]; exact H].
  - split; [intros H; discriminate | intros [H _]; contradiction].
Qed.

Lemma row_length (init : list Z) :
  (length init <= 28)%nat -> length (row init) = 28%nat.
Proof.
  intros Hle. unfold row. rewrite length_app, length_replicate.
  change (Z.to_nat NUM_OF_SEGMENTS) with 28%nat. lia.
Qed.

Lemma row_padding (init : list Z) (j : Z) :
  Z.of_nat (length init) <= j < NUM_OF_SEGMENTS -> index (row init) j = Some 0.
Proof.
  unfold NUM_OF_SEGMENTS. intros Hj. apply index_Some. split; [lia|].
  unfold row. rewrite lookup_app_r by lia.
  apply lookup_replicate_2. change (Z.to_nat NUM_OF_SEGMENTS) with 28%nat. lia.
Qed.

Lemma setDigit_loop_scan (n : nat) (i digitIndex value : Z) (w : World) :
  setDigit_loop n i digitIndex value w
  = scan_glyph n i value ≫= fun offs => turn_off_all digitIndex offs w.
Proof.
  revert i w. induction n as [|n IH]; intros i w; simpl; [reflexivity|].
  destruct (DIGITS_at value i) as [segIndex|]; simpl; [|reflexivity].
  destruct (segIndex =? -1); simpl; [reflexivity|].
  destruct (scan_glyph n (i + 1) value) as [offs|] eqn:Hscan; simpl.
  - destruct (setDigit_body digitIndex segIndex w) as [w1|]; simpl; [|reflexivity].
    rewrite IH, Hscan. reflexivity.
  - destruct (setDigit_body digitIndex segIndex w) as [w1|]; simpl; [|reflexivity].
    rewrite IH, Hscan. reflexivity.
Qed.

Lemma setDigit_scan (digit value : Z) (w : World) :
  setDigit digit value w
  = segmentsToBlank value ≫= fun offs => turn_off_all (digitIndex_of digit) offs w.
Proof. apply setDigit_loop_scan. Qed.

(** The scan of a row 0..9, shared by the statements about [setDigit]. *)
Lemma scan_documented (v : Z) :
  0 <= v <= 9 ->
  segmentsToBlank v = Some (documented_blank_set v) /\
  Forall (fun o => 0 <= o <= 6) (documented_blank_set v).
Proof.
  intros Hv. each_digit Hv; (split; [vm_compute; reflexivity|]);
    cbn [documented_blank_set]; repeat constructor; lia.
Qed.

(** C1: for every value 0..9 the glyph lookup yields exactly the documented
    set of offsets to blank, without duplicates; every offset lies in 0..6;
    the table has exactly 10 entries. *)
Theorem segmentsToBlank_documented (v : Z) :
  0 <= v <= 9 ->
  segmentsToBlank v = Some (documented_blank_set v) /\
  NoDup (documented_blank_set v) /\
  Forall (fun o => 0 <= o <= 6) (documented_blank_set v) /\
  length DIGITS = 10%nat.
Proof.
  intros Hv. each_digit Hv; (split; [vm_compute; reflexivity|]);
    (split; [apply (bool_decide_unpack _); vm_compute; exact I|]);
    (split; [|reflexivity]);
    cbn [documented_blank_set]; repeat constructor; lia.
Qed.

Lemma segmentsToBlank_documented_witness :
  0 <= 7 <= 9 /\
  segmentsToBlank 7 = Some [1; 2; 3; 6] /\
  NoDup [1; 2; 3; 6] /\ Forall (fun o => 0 <= o <= 6) [1; 2; 3; 6] /\
  length DIGITS = 10%nat.
Proof. split; [lia | apply (segmentsToBlank_documented 7); lia]. Defined.

(** C9: for every value 0..9 the glyph row holds the sentinel -1 within its
    first 7 columns; the loop of [setDigit] stops there, so it turns off
    exactly the segments listed before the sentinel and never reads the
    zero padding of columns 7..27; offset 0 is turned off only for the value
    2, whose row lists it. *)
Theorem setDigit_stops_at_sentinel (v : Z) :
  0 <= v <= 9 ->
  exists (r : list Z) (k : Z),
    index DIGITS v = Some r /\ length r = 28%nat /\
    0 <= k < SEGS_PER_DIGIT /\ index r k = Some (-1) /\
    Forall (fun o => 0 <= o <= 6) (take (Z.to_nat k) r) /\
    (forall j, SEGS_PER_DIGIT <= j < NUM_OF_SEGMENTS -> index r j = Some 0) /\
    segmentsToBlank v = Some (take (Z.to_nat k) r) /\
    (forall digit w,
        setDigit digit v w
        = turn_off_all (digitIndex_of digit) (take (Z.to_nat k) r) w) /\
    (0 ∈ take (Z.to_nat k) r -> v = 2).
Proof.
  intros Hv.
  assert (Hgen : forall (init : list Z) (k : Z),
             index DIGITS v = Some (row init) -> length init = 7%nat ->
             0 <= k < 7 -> index (row init) k = Some (-1) ->
             Forall (fun o => 0 <= o <= 6) (take (Z.to_nat k) (row init)) ->
             segmentsToBlank v = Some (take (Z.to_nat k) (row init)) ->
             (0 ∈ take (Z.to_nat k) (row init) -> v = 2) ->
             exists (r : list Z) (k : Z),
               index DIGITS v = Some r /\ length r = 28%nat /\
               0 <= k < SEGS_PER_DIGIT /\ index r k = Some (-1) /\
               Forall (fun o => 0 <= o <= 6) (take (Z.to_nat k) r) /\
               (forall j, SEGS_PER_DIGIT <= j < NUM_OF_SEGMENTS -> index r j = Some 0) /\
               segmentsToBlank v = Some (take (Z.to_nat k) r) /\
               (forall digit w,
                   setDigit digit v w
                   = turn_off_all (digitIndex_of digit) (take (Z.to_nat k) r) w) /\
               (0 ∈ take (Z.to_nat k) r -> v = 2)).
  { intros init k Hrow Hlen Hk Hsent Hoffs Hscan Hzero.
    exists (row init), k. repeat split; try assumption; try (unfold SEGS_PER_DIGIT; lia).
    - apply row_length. lia.
    - intros j Hj. apply row_padding. unfold SEGS_PER_DIGIT in Hj. lia.
    - intros digit w. rewrite setDigit_scan, Hscan. reflexivity. }
  each_digit Hv.
  - apply (Hgen [3; -1; -1; -1; -1; -1; -1] 1); try reflexivity; try lia.
    + repeat constructor; lia.
    + vm_compute. intros H. apply list_elem_of_In in H. simpl in H. intuition lia.
  - apply (Hgen [1; 2; 3; 5; 6; -1; -1] 5); try reflexivity; try lia.
    + repeat constructor; lia.
    + vm_compute. intros H. apply list_elem_of_In in H. simpl in H. intuition lia.
  - apply (Hgen [0; 6; -1; -1; -1; -1; -1] 2); try reflexivity; try lia.
    repeat constructor; lia.
  - apply (Hgen [2; 6; -1; -1; -1; -1; -1] 2); try reflexivity; try lia.
    + repeat constructor; lia.
    + vm_compute. intros H. apply list_elem_of_In in H. simpl in H. intuition lia.
  - apply (Hgen [1; 2; 5; -1; -1; -1; -1] 3); try reflexivity; try lia.
    + repeat constructor; lia.
    + vm_compute. intros H. apply list_elem_of_In in H. simpl in H. intuition lia.
  - apply (Hgen [2; 4; -1; -1; -1; -1; -1] 2); try reflexivity; try lia.
    + repeat constructor; lia.
    + vm_compute. intros H. apply list_elem_of_In in H. simpl in H. intuition lia.
  - apply (Hgen [4; -1; -1; -1; -1; -1; -1] 1); try reflexivity; try lia.
    + repeat constructor; lia.
    + vm_compute. intros H. apply list_elem_of_In in H. simpl in H. intuition lia.
  - apply (Hgen [1; 2; 3; 6; -1; -1; -1] 4); try reflexivity; try lia.
    + repeat constructor; lia.
    + vm_compute. intros H. apply list_elem_of_In in H. simpl in H. intuition lia.
  - apply (Hgen [-1; -1; -1; -1; -1; -1; -1] 0); try reflexivity; try lia.
    + constructor.
    + vm_compute. intros H. apply list_elem_of_In in H. simpl in H. intuition lia.
  - apply (Hgen [2; -1; -1; -1; -1; -1; -1] 1); try reflexivity; try lia.
    + repeat constructor; lia.
    + vm_compute. intros H. apply list_elem_of_In in H. simpl in H. intuition lia.
Qed.

Lemma setDigit_stops_at_sentinel_witness :
  0 <= 1 <= 9 /\
  exists (r : list Z) (k : Z),
    index DIGITS 1 = Some r /\ length r = 28%nat /\
    0 <= k < SEGS_PER_DIGIT /\ index r k = Some (-1) /\
    Forall (fun o => 0 <= o <= 6) (take (Z.to_nat k) r) /\
    (forall j, SEGS_PER_DIGIT <= j < NUM_OF_SEGMENTS -> index r j = Some 0) /\
    segmentsToBlank 1 = Some (take (Z.to_nat k) r) /\
    (forall digit w,
        setDigit digit 1 w
        = turn_off_all (digitIndex_of digit) (take (Z.to_nat k) r) w) /\
    (0 ∈ take (Z.to_nat k) r -> 1 = 2).
Proof. split; [lia | apply (setDigit_stops_at_sentinel 1); lia]. Defined.

(** ** Segment updates on the host *)

Lemma lookup_update_segment (id : Z) (f : Segment -> Segment) (st : WS2812FX) (x : Z) :
  strip_segments (update_segment id f st) x
  = if decide (id = x) then f (strip_segments st id) else strip_segments st x.
Proof. reflexivity. Qed.

Lemma pixels_update_segment (id : Z) (f : Segment -> Segment) (st : WS2812FX) :
  strip_pixels (update_segment id f st) = strip_pixels st.
Proof. reflexivity. Qed.

Lemma clearbit_idem (a n : Z) : Z.clearbit (Z.clearbit a n) n = Z.clearbit a n.
Proof.
  apply Z.bits_inj'. intros m Hm. rewrite !Z.clearbit_eqb.
  destruct (Z.testbit a m), (n =? m); reflexivity.
Qed.

Lemma segment_off_idem (s : Segment) : segment_off (segment_off s) = segment_off s.
Proof.
  destruct s as [a b [[c0 c1] c2] m sp it pa op].
  cbv beta iota delta [segment_off Segment_setOption Segment_setColor set_options
                       set_colors colors options start stop mode speed intensity palette].
  rewrite clearbit_idem. reflexivity.
Qed.

Lemma turnOffSeg_segments (seg segId : Z) (st : WS2812FX) (x : Z) :
  strip_segments (turnOffSeg seg segId st) x
  = if decide (seg = x) then segment_off (strip_segments st seg) else strip_segments st x.
Proof.
  unfold turnOffSeg. rewrite !lookup_update_segment.
  destruct (decide (seg = x)) as [->|Hne]; [|reflexivity].
  destruct (decide (x = x)); [|congruence].
  destruct (strip_segments st x) as [a b [[c0 c1] c2] m sp it pa op].
  cbv beta iota delta [segment_off Segment_setOption Segment_setColor set_options
                       set_colors colors options start stop mode speed intensity palette].
  reflexivity.
Qed.

Lemma turnOffSeg_pixels (seg segId : Z) (st : WS2812FX) :
  strip_pixels (turnOffSeg seg segId st) = strip_pixels st.
Proof. reflexivity. Qed.

Lemma segment_off_is_off (s : Segment) :
  colors (segment_off s) = (0, 0, 0) /\ Z.testbit (options (segment_off s)) 0 = false /\
  start (segment_off s) = start s /\ stop (segment_off s) = stop s /\
  mode (segment_off s) = mode s /\ speed (segment_off s) = speed s /\
  intensity (segment_off s) = intensity s /\ palette (segment_off s) = palette s.
Proof.
  destruct s as [a b [[c0 c1] c2] m sp it pa op].
  cbv beta iota delta [segment_off Segment_setOption Segment_setColor set_options
                       set_colors colors options start stop mode speed intensity palette].
  repeat split. apply Z.clearbit_eq.
Qed.

(** ** [setDigit] on the segmented wiring *)

Lemma turn_off_all_segmented (digitIndex : Z) (offs : list Z) (w : World) :
  wired (self w) ->
  inTwoToneMode (self w) || inTempHumidMode (self w) = true ->
  Forall (fun o => 0 <= digitIndex + o < NUM_OF_SEGMENTS) offs ->
  exists w',
    turn_off_all digitIndex offs w = Some w' /\
    self w' = self w /\ dht11_reads w' = dht11_reads w /\
    strip_pixels (strip w') = strip_pixels (strip w) /\
    forall i,
      strip_segments (strip w') (i + NUM_FIRST_LEDS)
      = if bool_decide (i - digitIndex ∈ offs)
        then segment_off (strip_segments (strip w) (i + NUM_FIRST_LEDS))
        else strip_segments (strip w) (i + NUM_FIRST_LEDS).
Proof.
  revert w. induction offs as [|o os IH]; intros w Hw Hmode Hoffs.
  - exists w. do 4 (split; [reflexivity|]). intros i.
    rewrite bool_decide_eq_false_2; [reflexivity|]. apply not_elem_of_nil.
  - apply Forall_cons_1 in Hoffs as [Ho Hos]. simpl.
    unfold setDigit_body. rewrite Hmode.
    unfold deref_segments. rewrite bool_decide_eq_true_2 by exact Ho.
    destruct Hw as (H1 & H2 & H3 & Hseg). rewrite (Hseg _ Ho). simpl.
    set (w1 := with_strip _ w).
    destruct (IH w1) as (w' & Hrun & Hself & Hreads & Hpix & Hsegs).
    { repeat split; assumption. }
    { exact Hmode. }
    { exact Hos. }
    exists w'. split; [exact Hrun|]. split; [exact Hself|]. split; [exact Hreads|].
    split; [rewrite Hpix; reflexivity|].
    intros i. rewrite Hsegs. unfold w1. cbn [strip with_strip].
    rewrite turnOffSeg_segments.
    destruct (decide (digitIndex + o + NUM_FIRST_LEDS = i + NUM_FIRST_LEDS)) as [Heq|Hne].
    + assert (i - digitIndex = o) as Hi by lia.
      rewrite (bool_decide_eq_true_2 (i - digitIndex ∈ o :: os))
        by (rewrite Hi; apply list_elem_of_here).
      rewrite Heq. case_bool_decide; [apply segment_off_idem | reflexivity].
    + assert (i - digitIndex <> o) as Hi by lia.
      destruct (decide (i - digitIndex ∈ os)) as [Hin|Hnin].
      * rewrite !bool_decide_eq_true_2; [reflexivity | | exact Hin].
        apply list_elem_of_further; exact Hin.
      * rewrite !bool_decide_eq_false_2; [reflexivity | | exact Hnin].
        intros Hin. apply elem_of_cons in Hin as [?|?]; contradiction.
Qed.

(** ** [setDigit] on the flat wiring *)

Lemma turnOffSegPixels_pixels (segment : Z) (st : WS2812FX) (p : Z) :
  strip_pixels (turnOffSegPixels segment st) p
  = if bool_decide (segment_pixel segment p) then 0 else strip_pixels st p.
Proof.
  unfold turnOffSegPixels, segment_pixel, NUM_FIRST_LEDS, ADDR_LEDS_PER_SEG. simpl.
  unfold insert, fn_insert.
  repeat case_decide; case_bool_decide; try reflexivity; lia.
Qed.

Lemma turnOffSegPixels_segments (segment : Z) (st : WS2812FX) :
  strip_segments (turnOffSegPixels segment st) = strip_segments st.
Proof. reflexivity. Qed.

Lemma turn_off_all_series (digitIndex : Z) (offs : list Z) (w : World) :
  inTwoToneMode (self w) || inTempHumidMode (self w) = false ->
  inSeriesMode (self w) = true ->
  exists w',
    turn_off_all digitIndex offs w = Some w' /\
    self w' = self w /\ dht11_reads w' = dht11_reads w /\
    strip_segments (strip w') = strip_segments (strip w) /\
    forall p,
      strip_pixels (strip w') p
      = if bool_decide (Exists (fun o => segment_pixel (digitIndex + o) p) offs)
        then 0 else strip_pixels (strip w) p.
Proof.
  revert w. induction offs as [|o os IH]; intros w Hmode Hser.
  - exists w. do 4 (split; [reflexivity|]). intros p.
    rewrite bool_decide_eq_false_2; [reflexivity|].
    intros H. apply Exists_nil in H. exact H.
  - simpl. unfold setDigit_body. rewrite Hmode, Hser. simpl.
    set (w1 := with_strip _ w).
    destruct (IH w1 Hmode Hser) as (w' & Hrun & Hself & Hreads & Hsegs & Hpix).
    exists w'. repeat split; try assumption.
    intros p. rewrite Hpix. unfold w1. cbn [strip with_strip].
    rewrite turnOffSegPixels_pixels.
    destruct (decide (segment_pixel (digitIndex + o) p)) as [Hin|Hnin].
    + rewrite (bool_decide_eq_true_2 _ Hin).
      rewrite (bool_decide_eq_true_2 (Exists _ (o :: os))) by (apply Exists_cons; tauto).
      case_bool_decide; reflexivity.
    + rewrite (bool_decide_eq_false_2 _ Hnin).
      destruct (decide (Exists (fun o => segment_pixel (digitIndex + o) p) os)) as [He|Hne].
      * rewrite !bool_decide_eq_true_2; [reflexivity | | exact He].
        apply Exists_cons; tauto.
      * rewrite !bool_decide_eq_false_2; [reflexivity | | exact Hne].
        intros H. apply Exists_cons in H. tauto.
Qed.

Lemma turn_off_all_no_mode (digitIndex : Z) (offs : list Z) (w : World) :
  inTwoToneMode (self w) || inTempHumidMode (self w) = false ->
  inSeriesMode (self w) = false ->
  turn_off_all digitIndex offs w = Some w.
Proof.
  intros Hmode Hser. induction offs as [|o os IH]; [reflexivity|].
  simpl. unfold setDigit_body. rewrite Hmode, Hser. simpl. exact IH.
Qed.

(** In Series mode [setDigit] blacks out exactly the LEDs of the segments
    base+offset, for the offsets of the glyph set, and writes nothing else. *)
Lemma setDigit_blanks_pixels (d v : Z) (w : World) :
  0 <= v <= 9 ->
  inTwoToneMode (self w) || inTempHumidMode (self w) = false ->
  inSeriesMode (self w) = true ->
  exists w',
    setDigit d v w = Some w' /\
    self w' = self w /\ dht11_reads w' = dht11_reads w /\
    strip_segments (strip w') = strip_segments (strip w) /\
    forall p,
      strip_pixels (strip w') p
      = if bool_decide
             (Exists (fun o => segment_pixel (digitIndex_of d + o) p)
                (documented_blank_set v))
        then 0 else strip_pixels (strip w) p.
Proof.
  intros Hv Hmode Hser. rewrite setDigit_scan.
  destruct (scan_documented v Hv) as (-> & _). simpl.
  apply turn_off_all_series; assumption.
Qed.

(** C2: for a digit position 0..3 and a value 0..9, [setDigit] takes
    28 - 7*(d+1) as the base index of the digit and runs its turn-off step
    exactly for the offsets of the glyph set.  On the segmented wiring
    (two-tone or temperature/humidity flag set, pointers assigned) this turns
    off exactly the segments base+offset and leaves every other segment, the
    pixels and the usermod as they were; on the flat wiring (Series flag
    only) it blacks out exactly the three LEDs of each segment base+offset
    and leaves every other LED, every host range and the usermod as they
    were. *)
Theorem setDigit_blanks_glyph (d v : Z) (w : World) :
  0 <= d <= 3 -> 0 <= v <= 9 ->
  digitIndex_of d = 28 - 7 * (d + 1) /\
  setDigit d v w = turn_off_all (28 - 7 * (d + 1)) (documented_blank_set v) w /\
  (wired (self w) ->
   inTwoToneMode (self w) || inTempHumidMode (self w) = true ->
   exists w',
     setDigit d v w = Some w' /\
     self w' = self w /\ dht11_reads w' = dht11_reads w /\
     strip_pixels (strip w') = strip_pixels (strip w) /\
     forall i,
       strip_segments (strip w') (i + NUM_FIRST_LEDS)
       = if bool_decide (i - (28 - 7 * (d + 1)) ∈ documented_blank_set v)
         then segment_off (strip_segments (strip w) (i + NUM_FIRST_LEDS))
         else strip_segments (strip w) (i + NUM_FIRST_LEDS)) /\
  (inTwoToneMode (self w) || inTempHumidMode (self w) = false ->
   inSeriesMode (self w) = true ->
   exists w',
     setDigit d v w = Some w' /\
     self w' = self w /\ dht11_reads w' = dht11_reads w /\
     strip_segments (strip w') = strip_segments (strip w) /\
     forall p,
       strip_pixels (strip w') p
       = if bool_decide
              (Exists (fun o => segment_pixel (28 - 7 * (d + 1) + o) p)
                 (documented_blank_set v))
         then 0 else strip_pixels (strip w) p).
Proof.
  intros Hd Hv.
  assert (Hbase : digitIndex_of d = 28 - 7 * (d + 1)).
  { unfold digitIndex_of, NUM_OF_SEGMENTS, SEGS_PER_DIGIT. lia. }
  destruct (scan_documented v Hv) as (Hscan & Hrange).
  assert (Hrun : setDigit d v w
                 = turn_off_all (28 - 7 * (d + 1)) (documented_blank_set v) w).
  { rewrite setDigit_scan, Hscan, Hbase. reflexivity. }
  split; [exact Hbase|]. split; [exact Hrun|]. split.
  - intros Hw Hmode. rewrite Hrun.
    apply turn_off_all_segmented; [exact Hw | exact Hmode |].
    eapply Forall_impl; [|exact Hrange]. cbv beta. intros o Ho.
    unfold NUM_OF_SEGMENTS. lia.
  - intros Hmode Hser. rewrite Hrun.
    apply turn_off_all_series; assumption.
Qed.

Lemma setDigit_blanks_glyph_witness :
  0 <= 0 <= 3 /\ 0 <= 0 <= 9 /\
  digitIndex_of 0 = 21 /\
  wired (self lit_wired_world) /\
  inTwoToneMode (self lit_wired_world) || inTempHumidMode (self lit_wired_world) = true /\
  (exists w',
     setDigit 0 0 lit_wired_world = Some w' /\
     strip_pixels (strip w') = strip_pixels (strip lit_wired_world) /\
     (forall i,
        strip_segments (strip w') (i + NUM_FIRST_LEDS)
        = if bool_decide (i - 21 ∈ [3])
          then segment_off (strip_segments (strip lit_wired_world) (i + NUM_FIRST_LEDS))
          else strip_segments (strip lit_wired_world) (i + NUM_FIRST_LEDS)) /\
     colors (strip_segments (strip w') (24 + NUM_FIRST_LEDS)) = (0, 0, 0) /\
     colors (strip_segments (strip w') (23 + NUM_FIRST_LEDS)) = (16711680, 65280, 255)) /\
  inTwoToneMode (self lit_series_world) || inTempHumidMode (self lit_series_world) = false /\
  inSeriesMode (self lit_series_world) = true /\
  (exists w',
     setDigit 0 0 lit_series_world = Some w' /\
     strip_segments (strip w') = strip_segments (strip lit_series_world) /\
     (forall p,
        strip_pixels (strip w') p
        = if bool_decide (Exists (fun o => segment_pixel (21 + o) p) [3])
          then 0 else strip_pixels (strip lit_series_world) p) /\
     strip_pixels (strip w') 74 = 16777215 /\
     strip_pixels (strip w') 75 = 0 /\ strip_pixels (strip w') 76 = 0 /\
     strip_pixels (strip w') 77 = 0 /\ strip_pixels (strip w') 78 = 16777215).
Proof.
  assert (Hw : wired (self lit_wired_world)).
  { split; [reflexivity|]. split; [reflexivity|]. split; [reflexivity|].
    intros i Hi. cbn [self lit_wired_world wired_display segments set_segments].
    rewrite bool_decide_eq_true_2 by exact Hi. reflexivity. }
  destruct (setDigit_blanks_glyph 0 0 lit_wired_world) as (Hbase & _ & Hseg & _);
    [lia | lia |].
  destruct (setDigit_blanks_glyph 0 0 lit_series_world) as (_ & _ & _ & Hflat);
    [lia | lia |].
  split; [lia|]. split; [lia|]. split; [exact Hbase|]. split; [exact Hw|].
  split; [reflexivity|]. split.
  { destruct (Hseg Hw eq_refl) as (w' & Hrun & _ & _ & Hpix & Hsegs).
    exists w'. split; [exact Hrun|]. split; [exact Hpix|]. split; [exact Hsegs|].
    split; [rewrite (Hsegs 24) | rewrite (Hsegs 23)]; vm_compute; reflexivity. }
  split; [reflexivity|]. split; [reflexivity|].
  destruct (Hflat eq_refl eq_refl) as (w' & Hrun & _ & _ & Hsegs & Hpix).
  exists w'. split; [exact Hrun|]. split; [exact Hsegs|]. split; [exact Hpix|].
  rewrite !Hpix. repeat split; vm_compute; reflexivity.
Defined.

(** ** Colour propagation *)

Lemma segCopyProps_segments (seg1 seg2 seg1Id : Z) (st : WS2812FX) (x : Z) :
  seg1 <> seg2 -> seg1Id + NUM_FIRST_LEDS = seg1 ->
  strip_segments (segCopyProps seg1 seg2 seg1Id st) x
  = if decide (seg1 = x)
    then copy_props (strip_segments st seg2) (strip_segments st seg1)
    else strip_segments st x.
Proof.
  intros Hne Hid. unfold segCopyProps, strip_setMode. rewrite Hid.
  rewrite !lookup_update_segment.
  destruct (decide (seg1 = seg2)) as [?|_]; [contradiction|].
  destruct (decide (seg1 = seg1)) as [_|?]; [|congruence].
  destruct (decide (seg1 = x)); reflexivity.
Qed.

Lemma segCopyProps_pixels (seg1 seg2 seg1Id : Z) (st : WS2812FX) :
  strip_pixels (segCopyProps seg1 seg2 seg1Id st) = strip_pixels st.
Proof. reflexivity. Qed.

Lemma copy_props_fields (src tgt : Segment) :
  color0 (copy_props src tgt) = color0 src /\
  mode (copy_props src tgt) = mode src /\
  speed (copy_props src tgt) = speed src /\
  intensity (copy_props src tgt) = intensity src /\
  palette (copy_props src tgt) = palette src /\
  start (copy_props src tgt) = start tgt /\
  stop (copy_props src tgt) = stop tgt /\
  options (copy_props src tgt) = options tgt.
Proof.
  destruct tgt as [a b [[c0 c1] c2] m sp it pa op]. repeat split.
Qed.

Section CopyLoop.

(** A loop whose body copies, into display segment [i], the properties of
    the colour source [src i], on a display [u] that is wired. *)
Variable body : Z -> World -> option World.
Variable src : Z -> Z.
Variable u : NanoLeafDisplay.

Hypothesis src_range : forall i, 0 <= src i < NUM_FIRST_LEDS.
Hypothesis body_copies :
  forall i w, 0 <= i < NUM_OF_SEGMENTS -> self w = u ->
    body i w = Some (with_strip (segCopyProps (i + NUM_FIRST_LEDS) (src i) i) w).

Lemma copy_loop_spec (n : nat) :
  forall (i : Z) (w : World),
    0 <= i -> i + Z.of_nat n <= NUM_OF_SEGMENTS -> self w = u ->
    exists w',
      for_loop n i body w = Some w' /\
      self w' = self w /\ dht11_reads w' = dht11_reads w /\
      strip_pixels (strip w') = strip_pixels (strip w) /\
      forall j,
        strip_segments (strip w') (j + NUM_FIRST_LEDS)
        = if bool_decide (i <= j < i + Z.of_nat n)
          then copy_props (strip_segments (strip w) (src j))
                 (strip_segments (strip w) (j + NUM_FIRST_LEDS))
          else strip_segments (strip w) (j + NUM_FIRST_LEDS).
Proof.
  induction n as [|n IH]; intros i w Hi Hn Hu.
  - exists w. do 4 (split; [reflexivity|]). intros j.
    rewrite bool_decide_eq_false_2 by lia. reflexivity.
  - cbn [for_loop]. rewrite body_copies by (try assumption; lia).
    cbn [mbind option_bind].
    set (w1 := with_strip _ w).
    destruct (IH (i + 1) w1) as (w' & Hrun & Hself & Hreads & Hpix & Hsegs);
      [lia | lia | exact Hu |].
    exists w'. repeat split; try assumption.
    intros j. rewrite Hsegs. unfold w1. cbn [strip with_strip].
    pose proof (src_range j) as Hsj. pose proof (src_range i) as Hsi.
    rewrite !segCopyProps_segments by (unfold NUM_FIRST_LEDS in *; lia).
    destruct (decide (i + NUM_FIRST_LEDS = src j)) as [?|_];
      [unfold NUM_FIRST_LEDS in *; lia|].
    destruct (decide (i + NUM_FIRST_LEDS = j + NUM_FIRST_LEDS)) as [Heq|Hne].
    + assert (j = i) as -> by lia.
      rewrite bool_decide_eq_false_2 by lia.
      rewrite bool_decide_eq_true_2 by lia. reflexivity.
    + case_bool_decide.
      * rewrite bool_decide_eq_true_2 by lia. reflexivity.
      * rewrite bool_decide_eq_false_2 by lia. reflexivity.
Qed.

End CopyLoop.

Lemma midSegmentIndex_14 : midSegmentIndex = 14.
Proof. reflexivity. Qed.

Lemma twoTone_body_copies (u : NanoLeafDisplay) (i : Z) (w : World) :
  wired u -> 0 <= i < NUM_OF_SEGMENTS -> self w = u ->
  twoTone_body i w
  = Some (with_strip
            (segCopyProps (i + NUM_FIRST_LEDS) (if bool_decide (14 <= i) then 0 else 1) i)
            w).
Proof.
  intros (H1 & H2 & _ & Hseg) Hi <-. unfold twoTone_body, deref_segments.
  rewrite midSegmentIndex_14, (bool_decide_eq_true_2 _ Hi), (Hseg i Hi), H1, H2.
  case_bool_decide; reflexivity.
Qed.

Lemma setTempHumidColors_body_copies (u : NanoLeafDisplay) (i : Z) (w : World) :
  wired u -> 0 <= i < NUM_OF_SEGMENTS -> self w = u ->
  setTempHumidColors_body i w
  = Some (with_strip
            (segCopyProps (i + NUM_FIRST_LEDS)
               (if bool_decide (14 <= i)
                then if 0 <? currentTemp u then 0 else 1
                else 2) i)
            w).
Proof.
  intros (H1 & H2 & H3 & Hseg) Hi <-. unfold setTempHumidColors_body, deref_segments.
  rewrite midSegmentIndex_14, (bool_decide_eq_true_2 _ Hi), (Hseg i Hi), H1, H2, H3.
  case_bool_decide; [destruct (0 <? currentTemp (self w))|]; reflexivity.
Qed.

(** C6: in the two-tone render every display segment 0..27 receives colour,
    effect mode, speed, intensity and palette of the first colour source
    (range 0) when its index is at least the midpoint 14, and of the second
    colour source (range 1) when it is below; the colour sources themselves
    are not written, and [twoTone] continues with [displayTime]. *)
Theorem twoTone_copies_halves (w : World) :
  wired (self w) ->
  midSegmentIndex = 14 /\
  exists w',
    twoTone_colors w = Some w' /\
    (forall e, twoTone e w = displayTime e w') /\
    self w' = self w /\
    (forall s, 0 <= s < 3 ->
       strip_segments (strip w') s = strip_segments (strip w) s) /\
    forall i, 0 <= i < 28 ->
      let source := strip_segments (strip w) (if bool_decide (14 <= i) then 0 else 1) in
      let seg := strip_segments (strip w') (i + NUM_FIRST_LEDS) in
      seg = copy_props source (strip_segments (strip w) (i + NUM_FIRST_LEDS)) /\
      color0 seg = color0 source /\ mode seg = mode source /\
      speed seg = speed source /\ intensity seg = intensity source /\
      palette seg = palette source.
Proof.
  intros Hw. split; [reflexivity|].
  destruct (copy_loop_spec twoTone_body (fun i => if bool_decide (14 <= i) then 0 else 1)
              (self w)) with (n := Z.to_nat NUM_OF_SEGMENTS) (i := 0) (w := w)
    as (w' & Hrun & Hself & _ & _ & Hsegs).
  { intros i. unfold NUM_FIRST_LEDS. case_bool_decide; lia. }
  { intros i w0 Hi Hu. apply (twoTone_body_copies (self w)); assumption. }
  { lia. }
  { unfold NUM_OF_SEGMENTS. lia. }
  { reflexivity. }
  exists w'. split; [exact Hrun|].
  split; [intros e; unfold twoTone, twoTone_colors; rewrite Hrun; reflexivity|].
  split; [exact Hself|]. split.
  - intros s Hs. replace s with ((s - 3) + NUM_FIRST_LEDS) by (unfold NUM_FIRST_LEDS; lia).
    rewrite Hsegs. rewrite bool_decide_eq_false_2 by lia. reflexivity.
  - intros i Hi source seg.
    assert (Hseg : seg = copy_props source (strip_segments (strip w) (i + NUM_FIRST_LEDS))).
    { unfold seg. rewrite Hsegs.
      rewrite bool_decide_eq_true_2 by (unfold NUM_OF_SEGMENTS; lia). reflexivity. }
    split; [exact Hseg|]. rewrite Hseg.
    destruct (copy_props_fields source (strip_segments (strip w) (i + NUM_FIRST_LEDS)))
      as (? & ? & ? & ? & ? & _).
    repeat split; assumption.
Qed.

Lemma wired_world_wired : wired (self wired_world).
Proof.
  split; [reflexivity|]. split; [reflexivity|]. split; [reflexivity|].
  intros i Hi. simpl. rewrite bool_decide_eq_true_2 by exact Hi. reflexivity.
Defined.

Lemma twoTone_copies_halves_witness :
  wired (self wired_world) /\
  midSegmentIndex = 14 /\
  exists w',
    twoTone_colors wired_world = Some w' /\
    (forall e, twoTone e wired_world = displayTime e w') /\
    self w' = self wired_world /\
    (forall s, 0 <= s < 3 ->
       strip_segments (strip w') s = strip_segments (strip wired_world) s) /\
    forall i, 0 <= i < 28 ->
      let source :=
        strip_segments (strip wired_world) (if bool_decide (14 <= i) then 0 else 1) in
      let seg := strip_segments (strip w') (i + NUM_FIRST_LEDS) in
      seg = copy_props source (strip_segments (strip wired_world) (i + NUM_FIRST_LEDS)) /\
      color0 seg = color0 source /\ mode seg = mode source /\
      speed seg = speed source /\ intensity seg = intensity source /\
      palette seg = palette source.
Proof.
  split; [exact wired_world_wired | apply (twoTone_copies_halves wired_world)].
  exact wired_world_wired.
Defined.

(** C7: in the temperature/humidity render every display segment 0..27 with
    index at least 14 receives the properties of the first colour source
    (range 0) when the current temperature is above 0 and of the second
    (range 1) otherwise, so also at temperature 0 and below; every segment
    with index below 14 receives those of the third colour source (range 2). *)
Theorem setTempHumidColors_copies (w : World) :
  wired (self w) ->
  exists w',
    setTempHumidColors w = Some w' /\
    self w' = self w /\
    (forall s, 0 <= s < 3 ->
       strip_segments (strip w') s = strip_segments (strip w) s) /\
    forall i, 0 <= i < 28 ->
      let source :=
        strip_segments (strip w)
          (if bool_decide (14 <= i)
           then if bool_decide (currentTemp (self w) > 0) then 0 else 1
           else 2) in
      let seg := strip_segments (strip w') (i + NUM_FIRST_LEDS) in
      seg = copy_props source (strip_segments (strip w) (i + NUM_FIRST_LEDS)) /\
      color0 seg = color0 source /\ mode seg = mode source /\
      speed seg = speed source /\ intensity seg = intensity source /\
      palette seg = palette source.
Proof.
  intros Hw.
  destruct (copy_loop_spec setTempHumidColors_body
              (fun i => if bool_decide (14 <= i)
                        then if 0 <? currentTemp (self w) then 0 else 1
                        else 2)
              (self w)) with (n := Z.to_nat NUM_OF_SEGMENTS) (i := 0) (w := w)
    as (w' & Hrun & Hself & _ & _ & Hsegs).
  { intros i. unfold NUM_FIRST_LEDS.
    case_bool_decide; [destruct (0 <? currentTemp (self w))|]; lia. }
  { intros i w0 Hi Hu. apply (setTempHumidColors_body_copies (self w)); assumption. }
  { lia. }
  { unfold NUM_OF_SEGMENTS. lia. }
  { reflexivity. }
  exists w'. split; [exact Hrun|]. split; [exact Hself|]. split.
  - intros s Hs. replace s with ((s - 3) + NUM_FIRST_LEDS) by (unfold NUM_FIRST_LEDS; lia).
    rewrite Hsegs. rewrite bool_decide_eq_false_2 by lia. reflexivity.
  - intros i Hi source seg.
    assert (Hseg : seg = copy_props source (strip_segments (strip w) (i + NUM_FIRST_LEDS))).
    { unfold seg, source. rewrite Hsegs.
      rewrite bool_decide_eq_true_2 by (unfold NUM_OF_SEGMENTS; lia).
      destruct (Z.ltb_spec 0 (currentTemp (self w))).
      - rewrite (bool_decide_eq_true_2 (currentTemp (self w) > 0)) by lia. reflexivity.
      - rewrite (bool_decide_eq_false_2 (currentTemp (self w) > 0)) by lia. reflexivity. }
    split; [exact Hseg|]. rewrite Hseg.
    destruct (copy_props_fields source (strip_segments (strip w) (i + NUM_FIRST_LEDS)))
      as (? & ? & ? & ? & ? & _).
    repeat split; assumption.
Qed.

Lemma setTempHumidColors_copies_witness :
  wired (self cold_world) /\
  exists w',
    setTempHumidColors cold_world = Some w' /\
    self w' = self cold_world /\
    (forall s, 0 <= s < 3 ->
       strip_segments (strip w') s = strip_segments (strip cold_world) s) /\
    forall i, 0 <= i < 28 ->
      let source :=
        strip_segments (strip cold_world)
          (if bool_decide (14 <= i)
           then if bool_decide (currentTemp (self cold_world) > 0) then 0 else 1
           else 2) in
      let seg := strip_segments (strip w') (i + NUM_FIRST_LEDS) in
      seg = copy_props source (strip_segments (strip cold_world) (i + NUM_FIRST_LEDS)) /\
      color0 seg = color0 source /\ mode seg = mode source /\
      speed seg = speed source /\ intensity seg = intensity source /\
      palette seg = palette source.
Proof.
  assert (Hw : wired (self cold_world)).
  { split; [reflexivity|]. split; [reflexivity|]. split; [reflexivity|].
    intros i Hi. simpl. rewrite bool_decide_eq_true_2 by exact Hi. reflexivity. }
  split; [exact Hw | apply (setTempHumidColors_copies cold_world); exact Hw].
Defined.

(** ** What the render paths leave alone *)

Lemma for_loop_preserves {S : Type} (P : S -> Prop) (body : Z -> S -> option S) :
  (forall i s s', P s -> body i s = Some s' -> P s') ->
  forall n i s s', P s -> for_loop n i body s = Some s' -> P s'.
Proof.
  intros Hbody. induction n as [|n IH]; intros i s s' Hs Hrun; simpl in Hrun.
  - injection Hrun as <-. exact Hs.
  - destruct (body i s) as [s1|] eqn:Hb; simpl in Hrun; [|discriminate].
    eapply IH; [eapply Hbody; eassumption | exact Hrun].
Qed.

Lemma twoTone_body_sensor (i : Z) (w w' : World) :
  twoTone_body i w = Some w' -> sensor_state w' = sensor_state w.
Proof.
  unfold twoTone_body. intros H.
  destruct (bool_decide (midSegmentIndex <= i));
    destruct (deref_segments w i); simpl in H; try discriminate;
    [destruct (firstSeg (self w)) | destruct (secondSeg (self w))];
    simpl in H; try discriminate; injection H as <-; reflexivity.
Qed.

Lemma setDigit_body_sensor (digitIndex segIndex : Z) (w w' : World) :
  setDigit_body digitIndex segIndex w = Some w' -> sensor_state w' = sensor_state w.
Proof.
  unfold setDigit_body. intros H.
  destruct (inTwoToneMode (self w) || inTempHumidMode (self w)).
  - destruct (deref_segments w (digitIndex + segIndex)); simpl in H; [|discriminate].
    injection H as <-. reflexivity.
  - destruct (inSeriesMode (self w)); injection H as <-; reflexivity.
Qed.

Lemma setDigit_sensor (digit value : Z) (w w' : World) :
  setDigit digit value w = Some w' -> sensor_state w' = sensor_state w.
Proof.
  unfold setDigit. generalize (Z.to_nat NUM_DIGITS) 0 (digitIndex_of digit).
  intros n. revert w. induction n as [|n IH]; intros w i di H; simpl in H.
  - injection H as <-. reflexivity.
  - destruct (DIGITS_at value i) as [segIndex|]; simpl in H; [|discriminate].
    destruct (segIndex =? -1); [injection H as <-; reflexivity|].
    destruct (setDigit_body di segIndex w) as [w1|] eqn:Hb; simpl in H; [|discriminate].
    rewrite (IH _ _ _ H). eapply setDigit_body_sensor; exact Hb.
Qed.

Lemma four_digits_sensor (v0 : Z) (v1 v2 : World -> Z) (v3 : World -> World -> Z)
    (w w' : World) :
  (w1 ← setDigit 0 v0 w;
   w2 ← setDigit 1 (v1 w1) w1;
   w3 ← setDigit 2 (v2 w2) w2;
   setDigit 3 (v3 w2 w3) w3) = Some w' ->
  sensor_state w' = sensor_state w.
Proof.
  intros H.
  destruct (setDigit 0 v0 w) as [w1|] eqn:H0; cbn [mbind option_bind] in H;
    [|discriminate].
  destruct (setDigit 1 (v1 w1) w1) as [w2|] eqn:H1; cbn [mbind option_bind] in H;
    [|discriminate].
  destruct (setDigit 2 (v2 w2) w2) as [w3|] eqn:H2; cbn [mbind option_bind] in H;
    [|discriminate].
  rewrite (setDigit_sensor _ _ _ _ H), (setDigit_sensor _ _ _ _ H2),
    (setDigit_sensor _ _ _ _ H1), (setDigit_sensor _ _ _ _ H0). reflexivity.
Qed.

Lemma displayTime_sensor (e : Env) (w w' : World) :
  displayTime e w = Some w' -> sensor_state w' = sensor_state w.
Proof.
  unfold displayTime. intros H.
  destruct (inManualMode (self w)).
  - exact (four_digits_sensor (digit0Value (self w))
             (fun w => digit1Value (self w)) (fun w => digit2Value (self w))
             (fun _ w => digit3Value (self w)) w w' H).
  - destruct (inSecsMinsMode (self (updateTime e w))).
    + exact (four_digits_sensor (Z.quot (currentMin (self (updateTime e w))) 10)
               (fun _ => Z.rem (currentMin (self (updateTime e w))) 10)
               (fun w => Z.quot (currentSec (self w)) 10)
               (fun w _ => Z.rem (currentSec (self w)) 10) (updateTime e w) w' H).
    + exact (four_digits_sensor (Z.quot (currentHour (self (updateTime e w))) 10)
               (fun _ => Z.rem (currentHour (self (updateTime e w))) 10)
               (fun w => Z.quot (currentMin (self w)) 10)
               (fun w _ => Z.rem (currentMin (self w)) 10) (updateTime e w) w' H).
Qed.

Lemma twoTone_sensor (e : Env) (w w' : World) :
  twoTone e w = Some w' -> sensor_state w' = sensor_state w.
Proof.
  unfold twoTone, twoTone_colors. intros H.
  destruct (for_loop (Z.to_nat NUM_OF_SEGMENTS) 0 twoTone_body w) as [w1|] eqn:Hloop;
    simpl in H; [|discriminate].
  rewrite (displayTime_sensor _ _ _ H).
  apply (for_loop_preserves (fun x => sensor_state x = sensor_state w) twoTone_body)
    with (n := Z.to_nat NUM_OF_SEGMENTS) (i := 0) (s := w); [|reflexivity|exact Hloop].
  intros i s s' Hs Hb. rewrite (twoTone_body_sensor _ _ _ Hb). exact Hs.
Qed.

(** C10: with the two-tone and the temperature/humidity flag both set, a
    call of [loop] is the two-tone render and nothing else: the sensor is not
    read and the cached reading and its time stamp stay as they are; with the
    two-tone, temperature/humidity and series flags all clear, neither [loop]
    nor [handleOverlayDraw] changes anything. *)
Theorem loop_twoTone_first (e : Env) (w : World) :
  (inTwoToneMode (self w) = true -> inTempHumidMode (self w) = true ->
   loop e w = twoTone e w /\
   forall w', loop e w = Some w' -> sensor_state w' = sensor_state w) /\
  (inTwoToneMode (self w) = false -> inTempHumidMode (self w) = false ->
   inSeriesMode (self w) = false ->
   loop e w = Some w /\ handleOverlayDraw e w = Some w).
Proof.
  split.
  - intros Htwo _. unfold loop. rewrite Htwo. split; [reflexivity|].
    intros w' H. exact (twoTone_sensor e w w' H).
  - intros Htwo Htmp Hser. unfold loop, handleOverlayDraw.
    rewrite Htwo, Htmp, Hser. split; reflexivity.
Qed.

Lemma loop_twoTone_first_witness :
  inTwoToneMode (self both_world) = true /\ inTempHumidMode (self both_world) = true /\
  loop noon both_world = twoTone noon both_world /\
  (forall w', loop noon both_world = Some w' -> sensor_state w' = sensor_state both_world) /\
  inTwoToneMode (self idle_world) = false /\ inTempHumidMode (self idle_world) = false /\
  inSeriesMode (self idle_world) = false /\
  loop noon idle_world = Some idle_world /\
  handleOverlayDraw noon idle_world = Some idle_world.
Proof.
  destruct (loop_twoTone_first noon both_world) as [Hboth _].
  destruct (loop_twoTone_first noon idle_world) as [_ Hidle].
  destruct (Hboth eq_refl eq_refl) as [H1 H2].
  destruct (Hidle eq_refl eq_refl eq_refl) as [H3 H4].
  do 2 (split; [reflexivity|]).
  split; [exact H1|]. split; [exact H2|].
  do 3 (split; [reflexivity|]).
  split; [exact H3 | exact H4].
Defined.

(** With both flags set the temperature/humidity path would have read the
    sensor at [noon]; the loop does not. *)
Example loop_both_flags_no_sensor_read :
  dht11_reads <$> loop noon both_world = Some 0%nat /\
  dht11_reads <$> displayTempAndHumid noon both_world = Some 1%nat.
Proof. split; vm_compute; reflexivity. Qed.

(** ** The rate limit of the sensor *)

Lemma elapsed_after_read (a b : Z) :
  u32 (u32 a - to_long (u32 b)) = (a - b) mod 2 ^ 32.
Proof.
  unfold u32, to_long.
  change (2 ^ 32) with 4294967296. change (2 ^ 31) with 2147483648.
  Z.div_mod_to_equations. lia.
Qed.

Lemma readTempAndHumid_skip (e : Env) (w : World) :
  elapsed e w <= 10000 -> readTempAndHumid e w = w.
Proof.
  intros H. unfold readTempAndHumid, dht11ReadingDelay.
  destruct (Z.ltb_spec 10000 (elapsed e w)); [lia | reflexivity].
Qed.

Lemma readTempAndHumid_read (e : Env) (w : World) :
  elapsed e w > 10000 ->
  readTempAndHumid e w
  = dht11_read e (with_self (set_lastDHT11TimeRead (to_long (u32 (millis_stamp e)))) w).
Proof.
  intros H. unfold readTempAndHumid, dht11ReadingDelay.
  destruct (Z.ltb_spec 10000 (elapsed e w)); [reflexivity | lia].
Qed.

(** The reading taken by [initDHT11Sensor] does not renew the time stamp, so
    the rate limit does not count from it. *)
Lemma initDHT11Sensor_keeps_stamp (e : Env) (w : World) :
  lastDHT11TimeRead (self (initDHT11Sensor e w)) = lastDHT11TimeRead (self w) /\
  dht11_reads (initDHT11Sensor e w) = S (dht11_reads w) /\
  forall e2, elapsed e2 (initDHT11Sensor e w) = elapsed e2 w.
Proof. repeat split. Qed.

(** C3, as the code has it: a call of [readTempAndHumid] at most 10000 ms
    after the stored time stamp (difference of [millis()] and the stamp,
    modulo 2^32) changes nothing, so the cached temperature and humidity are
    returned and the sensor is not read; a call more than 10000 ms after it
    reads the sensor once, stores the fresh values and renews the stamp;
    hence when two successive calls both read the sensor, the second one
    comes more than 10000 ms after the stamp of the first. *)
Theorem readTempAndHumid_rate_limit (e : Env) (w : World) :
  (elapsed e w <= 10000 -> readTempAndHumid e w = w) /\
  (elapsed e w > 10000 ->
   currentTemp (self (readTempAndHumid e w)) = dht_temperature e /\
   currentHumid (self (readTempAndHumid e w)) = dht_humidity e /\
   dht11_reads (readTempAndHumid e w) = S (dht11_reads w) /\
   lastDHT11TimeRead (self (readTempAndHumid e w)) = to_long (u32 (millis_stamp e))) /\
  (forall e2,
     millis_stamp e <= millis_check e2 ->
     dht11_reads (readTempAndHumid e w) = S (dht11_reads w) ->
     dht11_reads (readTempAndHumid e2 (readTempAndHumid e w)) = S (S (dht11_reads w)) ->
     millis_check e2 - millis_stamp e > 10000).
Proof.
  split; [apply readTempAndHumid_skip|]. split.
  - intros H. rewrite (readTempAndHumid_read e w H). repeat split.
  - intros e2 Hmono H1 H2.
    destruct (Z_le_gt_dec (elapsed e w) 10000) as [Hskip|Hread].
    { rewrite (readTempAndHumid_skip e w Hskip) in H1. lia. }
    destruct (Z_le_gt_dec (elapsed e2 (readTempAndHumid e w)) 10000) as [Hskip2|Hread2].
    { rewrite (readTempAndHumid_skip e2 _ Hskip2) in H2. lia. }
    rewrite (readTempAndHumid_read e w Hread) in Hread2.
    unfold elapsed in Hread2. cbn [self dht11_read with_self set_reading
      set_lastDHT11TimeRead lastDHT11TimeRead] in Hread2.
    rewrite elapsed_after_read in Hread2.
    destruct (Z_le_gt_dec (millis_check e2 - millis_stamp e) 10000) as [Hle|Hgt];
      [|exact Hgt].
    rewrite Z.mod_small in Hread2; [lia|].
    change (2 ^ 32) with 4294967296. lia.
Qed.

Lemma readTempAndHumid_rate_limit_witness :
  elapsed boundary_env fresh_world <= 10000 /\
  readTempAndHumid boundary_env fresh_world = fresh_world /\
  elapsed noon fresh_world > 10000 /\
  currentTemp (self (readTempAndHumid noon fresh_world)) = 25 /\
  currentHumid (self (readTempAndHumid noon fresh_world)) = 40 /\
  dht11_reads (readTempAndHumid noon fresh_world) = 1%nat /\
  lastDHT11TimeRead (self (readTempAndHumid noon fresh_world)) = 20000 /\
  millis_stamp noon <= millis_check later_env /\
  millis_check later_env - millis_stamp noon > 10000.
Proof.
  destruct (readTempAndHumid_rate_limit boundary_env fresh_world) as (Hskip & _ & _).
  destruct (readTempAndHumid_rate_limit noon fresh_world) as (_ & Hread & Hapart).
  assert (Hb : elapsed boundary_env fresh_world <= 10000) by (vm_compute; discriminate).
  assert (Hn : elapsed noon fresh_world > 10000) by reflexivity.
  assert (Hm : millis_stamp noon <= millis_check later_env) by (vm_compute; discriminate).
  split; [exact Hb|]. split; [exact (Hskip Hb)|]. split; [exact Hn|].
  destruct (Hread Hn) as (Ht & Hh & Hr & Hl).
  split; [exact Ht|]. split; [exact Hh|]. split; [exact Hr|]. split; [exact Hl|].
  split; [exact Hm|]. apply (Hapart later_env Hm); reflexivity.
Defined.

(** C3, as the specification states it, fails at the boundary: at an elapsed
    time of exactly 10000 ms (which is >= 10000) the call does not read the
    sensor and keeps the cached values, although the sensor holds others. *)
Lemma readTempAndHumid_no_read_at_10000 :
  elapsed boundary_env fresh_world = 10000 /\
  elapsed boundary_env fresh_world >= 10000 /\
  readTempAndHumid boundary_env fresh_world = fresh_world /\
  dht11_reads (readTempAndHumid boundary_env fresh_world) = dht11_reads fresh_world /\
  currentTemp (self (readTempAndHumid boundary_env fresh_world)) = 0 /\
  dht_temperature boundary_env = 25.
Proof.
  split; [reflexivity|]. split; [vm_compute; discriminate|].
  repeat split.
Qed.

(** ** Wiring established by [setSegments] and [getSegments] *)

Lemma getSegments_loop (n : nat) :
  forall (i : Z) (u : NanoLeafDisplay),
    0 <= i -> i + Z.of_nat n <= NUM_OF_SEGMENTS ->
    exists f,
      for_loop n i
        (fun i u => store_segments i (strip_getSegment (i + NUM_FIRST_LEDS)) u) u
      = Some (set_segments f u) /\
      forall j, f j = if bool_decide (i <= j < i + Z.of_nat n)
                      then Some (j + NUM_FIRST_LEDS) else segments u j.
Proof.
  induction n as [|n IH]; intros i u Hi Hn.
  - exists (segments u). split; [destruct u; reflexivity|].
    intros j. rewrite bool_decide_eq_false_2 by lia. reflexivity.
  - destruct (IH (i + 1) (set_segments (<[i := Some (strip_getSegment (i + NUM_FIRST_LEDS))]>
                                          (segments u)) u)) as (f & Hrun & Hf);
      [lia | lia |].
    exists f. split.
    { assert (Hst : store_segments i (strip_getSegment (i + NUM_FIRST_LEDS)) u
                    = Some (set_segments
                              (<[i := Some (strip_getSegment (i + NUM_FIRST_LEDS))]>
                                 (segments u)) u)).
      { unfold store_segments.
        rewrite bool_decide_eq_true_2 by (unfold NUM_OF_SEGMENTS in *; lia).
        reflexivity. }
      cbn [for_loop]. cbv beta. rewrite Hst.
      cbn [mbind option_bind]. rewrite Hrun. reflexivity. }
    intros j. rewrite Hf. cbn [segments set_segments]. unfold strip_getSegment.
    destruct (decide (i = j)) as [->|Hne].
    + rewrite fn_lookup_insert. rewrite bool_decide_eq_false_2 by lia.
      rewrite bool_decide_eq_true_2 by lia. reflexivity.
    + rewrite fn_lookup_insert_ne by exact Hne.
      case_bool_decide.
      * rewrite bool_decide_eq_true_2 by lia. reflexivity.
      * rewrite bool_decide_eq_false_2 by lia. reflexivity.
Qed.

Lemma getSegments_wired (u : NanoLeafDisplay) :
  exists f,
    getSegments NUM_OF_SEGMENTS u
    = Some (set_segments f (set_colorSources (Some 0) (Some 1) (Some 2) u)) /\
    wired (set_segments f (set_colorSources (Some 0) (Some 1) (Some 2) u)).
Proof.
  unfold getSegments.
  destruct (getSegments_loop (Z.to_nat NUM_OF_SEGMENTS) 0
              (set_colorSources (Some (strip_getSegment 0)) (Some (strip_getSegment 1))
                 (Some (strip_getSegment 2)) u)) as (f & Hrun & Hf);
    [lia | unfold NUM_OF_SEGMENTS; lia |].
  exists f. split; [exact Hrun|].
  split; [reflexivity|]. split; [reflexivity|]. split; [reflexivity|].
  intros i Hi. cbn [segments set_segments]. rewrite Hf.
  rewrite bool_decide_eq_true_2 by (unfold NUM_OF_SEGMENTS in *; lia). reflexivity.
Qed.

Lemma setSegments_loop (addr : Z) (n : nat) :
  forall (i a b : Z) (st : WS2812FX),
    let st' :=
      snd (iter_range n i
             (fun i '((segStart, segEnd), st) =>
                ((segStart + addr, segEnd + addr),
                 strip_setSegment (i + NUM_FIRST_LEDS) segStart segEnd st))
             ((a, b), st)) in
    strip_pixels st' = strip_pixels st /\
    forall j,
      strip_segments st' (j + NUM_FIRST_LEDS)
      = if bool_decide (i <= j < i + Z.of_nat n)
        then set_range (a + addr * (j - i)) (b + addr * (j - i))
               (strip_segments st (j + NUM_FIRST_LEDS))
        else strip_segments st (j + NUM_FIRST_LEDS).
Proof.
  induction n as [|n IH]; intros i a b st.
  - cbn [iter_range snd]. split; [reflexivity|]. intros j.
    rewrite bool_decide_eq_false_2 by lia. reflexivity.
  - cbn [iter_range]. cbv zeta.
    specialize (IH (i + 1) (a + addr) (b + addr)
                  (strip_setSegment (i + NUM_FIRST_LEDS) a b st)).
    cbv zeta in IH. destruct IH as [Hpix Hsegs].
    split; [rewrite Hpix; reflexivity|].
    intros j. rewrite Hsegs. unfold strip_setSegment.
    rewrite lookup_update_segment.
    destruct (decide (i + NUM_FIRST_LEDS = j + NUM_FIRST_LEDS)) as [Heq|Hne].
    + assert (j = i) as -> by lia.
      rewrite bool_decide_eq_false_2 by lia.
      rewrite bool_decide_eq_true_2 by lia.
      replace (a + addr * (i - i)) with a by lia.
      replace (b + addr * (i - i)) with b by lia. reflexivity.
    + case_bool_decide.
      * rewrite bool_decide_eq_true_2 by lia.
        replace (a + addr + addr * (j - (i + 1))) with (a + addr * (j - i)) by lia.
        replace (b + addr + addr * (j - (i + 1))) with (b + addr * (j - i)) by lia.
        reflexivity.
      * rewrite bool_decide_eq_false_2 by lia. reflexivity.
Qed.

Lemma setSegments_first (st : WS2812FX) (id : Z) :
  strip_segments
    (iter_range (Z.to_nat NUM_FIRST_LEDS) 0
       (fun i st => strip_setSegment i i (i + 1) st) st) id
  = if bool_decide (0 <= id < NUM_FIRST_LEDS)
    then set_range id (id + 1) (strip_segments st id)
    else strip_segments st id.
Proof.
  change (Z.to_nat NUM_FIRST_LEDS) with 3%nat. cbn [iter_range].
  unfold strip_setSegment, NUM_FIRST_LEDS. rewrite !lookup_update_segment.
  change (0 + 1) with 1. change (0 + 1 + 1) with 2. change (1 + 1) with 2.
  change (2 + 1) with 3.
  destruct (decide (2 = id)) as [<-|H2]; [reflexivity|].
  destruct (decide (1 = id)) as [<-|H1].
  { destruct (decide (2 = 1)); [lia | reflexivity]. }
  destruct (decide (0 = id)) as [<-|H0].
  { destruct (decide (2 = 0)); [lia|]. destruct (decide (1 = 0)); [lia | reflexivity]. }
  rewrite bool_decide_eq_false_2 by lia. reflexivity.
Qed.

Lemma setSegments_ranges (st : WS2812FX) :
  strip_pixels (setSegments ADDR_LEDS_PER_SEG NUM_OF_SEGMENTS st) = strip_pixels st /\
  (forall i, 0 <= i < NUM_FIRST_LEDS ->
     range (setSegments ADDR_LEDS_PER_SEG NUM_OF_SEGMENTS st) i = (i, i + 1)) /\
  (forall i, 0 <= i < NUM_OF_SEGMENTS ->
     range (setSegments ADDR_LEDS_PER_SEG NUM_OF_SEGMENTS st) (i + NUM_FIRST_LEDS)
     = (NUM_FIRST_LEDS + ADDR_LEDS_PER_SEG * i,
        NUM_FIRST_LEDS + ADDR_LEDS_PER_SEG * i + ADDR_LEDS_PER_SEG)).
Proof.
  unfold setSegments. cbv zeta.
  set (st1 := iter_range (Z.to_nat NUM_FIRST_LEDS) 0 _ st).
  destruct (setSegments_loop ADDR_LEDS_PER_SEG (Z.to_nat NUM_OF_SEGMENTS) 0
              NUM_FIRST_LEDS (ADDR_LEDS_PER_SEG + NUM_FIRST_LEDS) st1) as [Hpix Hsegs].
  split; [rewrite Hpix; reflexivity|]. split.
  - intros i Hi. unfold range.
    replace i with ((i - NUM_FIRST_LEDS) + NUM_FIRST_LEDS) at 1 2 by lia.
    rewrite Hsegs. rewrite bool_decide_eq_false_2 by (unfold NUM_FIRST_LEDS in *; lia).
    replace ((i - NUM_FIRST_LEDS) + NUM_FIRST_LEDS) with i by lia.
    unfold st1. rewrite setSegments_first.
    rewrite bool_decide_eq_true_2 by exact Hi. reflexivity.
  - intros i Hi. unfold range. rewrite Hsegs.
    rewrite bool_decide_eq_true_2 by (unfold NUM_OF_SEGMENTS in *; lia).
    cbn [start stop set_range]. f_equal; unfold NUM_FIRST_LEDS, ADDR_LEDS_PER_SEG; lia.
Qed.

Lemma wireSegmented_spec (w : World) :
  exists w',
    wireSegmented w = Some w' /\
    wired (self w') /\
    strip w' = setSegments ADDR_LEDS_PER_SEG NUM_OF_SEGMENTS (strip w) /\
    dht11_reads w' = dht11_reads w /\
    self w' = set_segments (segments (self w'))
                (set_colorSources (Some 0) (Some 1) (Some 2) (self w)).
Proof.
  unfold wireSegmented. cbv zeta. cbn [self with_strip].
  destruct (getSegments_wired (self w)) as (f & Hrun & Hw).
  rewrite Hrun. cbn [mbind option_bind].
  eexists. split; [reflexivity|]. cbn [self strip dht11_reads with_self with_strip].
  split; [exact Hw|]. repeat split.
Qed.

(** [setup] on a freshly constructed display (two-tone mode by default)
    establishes the wiring the statements about rendering assume. *)
Lemma setup_wires (e : Env) :
  exists w',
    setup e fresh_world = Some w' /\
    wired (self w') /\
    strip w' = strip wired_world /\
    dht11_reads w' = 1%nat.
Proof.
  unfold setup. cbn [inTwoToneMode self fresh_world fresh_display orb].
  destruct (wireSegmented_spec fresh_world) as (w1 & Hrun & Hw & Hstrip & Hreads & _).
  change (wireSegmented (mkWorld fresh_display fresh_strip 0))
    with (wireSegmented fresh_world).
  rewrite Hrun. cbn [mbind option_bind].
  eexists. split; [reflexivity|].
  unfold initDHT11Sensor, dht11_read. cbn [self strip dht11_reads].
  split; [exact Hw|]. split; [exact Hstrip|]. rewrite Hreads. reflexivity.
Qed.

(** ** Re-wiring on a configuration update *)

Lemma readFromConfig_unfold (resetSegments : WS2812FX -> WS2812FX)
    (top : option JsonConfig) (w : World) :
  readFromConfig resetSegments top w
  = (w' ← (if entersSeries top (self w)
           then Some (wireFlat resetSegments (with_self (apply_config top) w))
           else if entersTwoTone top (self w) || entersTempHumid top (self w)
                then wireSegmented (with_self (apply_config top) w)
                else Some (with_self (apply_config top) w));
     Some (config_complete top (self w), with_self remember_modes w')).
Proof.
  change (with_self (apply_config top) w)
    with (with_self (fun _ => apply_config top (self w)) w).
  unfold readFromConfig, entersSeries, entersTwoTone, entersTempHumid, apply_config,
    config_complete.
  destruct (getJsonValue (field top cfg_TwoTone) (inTwoToneMode (self w))) as [c1 v1].
  destruct (getJsonValue (field top cfg_InSeries) (inSeriesMode (self w))) as [c2 v2].
  destruct (getJsonValue (field top cfg_SecsMins) (inSecsMinsMode (self w))) as [c3 v3].
  destruct (getJsonValue (field top cfg_Manual) (inManualMode (self w))) as [c4 v4].
  destruct (getJsonValue (field top cfg_Digit1) (digit0Value (self w))) as [c5 v5].
  destruct (getJsonValue (field top cfg_Digit2) (digit1Value (self w))) as [c6 v6].
  destruct (getJsonValue (field top cfg_Digit3) (digit2Value (self w))) as [c7 v7].
  destruct (getJsonValue (field top cfg_Digit4) (digit3Value (self w))) as [c8 v8].
  destruct (getJsonValue (field top cfg_TempHumid) (inTempHumidMode (self w))) as [c9 v9].
  reflexivity.
Qed.

Lemma wireFlat_spec (resetSegments : WS2812FX -> WS2812FX) (w : World) :
  self (wireFlat resetSegments w) = self w /\
  dht11_reads (wireFlat resetSegments w) = dht11_reads w /\
  strip (wireFlat resetSegments w)
  = strip_setSegment 0 3 87 (resetSegments (strip w)) /\
  range (strip (wireFlat resetSegments w)) 0 = (3, 87) /\
  forall id, id <> 0 ->
    strip_segments (strip (wireFlat resetSegments w)) id
    = strip_segments (resetSegments (strip w)) id.
Proof.
  split; [reflexivity|]. split; [reflexivity|]. split; [reflexivity|].
  split; [reflexivity|].
  intros id Hid. unfold wireFlat. cbv zeta. cbn [strip with_strip].
  unfold strip_setSegment. rewrite lookup_update_segment.
  destruct (decide (0 = id)); [congruence | reflexivity].
Qed.

Lemma readFromConfig_enters_series (resetSegments : WS2812FX -> WS2812FX)
    (top : option JsonConfig) (w : World) :
  entersSeries top (self w) = true ->
  readFromConfig resetSegments top w
  = Some (config_complete top (self w),
          with_self remember_modes
            (wireFlat resetSegments (with_self (apply_config top) w))).
Proof. intros H. rewrite readFromConfig_unfold, H. reflexivity. Qed.

Lemma readFromConfig_enters_segmented (resetSegments : WS2812FX -> WS2812FX)
    (top : option JsonConfig) (w : World) :
  entersSeries top (self w) = false ->
  entersTwoTone top (self w) || entersTempHumid top (self w) = true ->
  exists w1,
    wireSegmented (with_self (apply_config top) w) = Some w1 /\
    readFromConfig resetSegments top w
    = Some (config_complete top (self w), with_self remember_modes w1) /\
    wired (self w1) /\
    strip w1 = setSegments ADDR_LEDS_PER_SEG NUM_OF_SEGMENTS (strip w).
Proof.
  intros Hs Ht. rewrite readFromConfig_unfold, Hs, Ht.
  destruct (wireSegmented_spec (with_self (apply_config top) w))
    as (w1 & Hrun & Hw & Hstrip & _).
  exists w1. rewrite Hrun. repeat split; try assumption; apply Hw.
Qed.

(** C4, as the code has it: on entry into Series mode [readFromConfig]
    resets the host's ranges and then defines the single range 0 from LED 3
    to LED 87, the 28 * 3 = 84 LEDs behind the three colour LEDs; every other
    range is as the reset left it and the segment pointers are not touched.
    The three one-LED colour ranges are not allocated: range 0 is the flat
    range itself. *)
Theorem readFromConfig_flat_wiring (resetSegments : WS2812FX -> WS2812FX)
    (top : option JsonConfig) (w : World) :
  entersSeries top (self w) = true ->
  exists c w',
    readFromConfig resetSegments top w = Some (c, w') /\
    strip w' = strip_setSegment 0 NUM_FIRST_LEDS
                 (NUM_FIRST_LEDS + NUM_OF_SEGMENTS * ADDR_LEDS_PER_SEG)
                 (resetSegments (strip w)) /\
    range (strip w') 0 = (3, 87) /\
    87 - 3 = NUM_OF_SEGMENTS * ADDR_LEDS_PER_SEG /\
    range (strip w') 0 <> (0, 1) /\
    (forall id, id <> 0 ->
       strip_segments (strip w') id = strip_segments (resetSegments (strip w)) id) /\
    segments (self w') = segments (self w) /\
    firstSeg (self w') = firstSeg (self w) /\
    secondSeg (self w') = secondSeg (self w) /\
    thirdSeg (self w') = thirdSeg (self w).
Proof.
  intros H. eexists _, _. split; [apply readFromConfig_enters_series; exact H|].
  cbn [strip with_self self].
  destruct (wireFlat_spec resetSegments (with_self (apply_config top) w))
    as (Hself & _ & Hstrip & Hrange & Hother).
  split; [exact Hstrip|]. split; [exact Hrange|]. split; [reflexivity|].
  split; [rewrite Hrange; discriminate|]. split; [exact Hother|].
  rewrite Hself. repeat split.
Qed.

Lemma readFromConfig_flat_wiring_witness :
  entersSeries (Some series_config) (self wired_world) = true /\
  exists c w',
    readFromConfig resetSegments_clear (Some series_config) wired_world = Some (c, w') /\
    strip w' = strip_setSegment 0 NUM_FIRST_LEDS
                 (NUM_FIRST_LEDS + NUM_OF_SEGMENTS * ADDR_LEDS_PER_SEG)
                 (resetSegments_clear (strip wired_world)) /\
    range (strip w') 0 = (3, 87) /\
    87 - 3 = NUM_OF_SEGMENTS * ADDR_LEDS_PER_SEG /\
    range (strip w') 0 <> (0, 1) /\
    (forall id, id <> 0 ->
       strip_segments (strip w') id
       = strip_segments (resetSegments_clear (strip wired_world)) id) /\
    segments (self w') = segments (self wired_world) /\
    firstSeg (self w') = firstSeg (self wired_world) /\
    secondSeg (self w') = secondSeg (self wired_world) /\
    thirdSeg (self w') = thirdSeg (self wired_world).
Proof.
  split; [reflexivity|].
  apply (readFromConfig_flat_wiring resetSegments_clear (Some series_config) wired_world).
  reflexivity.
Defined.

(** C4, as the specification states it, fails: after the entry into Series
    mode range 0 is the flat range 3..87, and none of the one-LED ranges
    0..1, 1..2, 2..3 of the colour sources has been allocated. *)
Lemma flat_wiring_allocates_no_colour_ranges :
  entersSeries (Some series_config) (self wired_world) = true /\
  (fun r => (range (strip (snd r)) 0, range (strip (snd r)) 1, range (strip (snd r)) 2))
    <$> readFromConfig resetSegments_clear (Some series_config) wired_world
  = Some ((3, 87), (0, 0), (0, 0)).
Proof. split; vm_compute; reflexivity. Qed.

(** The branches of [readFromConfig]: an update that switches Series mode on
    performs the flat wiring and nothing else; an update that does not switch
    Series on but switches two-tone or temperature/humidity on performs the
    segmented wiring, [setSegments] followed by [getSegments]. *)
Lemma readFromConfig_rewiring (resetSegments : WS2812FX -> WS2812FX)
    (top : option JsonConfig) (w : World) :
  (entersSeries top (self w) = true ->
   exists c w',
     readFromConfig resetSegments top w = Some (c, w') /\
     strip w' = strip (wireFlat resetSegments (with_self (apply_config top) w)) /\
     range (strip w') 0 = (3, 87) /\
     segments (self w') = segments (self w) /\
     firstSeg (self w') = firstSeg (self w) /\
     secondSeg (self w') = secondSeg (self w) /\
     thirdSeg (self w') = thirdSeg (self w)) /\
  (entersSeries top (self w) = false ->
   entersTwoTone top (self w) || entersTempHumid top (self w) = true ->
   exists c w' w1,
     readFromConfig resetSegments top w = Some (c, w') /\
     wireSegmented (with_self (apply_config top) w) = Some w1 /\
     w' = with_self remember_modes w1 /\
     wired (self w') /\
     strip w' = setSegments ADDR_LEDS_PER_SEG NUM_OF_SEGMENTS (strip w) /\
     (forall i, 0 <= i < 3 -> range (strip w') i = (i, i + 1)) /\
     (forall i, 0 <= i < 28 -> range (strip w') (i + 3) = (3 + 3 * i, 6 + 3 * i))).
Proof.
  split.
  - intros H. eexists _, _.
    split; [apply readFromConfig_enters_series; exact H|].
    cbn [strip with_self self].
    destruct (wireFlat_spec resetSegments (with_self (apply_config top) w))
      as (Hself & _ & _ & Hrange & _).
    split; [reflexivity|]. split; [exact Hrange|].
    rewrite Hself. repeat split.
  - intros Hs Ht.
    destruct (readFromConfig_enters_segmented resetSegments top w Hs Ht)
      as (w1 & Hwire & Hrun & Hw & Hstrip).
    exists (config_complete top (self w)), (with_self remember_modes w1), w1.
    split; [exact Hrun|]. split; [exact Hwire|]. split; [reflexivity|].
    split; [exact Hw|].
    cbn [strip with_self]. split; [exact Hstrip|].
    destruct (setSegments_ranges (strip w)) as (_ & Hfirst & Hsegs).
    rewrite Hstrip. split.
    + intros i Hi. apply Hfirst. exact Hi.
    + intros i Hi. change (i + 3) with (i + NUM_FIRST_LEDS).
      rewrite (Hsegs i Hi).
      unfold NUM_FIRST_LEDS, ADDR_LEDS_PER_SEG. f_equal; lia.
Qed.

Lemma readFromConfig_rewiring_witness :
  entersSeries (Some series_twoTone_config) (self idle_world) = true /\
  (exists c w',
     readFromConfig resetSegments_clear (Some series_twoTone_config) idle_world
     = Some (c, w') /\
     range (strip w') 0 = (3, 87)) /\
  entersSeries (Some twoTone_config) (self idle_world) = false /\
  entersTwoTone (Some twoTone_config) (self idle_world)
  || entersTempHumid (Some twoTone_config) (self idle_world) = true /\
  (exists c w',
     readFromConfig resetSegments_clear (Some twoTone_config) idle_world = Some (c, w') /\
     wired (self w') /\
     range (strip w') 0 = (0, 1) /\ range (strip w') 3 = (3, 6)).
Proof.
  destruct (readFromConfig_rewiring resetSegments_clear (Some series_twoTone_config)
              idle_world) as [Hflat _].
  destruct (readFromConfig_rewiring resetSegments_clear (Some twoTone_config)
              idle_world) as [_ Hseg].
  destruct (Hflat eq_refl) as (c & w' & Hrun & _ & Hrange & _).
  destruct (Hseg eq_refl eq_refl) as (c2 & w2 & w1 & Hrun2 & _ & _ & Hw & _ & Hfirst & Hsegs).
  split; [reflexivity|]. split; [exists c, w'; split; assumption|].
  split; [reflexivity|]. split; [reflexivity|].
  exists c2, w2. split; [exact Hrun2|]. split; [exact Hw|].
  split; [apply (Hfirst 0); lia | apply (Hsegs 0); lia].
Defined.

(** On a wired display an update that switches two-tone mode on together
    with Series mode performs the flat wiring only; ranges 0 and 3 are 3..87
    and empty, where the segmented wiring gives 0..1 and 3..6. *)
Lemma twoTone_enabled_with_series_not_segmented :
  entersTwoTone (Some series_twoTone_config) (self idle_world) = true /\
  (fun r => (inTwoToneMode (self (snd r)), range (strip (snd r)) 0,
             range (strip (snd r)) 3))
    <$> readFromConfig resetSegments_clear (Some series_twoTone_config) idle_world
  = Some (true, (3, 87), (0, 0)) /\
  (fun w => (range (strip w) 0, range (strip w) 3))
    <$> wireSegmented (with_self (apply_config (Some series_twoTone_config)) idle_world)
  = Some ((0, 1), (3, 6)).
Proof. repeat split; vm_compute; reflexivity. Qed.

(** C5 fails on the code: the segmented re-wiring sits in the [else if] of
    the Series test.  On a display that booted with every mode off, and so
    was never wired, an update that switches the two-tone flag on together
    with the Series flag performs the flat wiring only: no segment pointer is
    assigned, although the two-tone flag went from off to on; the next
    [loop] runs the two-tone render, which has precedence, and dereferences
    the unassigned [segments[0]].  The same update with the two-tone flag
    alone wires the display and [loop] is defined. *)
Theorem twoTone_with_series_leaves_display_unwired :
  (fun w => (inTwoToneMode (self w), inTempHumidMode (self w), inSeriesMode (self w),
             lastTwoToneMode (self w), segments (self w) 0, secondSeg (self w)))
    <$> ((snd <$> readFromConfig resetSegments_clear (Some all_off_config) fresh_world)
           ≫= setup noon)
  = Some (false, false, false, false, None, None) /\
  lastTwoToneMode (self off_world) = false /\
  segments (self off_world) 0 = None /\
  entersTwoTone (Some series_twoTone_config) (self off_world) = true /\
  entersSeries (Some series_twoTone_config) (self off_world) = true /\
  (fun r => (inTwoToneMode (self (snd r)), segments (self (snd r)) 0,
             secondSeg (self (snd r)), range (strip (snd r)) 0, range (strip (snd r)) 3))
    <$> readFromConfig resetSegments_clear (Some series_twoTone_config) off_world
  = Some (true, None, None, (3, 87), (0, 0)) /\
  run resetSegments_clear
    [CallReadFromConfig (Some series_twoTone_config); CallLoop noon] off_world
  = None /\
  (fun r => (inTwoToneMode (self (snd r)), segments (self (snd r)) 0,
             secondSeg (self (snd r)), range (strip (snd r)) 0, range (strip (snd r)) 3))
    <$> readFromConfig resetSegments_clear (Some twoTone_config) off_world
  = Some (true, Some 3, Some 1, (0, 1), (3, 6)) /\
  dht11_reads
    <$> run resetSegments_clear
          [CallReadFromConfig (Some twoTone_config); CallLoop noon] off_world
  = Some 0%nat.
Proof. repeat split; vm_compute; reflexivity. Qed.

(** ** Digit values reaching the glyph table *)

(** The two decimal digits of a value 0..99 recompose it and are in 0..9. *)
Lemma two_digits (x : Z) :
  0 <= x <= 99 ->
  Z.quot x 10 * 10 + Z.rem x 10 = x /\
  0 <= Z.quot x 10 <= 9 /\ 0 <= Z.rem x 10 <= 9.
Proof.
  intros Hx. rewrite Z.quot_div_nonneg, Z.rem_mod_nonneg by lia.
  Z.div_mod_to_equations. lia.
Qed.

(** C8 fails on the code: no render path clamps or rejects a digit value.
    In temperature/humidity mode a reading of -3 degrees gives the units
    digit [-3 % 10 = -3], and [setDigit(1, -3)] reads [DIGITS[-3][0]],
    outside the table; in manual mode a configured digit value of 12 makes
    [setDigit] read [DIGITS[12][0]]. *)
Theorem digit_value_reaches_table_unchecked :
  inTwoToneMode (self sensor_world) = false /\
  inTempHumidMode (self sensor_world) = true /\
  wired (self sensor_world) /\
  Z.quot (dht_temperature frost_env) 10 = 0 /\
  Z.rem (dht_temperature frost_env) 10 = -3 /\
  DIGITS_at (-3) 0 = None /\
  setDigit 1 (-3) sensor_world = None /\
  loop frost_env sensor_world = None /\
  inManualMode (self manual_world) = true /\
  digit1Value (self manual_world) = 12 /\
  DIGITS_at 12 0 = None /\
  loop noon manual_world = None.
Proof.
  split; [reflexivity|]. split; [reflexivity|].
  split.
  { split; [reflexivity|]. split; [reflexivity|]. split; [reflexivity|].
    intros i Hi. cbn. rewrite bool_decide_eq_true_2 by exact Hi. reflexivity. }
  repeat split; vm_compute; reflexivity.
Qed.

(** * Further properties of the usermod *)

(** ** The layout [setSegments] produces *)

(** X1: [setSegments(addrLedsPerSeg, numOfSegments)] changes nothing but LED
    ranges: range [id] becomes [id .. id+1] for the three colour LEDs, range
    [3 + i] becomes the [addrLedsPerSeg] LEDs from [3 + addrLedsPerSeg * i] for
    [i] below [numOfSegments], every other range and the pixel buffer stay as
    they are; the display ranges follow each other without gap or overlap,
    the first one behind the colour LEDs. *)
Theorem setSegments_layout (addrLedsPerSeg numOfSegments : Z) (st : WS2812FX) :
  strip_pixels (setSegments addrLedsPerSeg numOfSegments st) = strip_pixels st /\
  (forall id,
     strip_segments (setSegments addrLedsPerSeg numOfSegments st) id
     = if bool_decide (0 <= id < 3)
       then set_range id (id + 1) (strip_segments st id)
       else if bool_decide (3 <= id < 3 + numOfSegments)
            then set_range (3 + addrLedsPerSeg * (id - 3))
                   (3 + addrLedsPerSeg * (id - 3) + addrLedsPerSeg)
                   (strip_segments st id)
            else strip_segments st id) /\
  (0 < numOfSegments ->
   fst (range (setSegments addrLedsPerSeg numOfSegments st) 3)
   = snd (range (setSegments addrLedsPerSeg numOfSegments st) 2)) /\
  (forall i, 0 <= i -> i + 1 < numOfSegments ->
     snd (range (setSegments addrLedsPerSeg numOfSegments st) (3 + i))
     = fst (range (setSegments addrLedsPerSeg numOfSegments st) (3 + i + 1))).
Proof.
  assert (Hsegs : forall id,
     strip_segments (setSegments addrLedsPerSeg numOfSegments st) id
     = if bool_decide (0 <= id < 3)
       then set_range id (id + 1) (strip_segments st id)
       else if bool_decide (3 <= id < 3 + numOfSegments)
            then set_range (3 + addrLedsPerSeg * (id - 3))
                   (3 + addrLedsPerSeg * (id - 3) + addrLedsPerSeg)
                   (strip_segments st id)
            else strip_segments st id).
  { intros id. unfold setSegments. cbv zeta.
    set (st1 := iter_range (Z.to_nat NUM_FIRST_LEDS) 0 _ st).
    destruct (setSegments_loop addrLedsPerSeg (Z.to_nat numOfSegments) 0
                NUM_FIRST_LEDS (addrLedsPerSeg + NUM_FIRST_LEDS) st1) as [_ Hloop].
    replace id with ((id - NUM_FIRST_LEDS) + NUM_FIRST_LEDS) at 1 by lia.
    rewrite Hloop.
    replace ((id - NUM_FIRST_LEDS) + NUM_FIRST_LEDS) with id by lia.
    unfold st1. rewrite setSegments_first. unfold NUM_FIRST_LEDS.
    destruct (decide (0 <= id < 3)) as [Hid|Hid].
    - rewrite (bool_decide_eq_true_2 _ Hid).
      rewrite bool_decide_eq_false_2 by lia. reflexivity.
    - rewrite (bool_decide_eq_false_2 _ Hid).
      destruct (decide (3 <= id < 3 + numOfSegments)) as [Hin|Hout].
      + rewrite (bool_decide_eq_true_2 _ Hin).
        rewrite bool_decide_eq_true_2 by lia.
        f_equal; lia.
      + rewrite (bool_decide_eq_false_2 _ Hout).
        rewrite bool_decide_eq_false_2 by lia. reflexivity. }
  split.
  { unfold setSegments. cbv zeta.
    set (st1 := iter_range (Z.to_nat NUM_FIRST_LEDS) 0 _ st).
    destruct (setSegments_loop addrLedsPerSeg (Z.to_nat numOfSegments) 0
                NUM_FIRST_LEDS (addrLedsPerSeg + NUM_FIRST_LEDS) st1) as [Hpix _].
    rewrite Hpix. reflexivity. }
  split; [exact Hsegs|]. split.
  - intros Hn. unfold range. rewrite !Hsegs.
    rewrite (bool_decide_eq_false_2 (0 <= 3 < 3)) by lia.
    rewrite (bool_decide_eq_true_2 (3 <= 3 < 3 + numOfSegments)) by lia.
    rewrite (bool_decide_eq_true_2 (0 <= 2 < 3)) by lia.
    cbn [fst snd start stop set_range]. lia.
  - intros i Hi Hn. unfold range. rewrite !Hsegs.
    rewrite (bool_decide_eq_false_2 (0 <= 3 + i < 3)) by lia.
    rewrite (bool_decide_eq_true_2 (3 <= 3 + i < 3 + numOfSegments)) by lia.
    rewrite (bool_decide_eq_false_2 (0 <= 3 + i + 1 < 3)) by lia.
    rewrite (bool_decide_eq_true_2 (3 <= 3 + i + 1 < 3 + numOfSegments)) by lia.
    cbn [fst snd start stop set_range]. lia.
Qed.

Lemma setSegments_layout_witness :
  0 < 28 /\
  fst (range (setSegments 3 28 fresh_strip) 3)
  = snd (range (setSegments 3 28 fresh_strip) 2) /\
  0 <= 26 /\ 26 + 1 < 28 /\
  snd (range (setSegments 3 28 fresh_strip) (3 + 26))
  = fst (range (setSegments 3 28 fresh_strip) (3 + 26 + 1)).
Proof.
  destruct (setSegments_layout 3 28 fresh_strip) as (_ & _ & Hfirst & Hnext).
  split; [lia|]. split; [apply Hfirst; lia|].
  split; [lia|]. split; [lia|]. apply Hnext; lia.
Defined.

(** ** [getSegments] and the bound of the pointer array *)

Lemma getSegments_overrun (n : nat) :
  forall (i : Z) (u : NanoLeafDisplay),
    0 <= i <= NUM_OF_SEGMENTS -> NUM_OF_SEGMENTS < i + Z.of_nat n ->
    for_loop n i
      (fun i u => store_segments i (strip_getSegment (i + NUM_FIRST_LEDS)) u) u
    = None.
Proof.
  induction n as [|n IH]; intros i u Hi Hn; [lia|].
  cbn [for_loop]. cbv beta.
  destruct (decide (i = NUM_OF_SEGMENTS)) as [->|Hne].
  - assert (Hst : store_segments NUM_OF_SEGMENTS
                    (strip_getSegment (NUM_OF_SEGMENTS + NUM_FIRST_LEDS)) u = None).
    { unfold store_segments. rewrite bool_decide_eq_false_2 by lia. reflexivity. }
    rewrite Hst. reflexivity.
  - assert (Hst : store_segments i (strip_getSegment (i + NUM_FIRST_LEDS)) u
                  = Some (set_segments
                            (<[i := Some (strip_getSegment (i + NUM_FIRST_LEDS))]>
                               (segments u)) u)).
    { unfold store_segments. rewrite bool_decide_eq_true_2 by lia. reflexivity. }
    rewrite Hst. cbn [mbind option_bind]. apply IH; lia.
Qed.

(** X2: [getSegments(numOfSegments)] is defined exactly when [numOfSegments]
    does not exceed the 28 entries of the pointer array; it then points the
    three colour sources at the ranges 0, 1, 2 and entry [i] at range [i + 3]
    for every [i] below [numOfSegments], and leaves the other entries and
    every other member alone.  With more than 28 it stores behind the array. *)
Theorem getSegments_bound (numOfSegments : Z) (u : NanoLeafDisplay) :
  (numOfSegments <= NUM_OF_SEGMENTS ->
   exists f,
     getSegments numOfSegments u
     = Some (set_segments f (set_colorSources (Some 0) (Some 1) (Some 2) u)) /\
     forall j, f j = if bool_decide (0 <= j < numOfSegments)
                     then Some (j + NUM_FIRST_LEDS) else segments u j) /\
  (NUM_OF_SEGMENTS < numOfSegments -> getSegments numOfSegments u = None).
Proof.
  split.
  - intros Hn. unfold getSegments.
    destruct (getSegments_loop (Z.to_nat numOfSegments) 0
                (set_colorSources (Some (strip_getSegment 0)) (Some (strip_getSegment 1))
                   (Some (strip_getSegment 2)) u)) as (f & Hrun & Hf);
      [lia | unfold NUM_OF_SEGMENTS in *; lia |].
    exists f. split; [exact Hrun|].
    intros j. rewrite Hf. cbn [segments set_colorSources].
    destruct (decide (0 <= j < numOfSegments)) as [Hj|Hj].
    + rewrite (bool_decide_eq_true_2 _ Hj). rewrite bool_decide_eq_true_2 by lia.
      reflexivity.
    + rewrite (bool_decide_eq_false_2 _ Hj). rewrite bool_decide_eq_false_2 by lia.
      reflexivity.
  - intros Hn. unfold getSegments. apply getSegments_overrun.
    + unfold NUM_OF_SEGMENTS. lia.
    + unfold NUM_OF_SEGMENTS in *. lia.
Qed.

Lemma getSegments_bound_witness :
  28 <= NUM_OF_SEGMENTS /\
  (exists f,
     getSegments 28 fresh_display
     = Some (set_segments f (set_colorSources (Some 0) (Some 1) (Some 2) fresh_display)) /\
     forall j, f j = if bool_decide (0 <= j < 28)
                     then Some (j + NUM_FIRST_LEDS) else segments fresh_display j) /\
  NUM_OF_SEGMENTS < 29 /\
  getSegments 29 fresh_display = None.
Proof.
  destruct (getSegments_bound 28 fresh_display) as [Hok _].
  destruct (getSegments_bound 29 fresh_display) as [_ Hbad].
  assert (H28 : 28 <= NUM_OF_SEGMENTS) by (unfold NUM_OF_SEGMENTS; lia).
  assert (H29 : NUM_OF_SEGMENTS < 29) by (unfold NUM_OF_SEGMENTS; lia).
  split; [exact H28|]. split; [exact (Hok H28)|]. split; [exact H29 | exact (Hbad H29)].
Defined.

(** ** The two wirings address the same LEDs *)

(** X3: the LEDs [turnOffSegPixels] blacks out for display segment [s] in the
    flat wiring are exactly the LEDs of the range that [setSegments] gives
    segment [s] in the segmented wiring; they lie inside the flat range 3..87
    of [readFromConfig], so the three colour LEDs 0..2 are never blacked out;
    no other pixel and no host range is written. *)
Theorem turnOffSegPixels_same_leds (s : Z) (st flat : WS2812FX) :
  0 <= s < NUM_OF_SEGMENTS ->
  strip_segments (turnOffSegPixels s flat) = strip_segments flat /\
  forall p,
    let led_range := range (setSegments ADDR_LEDS_PER_SEG NUM_OF_SEGMENTS st)
                       (s + NUM_FIRST_LEDS) in
    strip_pixels (turnOffSegPixels s flat) p
    = (if bool_decide (fst led_range <= p < snd led_range) then 0 else strip_pixels flat p) /\
    (fst led_range <= p < snd led_range -> 3 <= p < 87).
Proof.
  intros Hs. split; [reflexivity|]. intros p led_range.
  destruct (setSegments_ranges st) as (_ & _ & Hr).
  unfold led_range. rewrite (Hr s Hs). cbn [fst snd].
  rewrite turnOffSegPixels_pixels. unfold segment_pixel.
  unfold NUM_OF_SEGMENTS, NUM_FIRST_LEDS, ADDR_LEDS_PER_SEG in *. split.
  - destruct (decide (3 + s * 3 <= p < 3 + s * 3 + 3)) as [Hin|Hout].
    + rewrite (bool_decide_eq_true_2 _ Hin). rewrite bool_decide_eq_true_2 by lia.
      reflexivity.
    + rewrite (bool_decide_eq_false_2 _ Hout). rewrite bool_decide_eq_false_2 by lia.
      reflexivity.
  - lia.
Qed.

Lemma turnOffSegPixels_same_leds_witness :
  0 <= 27 < NUM_OF_SEGMENTS /\
  strip_segments (turnOffSegPixels 27 fresh_strip) = strip_segments fresh_strip /\
  forall p,
    let led_range := range (setSegments ADDR_LEDS_PER_SEG NUM_OF_SEGMENTS fresh_strip)
                       (27 + NUM_FIRST_LEDS) in
    strip_pixels (turnOffSegPixels 27 fresh_strip) p
    = (if bool_decide (fst led_range <= p < snd led_range) then 0
       else strip_pixels fresh_strip p) /\
    (fst led_range <= p < snd led_range -> 3 <= p < 87).
Proof.
  assert (H : 0 <= 27 < NUM_OF_SEGMENTS) by (unfold NUM_OF_SEGMENTS; lia).
  split; [exact H | exact (turnOffSegPixels_same_leds 27 fresh_strip fresh_strip H)].
Defined.

(** ** When [setDigit] is defined *)

Lemma DIGITS_at_out_of_range (v i : Z) : ~ (0 <= v <= 9) -> DIGITS_at v i = None.
Proof.
  intros Hv. unfold DIGITS_at, index.
  destruct (decide (0 <= v)) as [Hpos|Hneg].
  - rewrite (bool_decide_eq_true_2 _ Hpos).
    rewrite (proj2 (lookup_ge_None DIGITS (Z.to_nat v))); [reflexivity|].
    change (length DIGITS) with 10%nat. lia.
  - rewrite (bool_decide_eq_false_2 _ Hneg). reflexivity.
Qed.

Lemma setDigit_out_of_range (d v : Z) (w : World) :
  ~ (0 <= v <= 9) -> setDigit d v w = None.
Proof.
  intros Hv. unfold setDigit. change (Z.to_nat NUM_DIGITS) with (S 9).
  cbn [setDigit_loop]. rewrite (DIGITS_at_out_of_range v 0 Hv). reflexivity.
Qed.

Lemma turn_off_all_self (digitIndex : Z) (offs : list Z) :
  forall w w', turn_off_all digitIndex offs w = Some w' ->
               self w' = self w /\ dht11_reads w' = dht11_reads w.
Proof.
  induction offs as [|o os IH]; intros w w' H; cbn [turn_off_all] in H.
  - injection H as <-. split; reflexivity.
  - destruct (setDigit_body digitIndex o w) as [w1|] eqn:Hb;
      cbn [mbind option_bind] in H; [|discriminate].
    destruct (IH _ _ H) as [Hs Hr]. rewrite Hs, Hr.
    unfold setDigit_body in Hb.
    destruct (inTwoToneMode (self w) || inTempHumidMode (self w)).
    + destruct (deref_segments w (digitIndex + o)); cbn [mbind option_bind] in Hb;
        [|discriminate].
      injection Hb as <-. split; reflexivity.
    + destruct (inSeriesMode (self w)); injection Hb as <-; split; reflexivity.
Qed.

Lemma setDigit_self (d v : Z) (w w' : World) :
  setDigit d v w = Some w' -> self w' = self w /\ dht11_reads w' = dht11_reads w.
Proof.
  rewrite setDigit_scan. intros H.
  destruct (segmentsToBlank v) as [offs|]; cbn [mbind option_bind] in H; [|discriminate].
  exact (turn_off_all_self _ _ _ _ H).
Qed.

Lemma setDigit_ok (d v : Z) (w : World) :
  0 <= d <= 3 -> 0 <= v <= 9 -> wired (self w) ->
  exists w', setDigit d v w = Some w'.
Proof.
  intros Hd Hv Hw. rewrite setDigit_scan.
  destruct (scan_documented v Hv) as (-> & Hrange). cbn [mbind option_bind].
  destruct (inTwoToneMode (self w) || inTempHumidMode (self w)) eqn:Hmode.
  - destruct (turn_off_all_segmented (digitIndex_of d) (documented_blank_set v) w Hw Hmode)
      as (w' & Hrun & _).
    + eapply Forall_impl; [|exact Hrange]. cbv beta. intros o Ho.
      unfold digitIndex_of, NUM_OF_SEGMENTS, SEGS_PER_DIGIT. lia.
    + exists w'. exact Hrun.
  - destruct (inSeriesMode (self w)) eqn:Hser.
    + destruct (turn_off_all_series (digitIndex_of d) (documented_blank_set v) w Hmode Hser)
        as (w' & Hrun & _).
      exists w'. exact Hrun.
    + exists w. apply turn_off_all_no_mode; assumption.
Qed.

(** X4: on a display whose segment pointers are assigned, [setDigit] for a
    digit position 0..3 is defined exactly for the values 0..9, in every
    combination of the mode flags, and then changes no member of the usermod;
    any other value makes it read outside the glyph table. *)
Theorem setDigit_defined_iff (d v : Z) (w : World) :
  0 <= d <= 3 -> wired (self w) ->
  (is_Some (setDigit d v w) <-> 0 <= v <= 9) /\
  (forall w', setDigit d v w = Some w' -> self w' = self w).
Proof.
  intros Hd Hw. split; [split|].
  - intros [w' H]. destruct (decide (0 <= v <= 9)) as [Hv|Hv]; [exact Hv|].
    rewrite (setDigit_out_of_range d v w Hv) in H. discriminate.
  - intros Hv. destruct (setDigit_ok d v w Hd Hv Hw) as [w' H]. exists w'. exact H.
  - intros w' H. exact (proj1 (setDigit_self d v w w' H)).
Qed.

Lemma setDigit_defined_iff_witness :
  0 <= 2 <= 3 /\ wired (self wired_world) /\
  (is_Some (setDigit 2 10 wired_world) <-> 0 <= 10 <= 9) /\
  (is_Some (setDigit 2 9 wired_world) <-> 0 <= 9 <= 9).
Proof.
  split; [lia|]. split; [exact wired_world_wired|].
  split.
  - apply (setDigit_defined_iff 2 10 wired_world); [lia | exact wired_world_wired].
  - apply (setDigit_defined_iff 2 9 wired_world); [lia | exact wired_world_wired].
Defined.

(** ** A whole frame *)

Lemma documented_in_range (v x : Z) :
  0 <= v <= 9 -> x ∈ documented_blank_set v -> 0 <= x <= 6.
Proof.
  intros Hv Hx. destruct (scan_documented v Hv) as (_ & Hrange).
  rewrite Forall_forall in Hrange. apply Hrange. apply list_elem_of_In. exact Hx.
Qed.

Lemma digit_membership (d v i : Z) :
  0 <= d <= 3 -> 0 <= v <= 9 ->
  bool_decide (i - (28 - 7 * (d + 1)) ∈ documented_blank_set v) = blanked_by d v i.
Proof.
  intros Hd Hv. unfold blanked_by. apply bool_decide_ext. split.
  - intros Hin. pose proof (documented_in_range v _ Hv Hin) as Hr.
    assert (i / 7 = 3 - d) as Hq
      by (symmetry; apply (Z.div_unique i 7 (3 - d) (i - 7 * (3 - d))); lia).
    assert (i mod 7 = i - (28 - 7 * (d + 1))) as Hm by (rewrite Z.mod_eq, Hq; lia).
    rewrite Hm. repeat split; try lia. exact Hin.
  - intros (Hi & Hq & Hin).
    assert (i mod 7 = i - (28 - 7 * (d + 1))) as Hm by (rewrite Z.mod_eq; lia).
    rewrite <- Hm. exact Hin.
Qed.

Lemma blanked_by_digit (d v i : Z) : blanked_by d v i = true -> 3 - i / 7 = d.
Proof.
  unfold blanked_by. intros H. apply bool_decide_eq_true_1 in H.
  destruct H as (_ & H & _). exact H.
Qed.

Lemma blanked_any (vd : Z -> Z) (i : Z) :
  blanked_by 0 (vd 0) i || blanked_by 1 (vd 1) i
  || blanked_by 2 (vd 2) i || blanked_by 3 (vd 3) i
  = blanked vd i.
Proof.
  unfold blanked. destruct (decide (0 <= i < 28)) as [Hi|Hi].
  - assert (3 - i / 7 = 0 \/ 3 - i / 7 = 1 \/ 3 - i / 7 = 2 \/ 3 - i / 7 = 3) as Hd.
    { Z.div_mod_to_equations. lia. }
    unfold blanked_by.
    destruct Hd as [Hd|[Hd|[Hd|Hd]]]; rewrite Hd;
      repeat case_bool_decide; try reflexivity; exfalso; intuition lia.
  - unfold blanked_by. repeat case_bool_decide; try reflexivity; exfalso; intuition lia.
Qed.

(** Four updates of which at most one applies amount to one update. *)
Lemma one_of_four {A : Type} (f : A -> A) (x : A) (vd : Z -> Z) (i : Z) :
  (if blanked_by 3 (vd 3) i then
     f (if blanked_by 2 (vd 2) i then
          f (if blanked_by 1 (vd 1) i then
               f (if blanked_by 0 (vd 0) i then f x else x)
             else if blanked_by 0 (vd 0) i then f x else x)
        else if blanked_by 1 (vd 1) i then
               f (if blanked_by 0 (vd 0) i then f x else x)
             else if blanked_by 0 (vd 0) i then f x else x)
   else if blanked_by 2 (vd 2) i then
          f (if blanked_by 1 (vd 1) i then
               f (if blanked_by 0 (vd 0) i then f x else x)
             else if blanked_by 0 (vd 0) i then f x else x)
        else if blanked_by 1 (vd 1) i then
               f (if blanked_by 0 (vd 0) i then f x else x)
             else if blanked_by 0 (vd 0) i then f x else x)
  = if blanked vd i then f x else x.
Proof.
  rewrite <- blanked_any.
  destruct (blanked_by 0 (vd 0) i) eqn:H0, (blanked_by 1 (vd 1) i) eqn:H1,
    (blanked_by 2 (vd 2) i) eqn:H2, (blanked_by 3 (vd 3) i) eqn:H3;
    try reflexivity; exfalso;
    repeat match goal with
           | H : blanked_by _ _ _ = true |- _ => apply blanked_by_digit in H
           end; lia.
Qed.

Lemma setDigit_segmented (d v : Z) (w : World) :
  0 <= d <= 3 -> 0 <= v <= 9 -> wired (self w) ->
  inTwoToneMode (self w) || inTempHumidMode (self w) = true ->
  exists w',
    setDigit d v w = Some w' /\
    self w' = self w /\ dht11_reads w' = dht11_reads w /\
    strip_pixels (strip w') = strip_pixels (strip w) /\
    forall i,
      strip_segments (strip w') (i + NUM_FIRST_LEDS)
      = if blanked_by d v i
        then segment_off (strip_segments (strip w) (i + NUM_FIRST_LEDS))
        else strip_segments (strip w) (i + NUM_FIRST_LEDS).
Proof.
  intros Hd Hv Hw Hmode. rewrite setDigit_scan.
  destruct (scan_documented v Hv) as (-> & Hrange). cbn [mbind option_bind].
  destruct (turn_off_all_segmented (digitIndex_of d) (documented_blank_set v) w Hw Hmode)
    as (w' & Hrun & Hself & Hreads & Hpix & Hsegs).
  { eapply Forall_impl; [|exact Hrange]. cbv beta. intros o Ho.
    unfold digitIndex_of, NUM_OF_SEGMENTS, SEGS_PER_DIGIT. lia. }
  exists w'. do 4 (split; [assumption|]).
  intros i. rewrite Hsegs.
  replace (digitIndex_of d) with (28 - 7 * (d + 1))
    by (unfold digitIndex_of, NUM_OF_SEGMENTS, SEGS_PER_DIGIT; lia).
  rewrite (digit_membership d v i Hd Hv). reflexivity.
Qed.

Lemma segment_pixel_index (s p : Z) : segment_pixel s p <-> (p - 3) / 3 = s.
Proof.
  unfold segment_pixel, NUM_FIRST_LEDS, ADDR_LEDS_PER_SEG. split.
  - intros H. symmetry. apply (Z.div_unique (p - 3) 3 s (p - 3 - 3 * s)); lia.
  - intros <-. pose proof (Z.div_mod (p - 3) 3 ltac:(lia)) as Hdm.
    pose proof (Z.mod_pos_bound (p - 3) 3 ltac:(lia)) as Hb. lia.
Qed.

Lemma setDigit_series (d v : Z) (w : World) :
  0 <= d <= 3 -> 0 <= v <= 9 ->
  inTwoToneMode (self w) || inTempHumidMode (self w) = false ->
  inSeriesMode (self w) = true ->
  exists w',
    setDigit d v w = Some w' /\
    self w' = self w /\ dht11_reads w' = dht11_reads w /\
    strip_segments (strip w') = strip_segments (strip w) /\
    forall p,
      strip_pixels (strip w') p
      = if blanked_by d v ((p - 3) / 3) then 0 else strip_pixels (strip w) p.
Proof.
  intros Hd Hv Hmode Hser. rewrite setDigit_scan.
  destruct (scan_documented v Hv) as (-> & Hrange). cbn [mbind option_bind].
  destruct (turn_off_all_series (digitIndex_of d) (documented_blank_set v) w Hmode Hser)
    as (w' & Hrun & Hself & Hreads & Hsegs & Hpix).
  exists w'. do 4 (split; [assumption|]).
  intros p. rewrite Hpix. rewrite <- (digit_membership d v _ Hd Hv).
  replace (digitIndex_of d) with (28 - 7 * (d + 1))
    by (unfold digitIndex_of, NUM_OF_SEGMENTS, SEGS_PER_DIGIT; lia).
  rewrite (bool_decide_ext
             (Exists (fun o => segment_pixel (28 - 7 * (d + 1) + o) p)
                (documented_blank_set v))
             ((p - 3) / 3 - (28 - 7 * (d + 1)) ∈ documented_blank_set v));
    [reflexivity|].
  rewrite Exists_exists. split.
  - intros (o & Ho & Hp). apply segment_pixel_index in Hp.
    replace ((p - 3) / 3 - (28 - 7 * (d + 1))) with o by lia.
    apply list_elem_of_In. exact Ho.
  - intros Hin. exists ((p - 3) / 3 - (28 - 7 * (d + 1))). split.
    + apply list_elem_of_In. exact Hin.
    + apply segment_pixel_index. lia.
Qed.

Lemma setDigits_segmented (vd : Z -> Z) (w : World) :
  (forall d, 0 <= d <= 3 -> 0 <= vd d <= 9) ->
  wired (self w) ->
  inTwoToneMode (self w) || inTempHumidMode (self w) = true ->
  exists w',
    setDigits (vd 0) (vd 1) (vd 2) (vd 3) w = Some w' /\
    self w' = self w /\ dht11_reads w' = dht11_reads w /\
    strip_pixels (strip w') = strip_pixels (strip w) /\
    forall i,
      strip_segments (strip w') (i + NUM_FIRST_LEDS)
      = if blanked vd i
        then segment_off (strip_segments (strip w) (i + NUM_FIRST_LEDS))
        else strip_segments (strip w) (i + NUM_FIRST_LEDS).
Proof.
  intros Hvd Hw Hmode. unfold setDigits.
  destruct (setDigit_segmented 0 (vd 0) w) as (w1 & R1 & S1 & D1 & P1 & G1);
    [lia | apply Hvd; lia | exact Hw | exact Hmode |].
  destruct (setDigit_segmented 1 (vd 1) w1) as (w2 & R2 & S2 & D2 & P2 & G2);
    [lia | apply Hvd; lia | rewrite S1; exact Hw | rewrite S1; exact Hmode |].
  destruct (setDigit_segmented 2 (vd 2) w2) as (w3 & R3 & S3 & D3 & P3 & G3);
    [lia | apply Hvd; lia | rewrite S2, S1; exact Hw | rewrite S2, S1; exact Hmode |].
  destruct (setDigit_segmented 3 (vd 3) w3) as (w4 & R4 & S4 & D4 & P4 & G4);
    [lia | apply Hvd; lia | rewrite S3, S2, S1; exact Hw
    | rewrite S3, S2, S1; exact Hmode |].
  exists w4. rewrite R1. cbn [mbind option_bind]. rewrite R2. cbn [mbind option_bind].
  rewrite R3. cbn [mbind option_bind].
  split; [exact R4|]. split; [rewrite S4, S3, S2, S1; reflexivity|].
  split; [rewrite D4, D3, D2, D1; reflexivity|].
  split; [rewrite P4, P3, P2, P1; reflexivity|].
  intros i. rewrite G4, G3, G2, G1.
  exact (one_of_four segment_off (strip_segments (strip w) (i + NUM_FIRST_LEDS)) vd i).
Qed.

Lemma setDigits_series (vd : Z -> Z) (w : World) :
  (forall d, 0 <= d <= 3 -> 0 <= vd d <= 9) ->
  inTwoToneMode (self w) || inTempHumidMode (self w) = false ->
  inSeriesMode (self w) = true ->
  exists w',
    setDigits (vd 0) (vd 1) (vd 2) (vd 3) w = Some w' /\
    self w' = self w /\ dht11_reads w' = dht11_reads w /\
    strip_segments (strip w') = strip_segments (strip w) /\
    forall p,
      strip_pixels (strip w') p
      = if blanked vd ((p - 3) / 3) then 0 else strip_pixels (strip w) p.
Proof.
  intros Hvd Hmode Hser. unfold setDigits.
  destruct (setDigit_series 0 (vd 0) w) as (w1 & R1 & S1 & D1 & G1 & P1);
    [lia | apply Hvd; lia | exact Hmode | exact Hser |].
  destruct (setDigit_series 1 (vd 1) w1) as (w2 & R2 & S2 & D2 & G2 & P2);
    [lia | apply Hvd; lia | rewrite S1; exact Hmode | rewrite S1; exact Hser |].
  destruct (setDigit_series 2 (vd 2) w2) as (w3 & R3 & S3 & D3 & G3 & P3);
    [lia | apply Hvd; lia | rewrite S2, S1; exact Hmode | rewrite S2, S1; exact Hser |].
  destruct (setDigit_series 3 (vd 3) w3) as (w4 & R4 & S4 & D4 & G4 & P4);
    [lia | apply Hvd; lia | rewrite S3, S2, S1; exact Hmode
    | rewrite S3, S2, S1; exact Hser |].
  exists w4. rewrite R1. cbn [mbind option_bind]. rewrite R2. cbn [mbind option_bind].
  rewrite R3. cbn [mbind option_bind].
  split; [exact R4|]. split; [rewrite S4, S3, S2, S1; reflexivity|].
  split; [rewrite D4, D3, D2, D1; reflexivity|].
  split; [rewrite G4, G3, G2, G1; reflexivity|].
  intros p. rewrite P4, P3, P2, P1.
  exact (one_of_four (fun _ => 0) (strip_pixels (strip w) p) vd ((p - 3) / 3)).
Qed.

Lemma setDigits_chain (v0 : Z) (v1 v2 : World -> Z) (v3 : World -> World -> Z)
    (w : World) :
  (forall a, self a = self w -> v1 a = v1 w) ->
  (forall a, self a = self w -> v2 a = v2 w) ->
  (forall a b, self a = self w -> self b = self w -> v3 a b = v3 w w) ->
  (w1 ← setDigit 0 v0 w;
   w2 ← setDigit 1 (v1 w1) w1;
   w3 ← setDigit 2 (v2 w2) w2;
   setDigit 3 (v3 w2 w3) w3)
  = setDigits v0 (v1 w) (v2 w) (v3 w w) w.
Proof.
  intros H1 H2 H3. unfold setDigits.
  destruct (setDigit 0 v0 w) as [w1|] eqn:R1; cbn [mbind option_bind]; [|reflexivity].
  pose proof (proj1 (setDigit_self _ _ _ _ R1)) as S1. rewrite (H1 w1 S1).
  destruct (setDigit 1 (v1 w) w1) as [w2|] eqn:R2; cbn [mbind option_bind]; [|reflexivity].
  pose proof (proj1 (setDigit_self _ _ _ _ R2)) as S2. rewrite S1 in S2.
  rewrite (H2 w2 S2).
  destruct (setDigit 2 (v2 w) w2) as [w3|] eqn:R3; cbn [mbind option_bind]; [|reflexivity].
  pose proof (proj1 (setDigit_self _ _ _ _ R3)) as S3. rewrite S2 in S3.
  rewrite (H3 w2 w3 S2 S3). reflexivity.
Qed.

Lemma displayTime_setDigits (e : Env) (w : World) :
  displayTime e w
  = setDigits (time_digit (self (shown e w)) 0) (time_digit (self (shown e w)) 1)
      (time_digit (self (shown e w)) 2) (time_digit (self (shown e w)) 3) (shown e w).
Proof.
  unfold displayTime, shown, time_digit.
  destruct (inManualMode (self w)) eqn:Hm.
  - rewrite Hm.
    apply (setDigits_chain (digit0Value (self w)) (fun a => digit1Value (self a))
             (fun a => digit2Value (self a)) (fun _ b => digit3Value (self b)) w).
    + intros a ->. reflexivity.
    + intros a ->. reflexivity.
    + intros a b _ ->. reflexivity.
  - cbv zeta.
    change (inManualMode (self (updateTime e w))) with (inManualMode (self w)).
    rewrite Hm.
    destruct (inSecsMinsMode (self (updateTime e w))).
    + apply (setDigits_chain (Z.quot (currentMin (self (updateTime e w))) 10)
               (fun _ => Z.rem (currentMin (self (updateTime e w))) 10)
               (fun a => Z.quot (currentSec (self a)) 10)
               (fun a _ => Z.rem (currentSec (self a)) 10) (updateTime e w)).
      * intros a _. reflexivity.
      * intros a ->. reflexivity.
      * intros a b -> _. reflexivity.
    + apply (setDigits_chain (Z.quot (currentHour (self (updateTime e w))) 10)
               (fun _ => Z.rem (currentHour (self (updateTime e w))) 10)
               (fun a => Z.quot (currentMin (self a)) 10)
               (fun a _ => Z.rem (currentMin (self a)) 10) (updateTime e w)).
      * intros a _. reflexivity.
      * intros a ->. reflexivity.
      * intros a b -> _. reflexivity.
Qed.

Lemma time_digit_valid (e : Env) (w : World) (d : Z) :
  (if inManualMode (self w) then valid_manual (self w) else valid_clock e) ->
  0 <= d <= 3 ->
  0 <= time_digit (self (shown e w)) d <= 9.
Proof.
  intros Hvalid Hd. unfold shown, time_digit.
  destruct (inManualMode (self w)) eqn:Hm.
  - rewrite Hm. destruct Hvalid as (H0 & H1 & H2 & H3).
    assert (d = 0 \/ d = 1 \/ d = 2 \/ d = 3) as Hc by lia.
    destruct Hc as [-> | [-> | [-> | ->]]]; assumption.
  - change (inManualMode (self (updateTime e w))) with (inManualMode (self w)).
    rewrite Hm. destruct Hvalid as (Hh & Hmin & Hs).
    change (currentHour (self (updateTime e w))) with (localHour e).
    change (currentMin (self (updateTime e w))) with (localMinute e).
    change (currentSec (self (updateTime e w))) with (localSecond e).
    pose proof (two_digits (localHour e) ltac:(lia)) as (_ & ? & ?).
    pose proof (two_digits (localMinute e) ltac:(lia)) as (_ & ? & ?).
    pose proof (two_digits (localSecond e) ltac:(lia)) as (_ & ? & ?).
    assert (d = 0 \/ d = 1 \/ d = 2 \/ d = 3) as Hc by lia.
    destruct (inSecsMinsMode (self (updateTime e w)));
      destruct Hc as [-> | [-> | [-> | ->]]]; assumption.
Qed.

Lemma shown_self (e : Env) (w1 w : World) :
  self w1 = self w -> self (shown e w1) = self (shown e w).
Proof.
  intros H. unfold shown, updateTime, with_self. rewrite H.
  destruct (inManualMode (self w)); cbn [self]; [exact H | reflexivity].
Qed.

Lemma shown_rest (e : Env) (w : World) :
  strip (shown e w) = strip w /\ dht11_reads (shown e w) = dht11_reads w /\
  wired (self (shown e w)) = wired (self w) /\
  inTwoToneMode (self (shown e w)) = inTwoToneMode (self w) /\
  inTempHumidMode (self (shown e w)) = inTempHumidMode (self w) /\
  inSeriesMode (self (shown e w)) = inSeriesMode (self w).
Proof. unfold shown. destruct (inManualMode (self w)); repeat split. Qed.

(** X5: a whole two-tone frame.  On a wired display in two-tone mode, with
    the clock inside 0..23 h, 0..59 min, 0..59 s (or, in manual mode, the four
    configured digits inside 0..9), [twoTone] is defined; afterwards display
    segment [i] carries the properties of colour source 0 (upper half) or 1
    (lower half), and is turned off exactly when its offset [i mod 7] is in
    the glyph set of the value shown at digit position [3 - i / 7]; the
    colour sources, every other range and the pixel buffer are untouched, and
    of the usermod only the time members change. *)
Theorem twoTone_frame (e : Env) (w : World) :
  wired (self w) ->
  inTwoToneMode (self w) = true ->
  (if inManualMode (self w) then valid_manual (self w) else valid_clock e) ->
  exists w',
    twoTone e w = Some w' /\
    self w' = self (shown e w) /\
    dht11_reads w' = dht11_reads w /\
    strip_pixels (strip w') = strip_pixels (strip w) /\
    forall i,
      strip_segments (strip w') (i + NUM_FIRST_LEDS)
      = if bool_decide (0 <= i < 28) then
          let lit :=
            copy_props
              (strip_segments (strip w) (if bool_decide (14 <= i) then 0 else 1))
              (strip_segments (strip w) (i + NUM_FIRST_LEDS)) in
          if blanked (time_digit (self (shown e w))) i then segment_off lit else lit
        else strip_segments (strip w) (i + NUM_FIRST_LEDS).
Proof.
  intros Hw Htwo Hvalid.
  destruct (copy_loop_spec twoTone_body (fun i => if bool_decide (14 <= i) then 0 else 1)
              (self w)) with (n := Z.to_nat NUM_OF_SEGMENTS) (i := 0) (w := w)
    as (w1 & Hrun & Hself & Hreads & Hpix & Hsegs).
  { intros i. unfold NUM_FIRST_LEDS. case_bool_decide; lia. }
  { intros i w0 Hi Hu. apply (twoTone_body_copies (self w)); assumption. }
  { lia. }
  { unfold NUM_OF_SEGMENTS. lia. }
  { reflexivity. }
  destruct (shown_rest e w1) as (Hst & Hrd & _ & Ht & _).
  destruct (setDigits_segmented (time_digit (self (shown e w))) (shown e w1))
    as (w' & Hdig & Hself' & Hreads' & Hpix' & Hsegs').
  { intros d Hd. apply time_digit_valid; assumption. }
  { rewrite (shown_self e w1 w Hself).
    destruct (shown_rest e w) as (_ & _ & Hwd & _). rewrite Hwd. exact Hw. }
  { rewrite Ht, Hself, Htwo. reflexivity. }
  exists w'. split.
  { unfold twoTone, twoTone_colors. rewrite Hrun. cbn [mbind option_bind].
    rewrite displayTime_setDigits, (shown_self e w1 w Hself). exact Hdig. }
  split; [rewrite Hself'; apply shown_self; exact Hself|].
  split; [rewrite Hreads', Hrd, Hreads; reflexivity|].
  split; [rewrite Hpix', Hst, Hpix; reflexivity|].
  intros i. rewrite Hsegs', Hst, Hsegs. cbv zeta.
  change (0 + Z.of_nat (Z.to_nat NUM_OF_SEGMENTS)) with 28.
  destruct (decide (0 <= i < 28)) as [Hi|Hi].
  - rewrite (bool_decide_eq_true_2 _ Hi). reflexivity.
  - rewrite (bool_decide_eq_false_2 _ Hi).
    unfold blanked. rewrite bool_decide_eq_false_2 by tauto. reflexivity.
Qed.

Lemma twoTone_frame_witness :
  wired (self wired_world) /\
  inTwoToneMode (self wired_world) = true /\
  valid_clock noon /\
  exists w',
    twoTone noon wired_world = Some w' /\
    self w' = self (shown noon wired_world) /\
    dht11_reads w' = dht11_reads wired_world /\
    strip_pixels (strip w') = strip_pixels (strip wired_world) /\
    forall i,
      strip_segments (strip w') (i + NUM_FIRST_LEDS)
      = if bool_decide (0 <= i < 28) then
          let lit :=
            copy_props
              (strip_segments (strip wired_world) (if bool_decide (14 <= i) then 0 else 1))
              (strip_segments (strip wired_world) (i + NUM_FIRST_LEDS)) in
          if blanked (time_digit (self (shown noon wired_world))) i
          then segment_off lit else lit
        else strip_segments (strip wired_world) (i + NUM_FIRST_LEDS).
Proof.
  assert (Hc : valid_clock noon) by (unfold valid_clock; cbn; lia).
  split; [exact wired_world_wired|]. split; [reflexivity|]. split; [exact Hc|].
  apply (twoTone_frame noon wired_world); [exact wired_world_wired | reflexivity | exact Hc].
Defined.

(** X6: a whole Series frame.  With only the Series flag set and the clock
    (or the manual digits) in range, [handleOverlayDraw] is defined and blacks
    out LED [p] exactly when the display segment [(p - 3) / 3] it belongs to
    is one of the 28 and its offset is in the glyph set of the value shown at
    its digit position; every other LED keeps its colour, so the colour LEDs
    0..2 and the LEDs from 87 on are never written, and no host range is
    touched.  No wiring is needed for it. *)
Theorem series_frame (e : Env) (w : World) :
  inSeriesMode (self w) = true ->
  inTwoToneMode (self w) || inTempHumidMode (self w) = false ->
  (if inManualMode (self w) then valid_manual (self w) else valid_clock e) ->
  exists w',
    handleOverlayDraw e w = Some w' /\
    self w' = self (shown e w) /\
    dht11_reads w' = dht11_reads w /\
    strip_segments (strip w') = strip_segments (strip w) /\
    (forall p,
       strip_pixels (strip w') p
       = if blanked (time_digit (self (shown e w))) ((p - 3) / 3)
         then 0 else strip_pixels (strip w) p) /\
    (forall p, ~ (3 <= p < 87) -> strip_pixels (strip w') p = strip_pixels (strip w) p).
Proof.
  intros Hser Hmode Hvalid.
  destruct (shown_rest e w) as (Hst & Hrd & _ & Ht & Hth & Hs).
  destruct (setDigits_series (time_digit (self (shown e w))) (shown e w))
    as (w' & Hdig & Hself' & Hreads' & Hsegs' & Hpix').
  { intros d Hd. apply time_digit_valid; assumption. }
  { rewrite Ht, Hth. exact Hmode. }
  { rewrite Hs. exact Hser. }
  exists w'. split.
  { unfold handleOverlayDraw, inSeries. rewrite Hser, displayTime_setDigits. exact Hdig. }
  split; [exact Hself'|]. split; [rewrite Hreads', Hrd; reflexivity|].
  split; [rewrite Hsegs', Hst; reflexivity|].
  assert (Hall : forall p,
            strip_pixels (strip w') p
            = if blanked (time_digit (self (shown e w))) ((p - 3) / 3)
              then 0 else strip_pixels (strip w) p).
  { intros p. rewrite Hpix', Hst. reflexivity. }
  split; [exact Hall|].
  intros p Hp. rewrite Hall. unfold blanked.
  rewrite bool_decide_eq_false_2; [reflexivity|].
  intros (Hi & _). apply Hp. Z.div_mod_to_equations. lia.
Qed.

Lemma series_frame_witness :
  inSeriesMode (self series_world) = true /\
  inTwoToneMode (self series_world) || inTempHumidMode (self series_world) = false /\
  valid_clock noon /\
  exists w',
    handleOverlayDraw noon series_world = Some w' /\
    self w' = self (shown noon series_world) /\
    dht11_reads w' = dht11_reads series_world /\
    strip_segments (strip w') = strip_segments (strip series_world) /\
    (forall p,
       strip_pixels (strip w') p
       = if blanked (time_digit (self (shown noon series_world))) ((p - 3) / 3)
         then 0 else strip_pixels (strip series_world) p) /\
    (forall p, ~ (3 <= p < 87) ->
       strip_pixels (strip w') p = strip_pixels (strip series_world) p).
Proof.
  assert (Hc : valid_clock noon) by (unfold valid_clock; cbn; lia).
  split; [reflexivity|]. split; [reflexivity|]. split; [exact Hc|].
  apply (series_frame noon series_world); [reflexivity | reflexivity | exact Hc].
Defined.

(** ** The temperature/humidity frame *)

Lemma setDigits_out_of_range (v0 v1 v2 v3 : Z) (w : World) :
  ~ (0 <= v0 <= 9) \/ ~ (0 <= v1 <= 9) \/ ~ (0 <= v2 <= 9) \/ ~ (0 <= v3 <= 9) ->
  setDigits v0 v1 v2 v3 w = None.
Proof.
  intros H. unfold setDigits.
  destruct (decide (0 <= v0 <= 9)) as [H0|H0];
    [|rewrite (setDigit_out_of_range 0 v0 w H0); reflexivity].
  destruct (setDigit 0 v0 w) as [w1|]; cbn [mbind option_bind]; [|reflexivity].
  destruct (decide (0 <= v1 <= 9)) as [H1|H1];
    [|rewrite (setDigit_out_of_range 1 v1 w1 H1); reflexivity].
  destruct (setDigit 1 v1 w1) as [w2|]; cbn [mbind option_bind]; [|reflexivity].
  destruct (decide (0 <= v2 <= 9)) as [H2|H2];
    [|rewrite (setDigit_out_of_range 2 v2 w2 H2); reflexivity].
  destruct (setDigit 2 v2 w2) as [w3|]; cbn [mbind option_bind]; [|reflexivity].
  destruct (decide (0 <= v3 <= 9)) as [H3|H3];
    [|rewrite (setDigit_out_of_range 3 v3 w3 H3); reflexivity].
  tauto.
Qed.

Lemma two_digits_only_in_range (x : Z) :
  0 <= Z.quot x 10 <= 9 -> 0 <= Z.rem x 10 <= 9 -> 0 <= x <= 99.
Proof. intros Hq Hr. pose proof (Z.quot_rem' x 10). lia. Qed.

Lemma sensor_digit_valid (u : NanoLeafDisplay) (d : Z) :
  0 <= currentTemp u <= 99 -> 0 <= currentHumid u <= 99 -> 0 <= d <= 3 ->
  0 <= sensor_digit u d <= 9.
Proof.
  intros Ht Hh Hd. unfold sensor_digit.
  pose proof (two_digits (currentTemp u) Ht) as (_ & ? & ?).
  pose proof (two_digits (currentHumid u) Hh) as (_ & ? & ?).
  assert (d = 0 \/ d = 1 \/ d = 2 \/ d = 3) as Hc by lia.
  destruct Hc as [-> | [-> | [-> | ->]]]; assumption.
Qed.

Lemma readTempAndHumid_pointers (e : Env) (w : World) :
  wired (self w) -> wired (self (readTempAndHumid e w)).
Proof.
  intros Hw. unfold readTempAndHumid.
  destruct (dht11ReadingDelay <? elapsed e w); exact Hw.
Qed.

Lemma readTempAndHumid_rest (e : Env) (w : World) :
  strip (readTempAndHumid e w) = strip w /\
  inTwoToneMode (self (readTempAndHumid e w)) = inTwoToneMode (self w) /\
  inTempHumidMode (self (readTempAndHumid e w)) = inTempHumidMode (self w) /\
  inSeriesMode (self (readTempAndHumid e w)) = inSeriesMode (self w) /\
  valid_manual (self (readTempAndHumid e w)) = valid_manual (self w).
Proof.
  unfold readTempAndHumid. destruct (dht11ReadingDelay <? elapsed e w); repeat split.
Qed.

Lemma displayTempAndHumid_setDigits (e : Env) (w : World) :
  displayTempAndHumid e w
  = (w1 ← setTempHumidColors (readTempAndHumid e w);
     setDigits (sensor_digit (self w1) 0) (sensor_digit (self w1) 1)
       (sensor_digit (self w1) 2) (sensor_digit (self w1) 3) w1).
Proof.
  unfold displayTempAndHumid. cbv zeta.
  destruct (setTempHumidColors (readTempAndHumid e w)) as [w1|];
    cbn [mbind option_bind]; [|reflexivity].
  apply (setDigits_chain (Z.quot (currentTemp (self w1)) 10)
           (fun _ => Z.rem (currentTemp (self w1)) 10)
           (fun a => Z.quot (currentHumid (self a)) 10)
           (fun a _ => Z.rem (currentHumid (self a)) 10) w1).
  - intros a _. reflexivity.
  - intros a ->. reflexivity.
  - intros a b -> _. reflexivity.
Qed.

(** X7: on a wired display in temperature/humidity mode [displayTempAndHumid]
    is defined exactly when the temperature and the humidity it works with
    (the fresh reading if the rate limit let it read, the cached one
    otherwise) are both inside 0..99; any other reading makes a digit leave
    the glyph table.  When defined, display segment [i] carries the
    properties of colour source 0 or 1 (upper half, temperature above 0 or
    not) or 2 (lower half) and is turned off exactly when its offset is in
    the glyph set of the tens or units digit shown at its position. *)
Theorem displayTempAndHumid_frame (e : Env) (w : World) :
  wired (self w) ->
  inTempHumidMode (self w) = true ->
  (is_Some (displayTempAndHumid e w)
   <-> 0 <= currentTemp (self (readTempAndHumid e w)) <= 99 /\
       0 <= currentHumid (self (readTempAndHumid e w)) <= 99) /\
  (forall w',
     displayTempAndHumid e w = Some w' ->
     self w' = self (readTempAndHumid e w) /\
     dht11_reads w' = dht11_reads (readTempAndHumid e w) /\
     strip_pixels (strip w') = strip_pixels (strip w) /\
     forall i,
       strip_segments (strip w') (i + NUM_FIRST_LEDS)
       = if bool_decide (0 <= i < 28) then
           let lit :=
             copy_props
               (strip_segments (strip w)
                  (if bool_decide (14 <= i)
                   then if 0 <? currentTemp (self (readTempAndHumid e w)) then 0 else 1
                   else 2))
               (strip_segments (strip w) (i + NUM_FIRST_LEDS)) in
           if blanked (sensor_digit (self (readTempAndHumid e w))) i
           then segment_off lit else lit
         else strip_segments (strip w) (i + NUM_FIRST_LEDS)).
Proof.
  intros Hw Hmode.
  set (w0 := readTempAndHumid e w).
  assert (Hw0 : wired (self w0)) by (apply readTempAndHumid_pointers; exact Hw).
  destruct (readTempAndHumid_rest e w) as (Hst0 & _ & Hth0 & _). fold w0 in Hst0, Hth0.
  destruct (copy_loop_spec setTempHumidColors_body
              (fun i => if bool_decide (14 <= i)
                        then if 0 <? currentTemp (self w0) then 0 else 1
                        else 2)
              (self w0)) with (n := Z.to_nat NUM_OF_SEGMENTS) (i := 0) (w := w0)
    as (w1 & Hrun & Hself & Hreads & Hpix & Hsegs).
  { intros i. unfold NUM_FIRST_LEDS.
    case_bool_decide; [destruct (0 <? currentTemp (self w0))|]; lia. }
  { intros i x Hi Hu. apply (setTempHumidColors_body_copies (self w0)); assumption. }
  { lia. }
  { unfold NUM_OF_SEGMENTS. lia. }
  { reflexivity. }
  assert (Heq : displayTempAndHumid e w
                = setDigits (sensor_digit (self w0) 0) (sensor_digit (self w0) 1)
                    (sensor_digit (self w0) 2) (sensor_digit (self w0) 3) w1).
  { rewrite displayTempAndHumid_setDigits. fold w0. unfold setTempHumidColors.
    rewrite Hrun. cbn [mbind option_bind]. rewrite Hself. reflexivity. }
  assert (Hvalid : 0 <= currentTemp (self w0) <= 99 /\ 0 <= currentHumid (self w0) <= 99 ->
            exists w',
              displayTempAndHumid e w = Some w' /\
              self w' = self w0 /\ dht11_reads w' = dht11_reads w0 /\
              strip_pixels (strip w') = strip_pixels (strip w) /\
              forall i,
                strip_segments (strip w') (i + NUM_FIRST_LEDS)
                = if blanked (sensor_digit (self w0)) i
                  then segment_off (strip_segments (strip w1) (i + NUM_FIRST_LEDS))
                  else strip_segments (strip w1) (i + NUM_FIRST_LEDS)).
  { intros [Ht Hh].
    destruct (setDigits_segmented (sensor_digit (self w0)) w1)
      as (w' & Hdig & Hself' & Hreads' & Hpix' & Hsegs').
    { intros d Hd. apply sensor_digit_valid; assumption. }
    { rewrite Hself. exact Hw0. }
    { rewrite Hself, Hth0, Hmode. apply orb_true_r. }
    exists w'. rewrite Heq. split; [exact Hdig|].
    split; [rewrite Hself', Hself; reflexivity|].
    split; [rewrite Hreads', Hreads; reflexivity|].
    split; [rewrite Hpix', Hpix, Hst0; reflexivity | exact Hsegs']. }
  split; [split|].
  - intros [w' H].
    destruct (decide (0 <= Z.quot (currentTemp (self w0)) 10 <= 9)) as [Hq|Hq];
      [|rewrite Heq, setDigits_out_of_range in H; [discriminate | tauto]].
    destruct (decide (0 <= Z.rem (currentTemp (self w0)) 10 <= 9)) as [Hr|Hr];
      [|rewrite Heq, setDigits_out_of_range in H; [discriminate | tauto]].
    destruct (decide (0 <= Z.quot (currentHumid (self w0)) 10 <= 9)) as [Hq2|Hq2];
      [|rewrite Heq, setDigits_out_of_range in H; [discriminate | tauto]].
    destruct (decide (0 <= Z.rem (currentHumid (self w0)) 10 <= 9)) as [Hr2|Hr2];
      [|rewrite Heq, setDigits_out_of_range in H; [discriminate | tauto]].
    split; apply two_digits_only_in_range; assumption.
  - intros Hok. destruct (Hvalid Hok) as (w' & H & _). exists w'. exact H.
  - intros w' H.
    assert (Hok : 0 <= currentTemp (self w0) <= 99 /\ 0 <= currentHumid (self w0) <= 99).
    { destruct (decide (0 <= Z.quot (currentTemp (self w0)) 10 <= 9)) as [Hq|Hq];
        [|rewrite Heq, setDigits_out_of_range in H; [discriminate | tauto]].
      destruct (decide (0 <= Z.rem (currentTemp (self w0)) 10 <= 9)) as [Hr|Hr];
        [|rewrite Heq, setDigits_out_of_range in H; [discriminate | tauto]].
      destruct (decide (0 <= Z.quot (currentHumid (self w0)) 10 <= 9)) as [Hq2|Hq2];
        [|rewrite Heq, setDigits_out_of_range in H; [discriminate | tauto]].
      destruct (decide (0 <= Z.rem (currentHumid (self w0)) 10 <= 9)) as [Hr2|Hr2];
        [|rewrite Heq, setDigits_out_of_range in H; [discriminate | tauto]].
      split; apply two_digits_only_in_range; assumption. }
    destruct (Hvalid Hok) as (w2 & H2 & Hs2 & Hr2 & Hp2 & Hg2).
    rewrite H in H2. injection H2 as <-.
    do 3 (split; [assumption|]).
    intros i. rewrite Hg2, Hsegs, Hst0. cbv zeta.
    change (0 + Z.of_nat (Z.to_nat NUM_OF_SEGMENTS)) with 28.
    destruct (decide (0 <= i < 28)) as [Hi|Hi].
    + rewrite (bool_decide_eq_true_2 _ Hi). reflexivity.
    + rewrite (bool_decide_eq_false_2 _ Hi).
      unfold blanked. rewrite bool_decide_eq_false_2 by tauto. reflexivity.
Qed.

Lemma displayTempAndHumid_frame_witness :
  wired (self warm_world) /\ inTempHumidMode (self warm_world) = true /\
  (is_Some (displayTempAndHumid boundary_env warm_world)
   <-> 0 <= currentTemp (self (readTempAndHumid boundary_env warm_world)) <= 99 /\
       0 <= currentHumid (self (readTempAndHumid boundary_env warm_world)) <= 99) /\
  wired (self sensor_world) /\ inTempHumidMode (self sensor_world) = true /\
  (is_Some (displayTempAndHumid frost_env sensor_world)
   <-> 0 <= currentTemp (self (readTempAndHumid frost_env sensor_world)) <= 99 /\
       0 <= currentHumid (self (readTempAndHumid frost_env sensor_world)) <= 99).
Proof.
  assert (Hwarm : wired (self warm_world)).
  { split; [reflexivity|]. split; [reflexivity|]. split; [reflexivity|].
    intros i Hi. cbn. rewrite bool_decide_eq_true_2 by exact Hi. reflexivity. }
  assert (Hcold : wired (self sensor_world)).
  { split; [reflexivity|]. split; [reflexivity|]. split; [reflexivity|].
    intros i Hi. cbn. rewrite bool_decide_eq_true_2 by exact Hi. reflexivity. }
  split; [exact Hwarm|]. split; [reflexivity|].
  split; [apply (displayTempAndHumid_frame boundary_env warm_world Hwarm eq_refl)|].
  split; [exact Hcold|]. split; [reflexivity|].
  apply (displayTempAndHumid_frame frost_env sensor_world Hcold eq_refl).
Defined.

(** ** Runs of host calls stay defined *)

Lemma setDigits_ok (vd : Z -> Z) (w : World) :
  (forall d, 0 <= d <= 3 -> 0 <= vd d <= 9) -> wired (self w) ->
  exists w',
    setDigits (vd 0) (vd 1) (vd 2) (vd 3) w = Some w' /\
    self w' = self w /\ dht11_reads w' = dht11_reads w.
Proof.
  intros Hvd Hw. unfold setDigits.
  destruct (setDigit_ok 0 (vd 0) w) as [w1 R1]; [lia | apply Hvd; lia | exact Hw |].
  destruct (setDigit_self _ _ _ _ R1) as [S1 D1].
  destruct (setDigit_ok 1 (vd 1) w1) as [w2 R2];
    [lia | apply Hvd; lia | rewrite S1; exact Hw |].
  destruct (setDigit_self _ _ _ _ R2) as [S2 D2].
  destruct (setDigit_ok 2 (vd 2) w2) as [w3 R3];
    [lia | apply Hvd; lia | rewrite S2, S1; exact Hw |].
  destruct (setDigit_self _ _ _ _ R3) as [S3 D3].
  destruct (setDigit_ok 3 (vd 3) w3) as [w4 R4];
    [lia | apply Hvd; lia | rewrite S3, S2, S1; exact Hw |].
  destruct (setDigit_self _ _ _ _ R4) as [S4 D4].
  exists w4. rewrite R1. cbn [mbind option_bind]. rewrite R2. cbn [mbind option_bind].
  rewrite R3. cbn [mbind option_bind].
  split; [exact R4|]. split; [rewrite S4, S3, S2, S1 | rewrite D4, D3, D2, D1]; reflexivity.
Qed.

Lemma safe_shown (e : Env) (w : World) : safe (self w) -> safe (self (shown e w)).
Proof.
  intros H. unfold shown. destruct (inManualMode (self w)); exact H.
Qed.

Lemma displayTime_ok (e : Env) (w : World) :
  safe (self w) -> valid_clock e ->
  exists w', displayTime e w = Some w' /\ safe (self w').
Proof.
  intros Hsafe Hclock. rewrite displayTime_setDigits.
  destruct (setDigits_ok (time_digit (self (shown e w))) (shown e w))
    as (w' & Hrun & Hself & _).
  - intros d Hd. apply time_digit_valid; [|exact Hd].
    destruct (inManualMode (self w)); [apply Hsafe | exact Hclock].
  - apply (safe_shown e w Hsafe).
  - exists w'. split; [exact Hrun|]. rewrite Hself. apply safe_shown. exact Hsafe.
Qed.

Lemma safe_readTempAndHumid (e : Env) (w : World) :
  safe (self w) -> valid_reading e -> safe (self (readTempAndHumid e w)).
Proof.
  intros (Hw & Hm & Ht & Hh) (Het & Heh). unfold readTempAndHumid.
  destruct (dht11ReadingDelay <? elapsed e w).
  - split; [exact Hw|]. split; [exact Hm|]. split; [exact Het | exact Heh].
  - split; [exact Hw|]. split; [exact Hm|]. split; [exact Ht | exact Hh].
Qed.

Lemma twoTone_ok (e : Env) (w : World) :
  safe (self w) -> valid_clock e ->
  exists w', twoTone e w = Some w' /\ safe (self w').
Proof.
  intros Hsafe Hclock.
  destruct (copy_loop_spec twoTone_body (fun i => if bool_decide (14 <= i) then 0 else 1)
              (self w)) with (n := Z.to_nat NUM_OF_SEGMENTS) (i := 0) (w := w)
    as (w1 & Hrun & Hself & _).
  { intros i. unfold NUM_FIRST_LEDS. case_bool_decide; lia. }
  { intros i w0 Hi Hu. apply (twoTone_body_copies (self w)); [apply Hsafe | exact Hi | exact Hu]. }
  { lia. }
  { unfold NUM_OF_SEGMENTS. lia. }
  { reflexivity. }
  unfold twoTone, twoTone_colors. rewrite Hrun. cbn [mbind option_bind].
  apply displayTime_ok; [rewrite Hself; exact Hsafe | exact Hclock].
Qed.

Lemma displayTempAndHumid_ok (e : Env) (w : World) :
  safe (self w) -> valid_reading e ->
  exists w', displayTempAndHumid e w = Some w' /\ safe (self w').
Proof.
  intros Hsafe Hread.
  pose proof (safe_readTempAndHumid e w Hsafe Hread) as Hs0.
  set (w0 := readTempAndHumid e w) in *.
  destruct (copy_loop_spec setTempHumidColors_body
              (fun i => if bool_decide (14 <= i)
                        then if 0 <? currentTemp (self w0) then 0 else 1
                        else 2)
              (self w0)) with (n := Z.to_nat NUM_OF_SEGMENTS) (i := 0) (w := w0)
    as (w1 & Hrun & Hself & _).
  { intros i. unfold NUM_FIRST_LEDS.
    case_bool_decide; [destruct (0 <? currentTemp (self w0))|]; lia. }
  { intros i x Hi Hu.
    apply (setTempHumidColors_body_copies (self w0)); [apply Hs0 | exact Hi | exact Hu]. }
  { lia. }
  { unfold NUM_OF_SEGMENTS. lia. }
  { reflexivity. }
  rewrite displayTempAndHumid_setDigits. fold w0. unfold setTempHumidColors.
  rewrite Hrun. cbn [mbind option_bind].
  destruct (setDigits_ok (sensor_digit (self w1)) w1) as (w' & Hdig & Hself' & _).
  - intros d Hd. rewrite Hself. apply sensor_digit_valid; [apply Hs0 | apply Hs0 | exact Hd].
  - rewrite Hself. apply Hs0.
  - exists w'. split; [exact Hdig|]. rewrite Hself', Hself. exact Hs0.
Qed.

Lemma loop_safe (e : Env) (w : World) :
  safe (self w) -> valid_clock e -> valid_reading e ->
  exists w', loop e w = Some w' /\ safe (self w').
Proof.
  intros Hsafe Hclock Hread. unfold loop.
  destruct (inTwoToneMode (self w)).
  - apply twoTone_ok; assumption.
  - destruct (inTempHumidMode (self w)).
    + apply displayTempAndHumid_ok; assumption.
    + exists w. split; [reflexivity | exact Hsafe].
Qed.

Lemma handleOverlayDraw_safe (e : Env) (w : World) :
  safe (self w) -> valid_clock e ->
  exists w', handleOverlayDraw e w = Some w' /\ safe (self w').
Proof.
  intros Hsafe Hclock. unfold handleOverlayDraw, inSeries.
  destruct (inSeriesMode (self w)).
  - apply displayTime_ok; assumption.
  - exists w. split; [reflexivity | exact Hsafe].
Qed.

Lemma connected_safe (e : Env) (w : World) :
  safe (self w) -> valid_reading e -> safe (self (connected e w)).
Proof.
  intros Hsafe Hread. unfold connected.
  apply safe_readTempAndHumid; [exact Hsafe | exact Hread].
Qed.

Lemma apply_config_manual (top : option JsonConfig) (u : NanoLeafDisplay) :
  valid_config top -> valid_manual u -> valid_manual (apply_config top u).
Proof.
  intros (C1 & C2 & C3 & C4) (M0 & M1 & M2 & M3).
  unfold valid_manual, apply_config. cbn [digit0Value digit1Value digit2Value
    digit3Value set_config].
  unfold digit_field_ok in *.
  destruct (field top cfg_Digit1), (field top cfg_Digit2), (field top cfg_Digit3),
    (field top cfg_Digit4); cbn [getJsonValue snd]; repeat split; lia.
Qed.

Lemma readFromConfig_safe (resetSegments : WS2812FX -> WS2812FX)
    (top : option JsonConfig) (w : World) :
  safe (self w) -> valid_config top ->
  exists w',
    readFromConfig resetSegments top w = Some (config_complete top (self w), w') /\
    safe (self w').
Proof.
  intros (Hw & Hm & Ht & Hh) Hcfg. rewrite readFromConfig_unfold.
  pose proof (apply_config_manual top (self w) Hcfg Hm) as Hm'.
  destruct (entersSeries top (self w)).
  - eexists. split; [reflexivity|].
    split; [exact Hw|]. split; [exact Hm'|]. split; [exact Ht | exact Hh].
  - destruct (entersTwoTone top (self w) || entersTempHumid top (self w)).
    + destruct (wireSegmented_spec (with_self (apply_config top) w))
        as (w1 & Hrun & Hw1 & _ & _ & Hself).
      rewrite Hrun. eexists. split; [reflexivity|].
      cbn [self with_self]. split; [exact Hw1|].
      rewrite Hself. split; [exact Hm'|]. split; [exact Ht | exact Hh].
    + eexists. split; [reflexivity|].
      split; [exact Hw|]. split; [exact Hm'|]. split; [exact Ht | exact Hh].
Qed.

Lemma call_safe (resetSegments : WS2812FX -> WS2812FX) (c : Call) (w : World) :
  safe (self w) -> valid_call c ->
  exists w', call resetSegments c w = Some w' /\ safe (self w').
Proof.
  intros Hsafe Hc. destruct c as [e|e|e|top]; cbn [call valid_call] in *.
  - apply loop_safe; [exact Hsafe | apply Hc | apply Hc].
  - apply handleOverlayDraw_safe; [exact Hsafe | apply Hc].
  - eexists. split; [reflexivity|]. apply connected_safe; [exact Hsafe | apply Hc].
  - destruct (readFromConfig_safe resetSegments top w Hsafe Hc) as (w' & Hrun & Hs).
    exists w'. rewrite Hrun. split; [reflexivity | exact Hs].
Qed.

(** X8: rendering never leaves the glyph table or an unassigned pointer as
    long as the inputs are in range.  From a state in which the segment
    pointers are assigned and the manual digits (0..9) and the cached reading
    (0..99) are in range, every sequence of host calls ([loop],
    [handleOverlayDraw], [connected], [readFromConfig], in any order and with
    any mode flags) is defined and ends in such a state again, provided each
    call sees a clock inside 0..23 h / 0..59 min / 0..59 s, sensor values
    inside 0..99 and configured digit values inside 0..9. *)
Theorem run_safe (resetSegments : WS2812FX -> WS2812FX) (cs : list Call) (w : World) :
  safe (self w) -> Forall valid_call cs ->
  exists w', run resetSegments cs w = Some w' /\ safe (self w').
Proof.
  revert w. induction cs as [|c cs IH]; intros w Hsafe Hcs.
  - exists w. split; [reflexivity | exact Hsafe].
  - apply Forall_cons_1 in Hcs as [Hc Hcs]. cbn [run].
    destruct (call_safe resetSegments c w Hsafe Hc) as (w1 & Hrun & Hs1).
    rewrite Hrun. cbn [mbind option_bind]. apply IH; assumption.
Qed.

Lemma run_safe_witness :
  safe (self wired_world) /\ Forall valid_call sample_run /\
  exists w', run resetSegments_clear sample_run wired_world = Some w' /\ safe (self w').
Proof.
  assert (Hs : safe (self wired_world)).
  { split; [exact wired_world_wired|]. unfold valid_manual. cbn. lia. }
  assert (Hc : Forall valid_call sample_run).
  { unfold sample_run. repeat constructor; cbn; lia. }
  split; [exact Hs|]. split; [exact Hc|].
  apply (run_safe resetSegments_clear sample_run wired_world Hs Hc).
Defined.

(** ** Configuration: round trip, missing keys, repeated updates *)

Lemma readFromConfig_result (resetSegments : WS2812FX -> WS2812FX)
    (top : option JsonConfig) (w : World) :
  exists w',
    readFromConfig resetSegments top w = Some (config_complete top (self w), w') /\
    addToConfig (self w') = addToConfig (apply_config top (self w)) /\
    inSecsMinsMode (self w') = inSecsMinsMode (apply_config top (self w)) /\
    lastTwoToneMode (self w') = inTwoToneMode (self w') /\
    lastInSeriesMode (self w') = inSeriesMode (self w') /\
    lastTempHumidMode (self w') = inTempHumidMode (self w') /\
    sensor_state w' = sensor_state w /\
    currentHour (self w') = currentHour (self w) /\
    currentMin (self w') = currentMin (self w) /\
    currentSec (self w') = currentSec (self w).
Proof.
  rewrite readFromConfig_unfold.
  destruct (entersSeries top (self w)).
  - eexists. split; [reflexivity|]. repeat split.
  - destruct (entersTwoTone top (self w) || entersTempHumid top (self w)).
    + destruct (wireSegmented_spec (with_self (apply_config top) w))
        as (w1 & Hrun & _ & _ & Hreads & Hself).
      rewrite Hrun. eexists. split; [reflexivity|].
      unfold sensor_state. cbn [self with_self dht11_reads]. rewrite Hself, Hreads.
      repeat split.
    + eexists. split; [reflexivity|]. repeat split.
Qed.

(** X9: saving and loading round-trips.  Loading the section that
    [addToConfig] wrote for a display [u] is reported complete and gives the
    loading display the five mode flags and four digit values of [u], so a
    following [addToConfig] writes the same section again; the remembered
    modes then equal the loaded ones. *)
Theorem config_round_trip (resetSegments : WS2812FX -> WS2812FX)
    (u : NanoLeafDisplay) (w : World) :
  exists w',
    readFromConfig resetSegments (Some (addToConfig u)) w = Some (true, w') /\
    addToConfig (self w') = addToConfig u /\
    lastTwoToneMode (self w') = inTwoToneMode u /\
    lastInSeriesMode (self w') = inSeriesMode u /\
    lastTempHumidMode (self w') = inTempHumidMode u.
Proof.
  destruct (readFromConfig_result resetSegments (Some (addToConfig u)) w)
    as (w' & Hrun & Hcfg & _ & L1 & L2 & L3 & _).
  exists w'. split; [exact Hrun|].
  assert (Hsame : addToConfig (self w') = addToConfig u) by exact Hcfg.
  split; [exact Hsame|].
  injection Hsame as E1 E2 _ _ _ _ _ _ E9.
  rewrite L1, L2, L3, E1, E2, E9. repeat split.
Qed.

Lemma getJsonValue_kept {T} (element : option T) (old : T) :
  kept element old (snd (getJsonValue element old)).
Proof. destruct element; reflexivity. Qed.

Lemma config_complete_true (top : option JsonConfig) (u : NanoLeafDisplay) :
  config_complete top u = true <->
  exists a b c d e f g h i,
    top = Some (mkJsonConfig (Some a) (Some b) (Some c) (Some d) (Some e) (Some f)
                  (Some g) (Some h) (Some i)).
Proof.
  unfold config_complete. split.
  - destruct top as [[[a|] [b|] [c|] [d|] [e|] [f|] [g|] [h|] [i|]]|];
      cbn [field mbind option_bind getJsonValue fst cfg_TwoTone cfg_InSeries
           cfg_SecsMins cfg_Manual cfg_Digit1 cfg_Digit2 cfg_Digit3 cfg_Digit4
           cfg_TempHumid andb];
      intros H; rewrite ?andb_false_r in H; try discriminate.
    exists a, b, c, d, e, f, g, h, i. reflexivity.
  - intros (a & b & c & d & e & f & g & h & i & ->).
    rewrite bool_decide_eq_true_2 by discriminate. reflexivity.
Qed.

(** X10: missing keys.  [readFromConfig] always returns; it reports the
    configuration complete exactly when the section exists and holds all nine
    fields; each of the nine members takes the stored value when its field is
    present and keeps its value when the field (or the whole section) is
    absent; the clock members and the sensor state are never changed. *)
Theorem config_missing_keys (resetSegments : WS2812FX -> WS2812FX)
    (top : option JsonConfig) (w : World) :
  exists complete w',
    readFromConfig resetSegments top w = Some (complete, w') /\
    (complete = true <->
     exists a b c d e f g h i,
       top = Some (mkJsonConfig (Some a) (Some b) (Some c) (Some d) (Some e) (Some f)
                     (Some g) (Some h) (Some i))) /\
    kept (field top cfg_TwoTone) (inTwoToneMode (self w)) (inTwoToneMode (self w')) /\
    kept (field top cfg_InSeries) (inSeriesMode (self w)) (inSeriesMode (self w')) /\
    kept (field top cfg_SecsMins) (inSecsMinsMode (self w)) (inSecsMinsMode (self w')) /\
    kept (field top cfg_Manual) (inManualMode (self w)) (inManualMode (self w')) /\
    kept (field top cfg_Digit1) (digit0Value (self w)) (digit0Value (self w')) /\
    kept (field top cfg_Digit2) (digit1Value (self w)) (digit1Value (self w')) /\
    kept (field top cfg_Digit3) (digit2Value (self w)) (digit2Value (self w')) /\
    kept (field top cfg_Digit4) (digit3Value (self w)) (digit3Value (self w')) /\
    kept (field top cfg_TempHumid) (inTempHumidMode (self w)) (inTempHumidMode (self w')) /\
    sensor_state w' = sensor_state w /\
    currentHour (self w') = currentHour (self w) /\
    currentMin (self w') = currentMin (self w) /\
    currentSec (self w') = currentSec (self w).
Proof.
  destruct (readFromConfig_result resetSegments top w)
    as (w' & Hrun & Hcfg & Hsm & _ & _ & _ & Hsens & Hh & Hm & Hs).
  exists (config_complete top (self w)), w'. split; [exact Hrun|].
  split; [apply config_complete_true|].
  injection Hcfg as E1 E2 E3 E4 E5 E6 E7 E8 E9.
  rewrite E1, E2, E3, E4, E5, E6, E7, E8, E9.
  unfold apply_config. cbn [inTwoToneMode inSeriesMode inSecsMinsMode inManualMode
    digit0Value digit1Value digit2Value digit3Value inTempHumidMode set_config].
  do 9 (split; [apply getJsonValue_kept|]).
  repeat split; assumption.
Qed.

Lemma config_missing_keys_witness :
  exists complete w',
    readFromConfig resetSegments_clear (Some partial_config) wired_world
    = Some (complete, w') /\
    complete = false /\
    inManualMode (self w') = true /\ digit0Value (self w') = 7 /\
    inTwoToneMode (self w') = inTwoToneMode (self wired_world) /\
    digit1Value (self w') = digit1Value (self wired_world).
Proof.
  destruct (config_missing_keys resetSegments_clear (Some partial_config) wired_world)
    as (complete & w' & Hrun & Hcomplete & K1 & _ & _ & K4 & K5 & K6 & _).
  exists complete, w'. split; [exact Hrun|]. split.
  - destruct complete; [|reflexivity].
    destruct (proj1 Hcomplete eq_refl) as (a & b & c & d & e & f & g & h & i & Habs).
    discriminate Habs.
  - split; [exact K4|]. split; [exact K5|]. split; [exact K1 | exact K6].
Defined.

Lemma getJsonValue_snd_idem {T} (element : option T) (old : T) :
  snd (getJsonValue element (snd (getJsonValue element old)))
  = snd (getJsonValue element old).
Proof. destruct element; reflexivity. Qed.

Lemma getJsonValue_fst_indep {T} (element : option T) (old old' : T) :
  fst (getJsonValue element old) = fst (getJsonValue element old').
Proof. destruct element; reflexivity. Qed.

Lemma config_complete_indep (top : option JsonConfig) (u u' : NanoLeafDisplay) :
  config_complete top u = config_complete top u'.
Proof.
  unfold config_complete.
  rewrite (getJsonValue_fst_indep (field top cfg_TwoTone) (inTwoToneMode u) (inTwoToneMode u')),
    (getJsonValue_fst_indep (field top cfg_InSeries) (inSeriesMode u) (inSeriesMode u')),
    (getJsonValue_fst_indep (field top cfg_SecsMins) (inSecsMinsMode u) (inSecsMinsMode u')),
    (getJsonValue_fst_indep (field top cfg_Manual) (inManualMode u) (inManualMode u')),
    (getJsonValue_fst_indep (field top cfg_Digit1) (digit0Value u) (digit0Value u')),
    (getJsonValue_fst_indep (field top cfg_Digit2) (digit1Value u) (digit1Value u')),
    (getJsonValue_fst_indep (field top cfg_Digit3) (digit2Value u) (digit2Value u')),
    (getJsonValue_fst_indep (field top cfg_Digit4) (digit3Value u) (digit3Value u')),
    (getJsonValue_fst_indep (field top cfg_TempHumid) (inTempHumidMode u)
       (inTempHumidMode u')).
  reflexivity.
Qed.

Lemma settled_after_update (top : option JsonConfig) (u : NanoLeafDisplay)
    (f : Z -> option Z) (p1 p2 p3 : option Z) :
  settled top (remember_modes (apply_config top u)) /\
  settled top
    (remember_modes (set_segments f (set_colorSources p1 p2 p3 (apply_config top u)))).
Proof.
  destruct u.
  lazy beta iota zeta delta
    [settled remember_modes apply_config set_last set_segments set_colorSources
     set_config segments firstSeg secondSeg thirdSeg currentHour currentMin currentSec
     currentTemp currentHumid inTwoToneMode inSeriesMode inSecsMinsMode inManualMode
     inTempHumidMode digit0Value digit1Value digit2Value digit3Value lastTwoToneMode
     lastInSeriesMode lastTempHumidMode lastDHT11TimeRead].
  rewrite !getJsonValue_snd_idem. split; split; reflexivity.
Qed.

Lemma settled_noop (resetSegments : WS2812FX -> WS2812FX)
    (top : option JsonConfig) (w : World) :
  settled top (self w) ->
  readFromConfig resetSegments top w = Some (config_complete top (self w), w).
Proof.
  intros [Happly Hrem]. rewrite readFromConfig_unfold.
  assert (L1 : lastTwoToneMode (self w) = inTwoToneMode (self w))
    by (rewrite <- Hrem at 1; reflexivity).
  assert (L2 : lastInSeriesMode (self w) = inSeriesMode (self w))
    by (rewrite <- Hrem at 1; reflexivity).
  assert (L3 : lastTempHumidMode (self w) = inTempHumidMode (self w))
    by (rewrite <- Hrem at 1; reflexivity).
  unfold entersSeries, entersTwoTone, entersTempHumid.
  rewrite Happly, L1, L2, L3, !Bool.eqb_reflx. cbn [negb].
  rewrite !andb_false_r. cbn [orb mbind option_bind].
  destruct w as [u st n]. unfold with_self. cbn [self strip dht11_reads] in *.
  rewrite Happly, Hrem. reflexivity.
Qed.

(** X11: re-wiring is triggered by changes only.  Whatever a configuration
    update did, applying the same stored configuration once more changes
    nothing at all: no member, no host range, no pixel, the same completeness
    report; in particular no wiring is done a second time. *)
Theorem readFromConfig_idempotent (resetSegments : WS2812FX -> WS2812FX)
    (top : option JsonConfig) (w : World) (complete : bool) (w1 : World) :
  readFromConfig resetSegments top w = Some (complete, w1) ->
  readFromConfig resetSegments top w1 = Some (complete, w1).
Proof.
  intros Hrun.
  assert (Hs : settled top (self w1) /\ complete = config_complete top (self w)).
  { rewrite readFromConfig_unfold in Hrun.
    destruct (entersSeries top (self w)).
    - injection Hrun as <- <-. split; [|reflexivity].
      apply (settled_after_update top (self w) (fun _ => None) None None None).
    - destruct (entersTwoTone top (self w) || entersTempHumid top (self w)).
      + destruct (wireSegmented_spec (with_self (apply_config top) w))
          as (w2 & Hwire & _ & _ & _ & Hself).
        rewrite Hwire in Hrun. injection Hrun as <- <-. split; [|reflexivity].
        cbn [self with_self]. rewrite Hself.
        apply (settled_after_update top (self w)).
      + injection Hrun as <- <-. split; [|reflexivity].
        apply (settled_after_update top (self w) (fun _ => None) None None None). }
  destruct Hs as [Hs ->].
  rewrite (settled_noop resetSegments top w1 Hs).
  rewrite (config_complete_indep top (self w1) (self w)). reflexivity.
Qed.

Lemma readFromConfig_idempotent_witness :
  exists complete w1,
    readFromConfig resetSegments_clear (Some series_config) wired_world
    = Some (complete, w1) /\
    readFromConfig resetSegments_clear (Some series_config) w1 = Some (complete, w1).
Proof.
  destruct (readFromConfig_result resetSegments_clear (Some series_config) wired_world)
    as (w1 & Hrun & _).
  exists (config_complete (Some series_config) (self wired_world)), w1.
  split; [exact Hrun|].
  exact (readFromConfig_idempotent resetSegments_clear (Some series_config) wired_world
           _ w1 Hrun).
Defined.

(** ** The rate limit across the wrap of [millis()] *)

(** X12: the elapsed time is measured correctly across the wrap of the
    32-bit [millis()] counter.  After a reading stamped at uptime [t1], a call
    at uptime [t2] with [0 <= t2 - t1 < 2^32] sees exactly [t2 - t1] as elapsed
    time, wherever the counter wrapped in between, and reads the sensor if
    and only if [t2 - t1] exceeds 10000; the stored stamp is a valid 32-bit
    [long]. *)
Theorem elapsed_across_rollover (e1 e2 : Env) (w : World) :
  elapsed e1 w > 10000 ->
  0 <= millis_check e2 - millis_stamp e1 < 2 ^ 32 ->
  - 2 ^ 31 <= lastDHT11TimeRead (self (readTempAndHumid e1 w)) < 2 ^ 31 /\
  elapsed e2 (readTempAndHumid e1 w) = millis_check e2 - millis_stamp e1 /\
  dht11_reads (readTempAndHumid e2 (readTempAndHumid e1 w))
  = (if 10000 <? millis_check e2 - millis_stamp e1
     then S (S (dht11_reads w)) else S (dht11_reads w)).
Proof.
  intros Hread Hdiff.
  assert (Hel : elapsed e2 (readTempAndHumid e1 w) = millis_check e2 - millis_stamp e1).
  { rewrite (readTempAndHumid_read e1 w Hread). unfold elapsed.
    cbn [self dht11_read with_self set_reading set_lastDHT11TimeRead lastDHT11TimeRead].
    rewrite elapsed_after_read. apply Z.mod_small. exact Hdiff. }
  split; [|split; [exact Hel|]].
  - rewrite (readTempAndHumid_read e1 w Hread).
    cbn [self dht11_read with_self set_reading set_lastDHT11TimeRead lastDHT11TimeRead].
    unfold to_long, u32. change (2 ^ 32) with 4294967296.
    change (2 ^ 31) with 2147483648. Z.div_mod_to_equations. lia.
  - destruct (Z.ltb_spec 10000 (millis_check e2 - millis_stamp e1)) as [Hgt|Hle].
    + rewrite (readTempAndHumid_read e2 _ ltac:(rewrite Hel; lia)).
      rewrite (readTempAndHumid_read e1 w Hread). reflexivity.
    + rewrite (readTempAndHumid_skip e2 _ ltac:(rewrite Hel; lia)).
      rewrite (readTempAndHumid_read e1 w Hread). reflexivity.
Qed.

Lemma elapsed_across_rollover_witness :
  elapsed before_rollover fresh_world > 10000 /\
  0 <= millis_check after_rollover - millis_stamp before_rollover < 2 ^ 32 /\
  - 2 ^ 31 <= lastDHT11TimeRead (self (readTempAndHumid before_rollover fresh_world))
  < 2 ^ 31 /\
  elapsed after_rollover (readTempAndHumid before_rollover fresh_world)
  = millis_check after_rollover - millis_stamp before_rollover /\
  dht11_reads (readTempAndHumid after_rollover
                 (readTempAndHumid before_rollover fresh_world))
  = (if 10000 <? millis_check after_rollover - millis_stamp before_rollover
     then S (S (dht11_reads fresh_world)) else S (dht11_reads fresh_world)).
Proof.
  assert (H1 : elapsed before_rollover fresh_world > 10000) by reflexivity.
  assert (H2 : 0 <= millis_check after_rollover - millis_stamp before_rollover < 2 ^ 32)
    by (split; [vm_compute; discriminate | reflexivity]).
  split; [exact H1|]. split; [exact H2|].
  exact (elapsed_across_rollover before_rollover after_rollover fresh_world H1 H2).
Defined.

(** ** [setup] *)

(** X13: [setup] wires the display only when the two-tone or the
    temperature/humidity flag is set: it then lays the ranges out with
    [setSegments(3, 28)] and assigns every segment pointer; with neither flag
    set (Series mode at boot) it touches neither the host ranges nor the
    pointers, so no wiring of either kind is done.  In both cases the sensor
    is read exactly once, the reading is stored, and the time stamp of the
    rate limit is left as it was.  With a reading inside 0..99 and manual
    digits inside 0..9 the wired display is in the state from which every run
    of host calls stays defined. *)
Theorem setup_wiring (e : Env) (w : World) :
  (inTwoToneMode (self w) || inTempHumidMode (self w) = true ->
   exists w',
     setup e w = Some w' /\
     wired (self w') /\
     strip w' = setSegments ADDR_LEDS_PER_SEG NUM_OF_SEGMENTS (strip w) /\
     sensor_state w'
     = (S (dht11_reads w), dht_temperature e, dht_humidity e, lastDHT11TimeRead (self w)) /\
     (valid_reading e -> valid_manual (self w) -> safe (self w'))) /\
  (inTwoToneMode (self w) || inTempHumidMode (self w) = false ->
   exists w',
     setup e w = Some w' /\
     strip w' = strip w /\
     segments (self w') = segments (self w) /\
     firstSeg (self w') = firstSeg (self w) /\
     secondSeg (self w') = secondSeg (self w) /\
     thirdSeg (self w') = thirdSeg (self w) /\
     sensor_state w'
     = (S (dht11_reads w), dht_temperature e, dht_humidity e, lastDHT11TimeRead (self w))).
Proof.
  split; intros Hmode; unfold setup; rewrite Hmode.
  - destruct (wireSegmented_spec w) as (w1 & Hrun & Hw & Hstrip & Hreads & Hself).
    rewrite Hrun. cbn [mbind option_bind]. eexists. split; [reflexivity|].
    unfold initDHT11Sensor, dht11_read, sensor_state. cbn [self strip dht11_reads].
    split; [exact Hw|]. split; [exact Hstrip|]. split.
    + rewrite Hreads, Hself. reflexivity.
    + intros (Ht & Hh) Hm. split; [exact Hw|]. split.
      * rewrite Hself. exact Hm.
      * split; [exact Ht | exact Hh].
  - cbn [mbind option_bind]. eexists. split; [reflexivity|]. repeat split.
Qed.

Lemma setup_wiring_witness :
  inTwoToneMode (self fresh_world) || inTempHumidMode (self fresh_world) = true /\
  (exists w',
     setup noon fresh_world = Some w' /\
     wired (self w') /\
     strip w' = setSegments ADDR_LEDS_PER_SEG NUM_OF_SEGMENTS (strip fresh_world) /\
     sensor_state w' = (1%nat, 25, 40, 0) /\
     (valid_reading noon -> valid_manual (self fresh_world) -> safe (self w'))) /\
  inTwoToneMode (self series_world) || inTempHumidMode (self series_world) = false /\
  (exists w',
     setup noon series_world = Some w' /\
     strip w' = strip series_world /\
     segments (self w') = segments (self series_world) /\
     firstSeg (self w') = firstSeg (self series_world) /\
     secondSeg (self w') = secondSeg (self series_world) /\
     thirdSeg (self w') = thirdSeg (self series_world) /\
     sensor_state w' = (1%nat, 25, 40, 0)).
Proof.
  destruct (setup_wiring noon fresh_world) as [Hwire _].
  destruct (setup_wiring noon series_world) as [_ Hnone].
  split; [reflexivity|]. split; [exact (Hwire eq_refl)|].
  split; [reflexivity | exact (Hnone eq_refl)].
Defined.

(** ** Turning a segment off and colouring it again *)

(** X14: [segCopyProps] restores only what it copies.  When a segment that
    [turnOffSeg] turned off is coloured again from a colour source, its
    colour channel 0, effect mode, speed, intensity and palette are those of
    the source, but channels 1 and 2 stay black and option bit 0 stays
    cleared; its LED range and the source are unchanged. *)
Theorem segCopyProps_after_turnOffSeg (seg src segId : Z) (st : WS2812FX) :
  seg <> src -> segId + NUM_FIRST_LEDS = seg ->
  let source := strip_segments st src in
  let st' := segCopyProps seg src segId (turnOffSeg seg segId st) in
  colors (strip_segments st' seg) = (color0 source, 0, 0) /\
  Z.testbit (options (strip_segments st' seg)) 0 = false /\
  mode (strip_segments st' seg) = mode source /\
  speed (strip_segments st' seg) = speed source /\
  intensity (strip_segments st' seg) = intensity source /\
  palette (strip_segments st' seg) = palette source /\
  range st' seg = range st seg /\
  strip_segments st' src = source.
Proof.
  intros Hne Hid source st'. unfold st', range.
  rewrite !(segCopyProps_segments seg src segId _ _ Hne Hid).
  rewrite !turnOffSeg_segments.
  destruct (decide (seg = seg)) as [_|?]; [|congruence].
  destruct (decide (seg = src)) as [?|_]; [contradiction|].
  fold source.
  destruct (strip_segments st seg) as [a b [[c0 c1] c2] m sp it pa op].
  destruct source as [a' b' [[c0' c1'] c2'] m' sp' it' pa' op'].
  cbv beta iota delta [copy_props segment_off Segment_setOption Segment_setColor
    set_options set_colors set_palette set_intensity set_speed set_mode color0
    colors options start stop mode speed intensity palette fst snd].
  repeat split. apply Z.clearbit_eq.
Qed.

Lemma segCopyProps_after_turnOffSeg_witness :
  3 <> 0 /\ 0 + NUM_FIRST_LEDS = 3 /\
  colors (strip_segments (segCopyProps 3 0 0 (turnOffSeg 3 0 fresh_strip)) 3)
  = (color0 (strip_segments fresh_strip 0), 0, 0) /\
  Z.testbit
    (options (strip_segments (segCopyProps 3 0 0 (turnOffSeg 3 0 fresh_strip)) 3)) 0
  = false.
Proof.
  assert (H1 : 3 <> 0) by lia.
  assert (H2 : 0 + NUM_FIRST_LEDS = 3) by reflexivity.
  destruct (segCopyProps_after_turnOffSeg 3 0 0 fresh_strip H1 H2) as (Hc & Ho & _).
  split; [exact H1|]. split; [exact H2|]. split; [exact Hc | exact Ho].
Defined.

(** ** Series mode together with a segmented mode *)

(** X15: when the Series flag is set together with the two-tone or the
    temperature/humidity flag, the overlay drawn by [handleOverlayDraw] goes
    through the segment pointers, not through the pixel buffer: on a wired
    display with the clock (or the manual digits) in range it turns off the
    segments of the glyphs once more and writes no pixel at all. *)
Theorem series_overlay_on_segments (e : Env) (w : World) :
  inSeriesMode (self w) = true ->
  inTwoToneMode (self w) || inTempHumidMode (self w) = true ->
  wired (self w) ->
  (if inManualMode (self w) then valid_manual (self w) else valid_clock e) ->
  exists w',
    handleOverlayDraw e w = Some w' /\
    strip_pixels (strip w') = strip_pixels (strip w) /\
    forall i,
      strip_segments (strip w') (i + NUM_FIRST_LEDS)
      = if blanked (time_digit (self (shown e w))) i
        then segment_off (strip_segments (strip w) (i + NUM_FIRST_LEDS))
        else strip_segments (strip w) (i + NUM_FIRST_LEDS).
Proof.
  intros Hser Hmode Hw Hvalid.
  destruct (shown_rest e w) as (Hst & _ & Hwd & Ht & Hth & _).
  destruct (setDigits_segmented (time_digit (self (shown e w))) (shown e w))
    as (w' & Hdig & _ & _ & Hpix & Hsegs).
  { intros d Hd. apply time_digit_valid; assumption. }
  { rewrite Hwd. exact Hw. }
  { rewrite Ht, Hth. exact Hmode. }
  exists w'. split.
  { unfold handleOverlayDraw, inSeries. rewrite Hser, displayTime_setDigits. exact Hdig. }
  split; [rewrite Hpix, Hst; reflexivity|].
  intros i. rewrite Hsegs, Hst. reflexivity.
Qed.

Lemma series_overlay_on_segments_witness :
  inSeriesMode (self series_twoTone_world) = true /\
  inTwoToneMode (self series_twoTone_world)
  || inTempHumidMode (self series_twoTone_world) = true /\
  wired (self series_twoTone_world) /\ valid_clock noon /\
  exists w',
    handleOverlayDraw noon series_twoTone_world = Some w' /\
    strip_pixels (strip w') = strip_pixels (strip series_twoTone_world) /\
    forall i,
      strip_segments (strip w') (i + NUM_FIRST_LEDS)
      = if blanked (time_digit (self (shown noon series_twoTone_world))) i
        then segment_off (strip_segments (strip series_twoTone_world) (i + NUM_FIRST_LEDS))
        else strip_segments (strip series_twoTone_world) (i + NUM_FIRST_LEDS).
Proof.
  assert (Hw : wired (self series_twoTone_world)).
  { split; [reflexivity|]. split; [reflexivity|]. split; [reflexivity|].
    intros i Hi. cbn. rewrite bool_decide_eq_true_2 by exact Hi. reflexivity. }
  assert (Hc : valid_clock noon) by (unfold valid_clock; cbn; lia).
  split; [reflexivity|]. split; [reflexivity|]. split; [exact Hw|]. split; [exact Hc|].
  apply (series_overlay_on_segments noon series_twoTone_world);
    [reflexivity | reflexivity | exact Hw | exact Hc].
Defined.

(** ** What rendering never changes *)

Lemma setDigits_self (v0 v1 v2 v3 : Z) (w w' : World) :
  setDigits v0 v1 v2 v3 w = Some w' -> self w' = self w.
Proof.
  unfold setDigits. intros H.
  destruct (setDigit 0 v0 w) as [w1|] eqn:R1; cbn [mbind option_bind] in H; [|discriminate].
  destruct (setDigit 1 v1 w1) as [w2|] eqn:R2; cbn [mbind option_bind] in H; [|discriminate].
  destruct (setDigit 2 v2 w2) as [w3|] eqn:R3; cbn [mbind option_bind] in H; [|discriminate].
  rewrite (proj1 (setDigit_self _ _ _ _ H)), (proj1 (setDigit_self _ _ _ _ R3)),
    (proj1 (setDigit_self _ _ _ _ R2)), (proj1 (setDigit_self _ _ _ _ R1)).
  reflexivity.
Qed.

Lemma displayTime_self (e : Env) (w w' : World) :
  displayTime e w = Some w' -> self w' = self (shown e w).
Proof. rewrite displayTime_setDigits. apply setDigits_self. Qed.

Lemma twoTone_body_self (i : Z) (w w' : World) :
  twoTone_body i w = Some w' -> self w' = self w.
Proof.
  unfold twoTone_body. intros H.
  destruct (bool_decide (midSegmentIndex <= i));
    destruct (deref_segments w i); cbn [mbind option_bind] in H; try discriminate;
    [destruct (firstSeg (self w)) | destruct (secondSeg (self w))];
    cbn [mbind option_bind] in H; try discriminate; injection H as <-; reflexivity.
Qed.

Lemma setTempHumidColors_body_self (i : Z) (w w' : World) :
  setTempHumidColors_body i w = Some w' -> self w' = self w.
Proof.
  unfold setTempHumidColors_body. intros H.
  destruct (bool_decide (midSegmentIndex <= i));
    [destruct (0 <? currentTemp (self w))|];
    destruct (deref_segments w i); cbn [mbind option_bind] in H; try discriminate;
    [destruct (firstSeg (self w)) | destruct (secondSeg (self w))
    | destruct (thirdSeg (self w))];
    cbn [mbind option_bind] in H; try discriminate; injection H as <-; reflexivity.
Qed.

Lemma shown_settings (e : Env) (w : World) :
  addToConfig (self (shown e w)) = addToConfig (self w) /\
  segments (self (shown e w)) = segments (self w) /\
  firstSeg (self (shown e w)) = firstSeg (self w) /\
  secondSeg (self (shown e w)) = secondSeg (self w) /\
  thirdSeg (self (shown e w)) = thirdSeg (self w) /\
  lastTwoToneMode (self (shown e w)) = lastTwoToneMode (self w) /\
  lastInSeriesMode (self (shown e w)) = lastInSeriesMode (self w) /\
  lastTempHumidMode (self (shown e w)) = lastTempHumidMode (self w).
Proof. unfold shown. destruct (inManualMode (self w)); repeat split. Qed.

Lemma readTempAndHumid_settings (e : Env) (w : World) :
  addToConfig (self (readTempAndHumid e w)) = addToConfig (self w) /\
  segments (self (readTempAndHumid e w)) = segments (self w) /\
  firstSeg (self (readTempAndHumid e w)) = firstSeg (self w) /\
  secondSeg (self (readTempAndHumid e w)) = secondSeg (self w) /\
  thirdSeg (self (readTempAndHumid e w)) = thirdSeg (self w) /\
  lastTwoToneMode (self (readTempAndHumid e w)) = lastTwoToneMode (self w) /\
  lastInSeriesMode (self (readTempAndHumid e w)) = lastInSeriesMode (self w) /\
  lastTempHumidMode (self (readTempAndHumid e w)) = lastTempHumidMode (self w).
Proof.
  unfold readTempAndHumid. destruct (dht11ReadingDelay <? elapsed e w); repeat split.
Qed.

(** X16: rendering never changes the settings.  Whenever [loop] or
    [handleOverlayDraw] returns, in any state, the five mode flags and the
    four manual digits (what [addToConfig] would store), the segment pointers
    and the remembered modes are exactly as before; only the clock members,
    the cached reading and its stamp can differ. *)
Theorem render_keeps_settings (e : Env) (w w' : World) :
  loop e w = Some w' \/ handleOverlayDraw e w = Some w' ->
  addToConfig (self w') = addToConfig (self w) /\
  segments (self w') = segments (self w) /\
  firstSeg (self w') = firstSeg (self w) /\
  secondSeg (self w') = secondSeg (self w) /\
  thirdSeg (self w') = thirdSeg (self w) /\
  lastTwoToneMode (self w') = lastTwoToneMode (self w) /\
  lastInSeriesMode (self w') = lastInSeriesMode (self w) /\
  lastTempHumidMode (self w') = lastTempHumidMode (self w).
Proof.
  intros [H|H].
  - unfold loop in H. destruct (inTwoToneMode (self w)).
    + unfold twoTone, twoTone_colors in H.
      destruct (for_loop (Z.to_nat NUM_OF_SEGMENTS) 0 twoTone_body w) as [w1|] eqn:Hloop;
        cbn [mbind option_bind] in H; [|discriminate].
      assert (Hs1 : self w1 = self w).
      { apply (for_loop_preserves (fun x => self x = self w) twoTone_body)
          with (n := Z.to_nat NUM_OF_SEGMENTS) (i := 0) (s := w);
          [|reflexivity|exact Hloop].
        intros i s s' Hs Hb. rewrite (twoTone_body_self _ _ _ Hb). exact Hs. }
      rewrite (displayTime_self _ _ _ H), (shown_self e w1 w Hs1).
      apply shown_settings.
    + destruct (inTempHumidMode (self w)).
      * rewrite displayTempAndHumid_setDigits in H. unfold setTempHumidColors in H.
        destruct (for_loop (Z.to_nat NUM_OF_SEGMENTS) 0 setTempHumidColors_body
                    (readTempAndHumid e w)) as [w1|] eqn:Hloop;
          cbn [mbind option_bind] in H; [|discriminate].
        assert (Hs1 : self w1 = self (readTempAndHumid e w)).
        { apply (for_loop_preserves (fun x => self x = self (readTempAndHumid e w))
                   setTempHumidColors_body)
            with (n := Z.to_nat NUM_OF_SEGMENTS) (i := 0) (s := readTempAndHumid e w);
            [|reflexivity|exact Hloop].
          intros i s s' Hs Hb. rewrite (setTempHumidColors_body_self _ _ _ Hb). exact Hs. }
        rewrite (setDigits_self _ _ _ _ _ _ H), Hs1.
        apply readTempAndHumid_settings.
      * injection H as <-. repeat split.
  - unfold handleOverlayDraw, inSeries in H. destruct (inSeriesMode (self w)).
    + rewrite (displayTime_self _ _ _ H). apply shown_settings.
    + injection H as <-. repeat split.
Qed.

Lemma render_keeps_settings_witness :
  exists w',
    loop noon both_world = Some w' /\
    addToConfig (self w') = addToConfig (self both_world) /\
    segments (self w') = segments (self both_world).
Proof.
  destruct (loop_safe noon both_world) as (w' & Hrun & _).
  - split.
    + split; [reflexivity|]. split; [reflexivity|]. split; [reflexivity|].
      intros i Hi. cbn. rewrite bool_decide_eq_true_2 by exact Hi. reflexivity.
    + unfold valid_manual. cbn. lia.
  - unfold valid_clock. cbn. lia.
  - unfold valid_reading. cbn. lia.
  - exists w'. split; [exact Hrun|].
    destruct (render_keeps_settings noon both_world w' (or_introl Hrun)) as (Hc & Hp & _).
    split; [exact Hc | exact Hp].
Defined.
